(** * Mesh speedcubing timer: statistics, phase splits, typed entry, import

    A shallow embedding of the engine functions of [main.js]
    ([getEffectiveTime], [calculateAverage], [updateStats],
    [updateMeshSplit], the solve completion protocol, [parseTimeInput],
    [importData]) together with the properties the specification states
    about them.  The file holds two variants of the application; the
    embedding follows the second, complete one, and keeps the first
    [calculateAverage] in the module [Legacy].

    Modelling conventions.
    - A JavaScript number is a value of [num]: a finite value, [+Infinity],
      [-Infinity] or [NaN].  Finite values are rationals, kept in lowest
      terms ([Qred]) so that they can be compared syntactically, and [-0]
      is identified with [0].
    - The functions are embedded first with exact arithmetic; that
      embedding carries the properties on which the rounding of binary64
      arithmetic does not bear.  Where rounding or overflow decides a
      property (the phase shares, the typed durations, best, mean and
      worst), the function is embedded again in the module [Binary64], with
      every literal, every parsed text and every arithmetic result rounded
      to the nearest binary64 number.
    - A JavaScript string is a [string] whose characters are the code units
      below 256.
    - [null] is [None]; a thrown [TypeError] is [None] in the functions that
      can throw.
    - DOM updates, toasts, [saveState] and timers are effects outside the
      engine state and are left out; the clock and the scramble generator
      are inputs of the functions that read them.  The part on timer
      control adds the intervals of the page and the remaining fields of
      [State] in a record of its own, and the part on scramble generation
      takes the values of [Math.random] as a list. *)

From Stdlib Require Import ZArith QArith Qreduction Qround Lia Lqa Bool List Ascii String.
From Stdlib Require Import Permutation Sorted DecimalString.
From stdpp Require Import gmap strings.
Import ListNotations.

Local Open Scope Z_scope.

(** ** JavaScript numbers *)

Inductive num : Type :=
| Fin (q : Q)
| PInf
| NInf
| NaN.

Definition Qsign_pos (q : Q) : bool := Z.ltb 0 (Qnum q).
Definition Qsign_neg (q : Q) : bool := Z.ltb (Qnum q) 0.
Definition Qis_zero (q : Q) : bool := Z.eqb (Qnum q) 0.

Definition ofZ (z : Z) : num := Fin (inject_Z z).
Definition ofNat (n : nat) : num := ofZ (Z.of_nat n).

Definition isNaN (x : num) : bool :=
  match x with NaN => true | _ => false end.

(** [x + y] *)
Definition nadd (x y : num) : num :=
  match x, y with
  | NaN, _ | _, NaN => NaN
  | Fin a, Fin b => Fin (Qred (a + b))
  | PInf, NInf | NInf, PInf => NaN
  | PInf, _ | _, PInf => PInf
  | NInf, _ | _, NInf => NInf
  end.

(** [x - y] *)
Definition nsub (x y : num) : num :=
  match x, y with
  | NaN, _ | _, NaN => NaN
  | Fin a, Fin b => Fin (Qred (a - b))
  | PInf, PInf | NInf, NInf => NaN
  | PInf, _ | _, NInf => PInf
  | NInf, _ | _, PInf => NInf
  end.

(** The product of an infinity of sign [pos] with the finite value [q]. *)
Definition inf_times (pos : bool) (q : Q) : num :=
  if Qis_zero q then NaN
  else if Bool.eqb pos (Qsign_pos q) then PInf else NInf.

(** [x * y] *)
Definition nmul (x y : num) : num :=
  match x, y with
  | NaN, _ | _, NaN => NaN
  | Fin a, Fin b => Fin (Qred (a * b))
  | PInf, Fin b => inf_times true b
  | NInf, Fin b => inf_times false b
  | Fin a, PInf => inf_times true a
  | Fin a, NInf => inf_times false a
  | PInf, PInf | NInf, NInf => PInf
  | PInf, NInf | NInf, PInf => NInf
  end.

(** [x / y]; the zero divisor is [+0]. *)
Definition ndiv (x y : num) : num :=
  match x, y with
  | NaN, _ | _, NaN => NaN
  | Fin a, Fin b =>
      if Qis_zero b then
        (if Qis_zero a then NaN else if Qsign_pos a then PInf else NInf)
      else Fin (Qred (a / b))
  | Fin _, _ => Fin 0
  | PInf, Fin b => if Qsign_neg b then NInf else PInf
  | NInf, Fin b => if Qsign_neg b then PInf else NInf
  | _, _ => NaN
  end.

(** [x < y] *)
Definition nlt (x y : num) : bool :=
  match x, y with
  | NaN, _ | _, NaN => false
  | Fin a, Fin b => negb (Qle_bool b a)
  | NInf, NInf | PInf, _ | _, NInf => false
  | NInf, _ | _, PInf => true
  end.

(** [x <= y] *)
Definition nle (x y : num) : bool :=
  match x, y with
  | NaN, _ | _, NaN => false
  | Fin a, Fin b => Qle_bool a b
  | NInf, _ | _, PInf => true
  | PInf, _ | _, NInf => false
  end.

(** [x > y] and [x >= y] *)
Definition ngt (x y : num) : bool := nlt y x.
Definition nge (x y : num) : bool := nle y x.

(** [x === y] on numbers *)
Definition strictEq (x y : num) : bool :=
  match x, y with
  | Fin a, Fin b => Qeq_bool a b
  | PInf, PInf | NInf, NInf => true
  | _, _ => false
  end.

(** [Math.min(x, y)] and [Math.max(x, y)] *)
Definition min2 (x y : num) : num :=
  match x, y with
  | NaN, _ | _, NaN => NaN
  | _, _ => if nlt y x then y else x
  end.

Definition max2 (x y : num) : num :=
  match x, y with
  | NaN, _ | _, NaN => NaN
  | _, _ => if nlt x y then y else x
  end.

(** [Math.min(...l)] and [Math.max(...l)] *)
Definition Math_min (l : list num) : num := fold_left min2 l PInf.
Definition Math_max (l : list num) : num := fold_left max2 l NInf.

(** ** Data model *)

(** The values stored in the sparse objects [settings] and [metrics]. *)
Inductive value : Type :=
| VNull
| VBool (b : bool)
| VNumber (x : num)
| VString (s : string).

(** [solve.splits] once computed: [{ cross, f2l, ll }]. *)
Record phaseSplits : Type := {
  cross : num;
  f2l : num;
  ll : num
}.

(** A solve object.  [time] is a finite number of milliseconds: every path
    that creates a solve stores a measured or range-checked duration.
    [penalty] is [null], ['+2'] or ['DNF']; [metrics] is a sparse object,
    [{}] being the empty map. *)
Record solve : Type := {
  solve_id : string;
  time : Q;
  scramble : string;
  timestamp : Z;
  splits : option phaseSplits;
  metrics : gmap string value;
  penalty : option string
}.

Record session : Type := {
  session_id : string;
  type : string;
  name : string;
  solves : list solve;
  createdAt : Z
}.

(** ** Statistics *)

(** [solve.penalty === p] *)
Definition penaltyIs (p : string) (s : solve) : bool :=
  match penalty s with
  | Some p' => String.eqb p' p
  | None => false
  end.

Definition getEffectiveTime (s : solve) : num :=
  if penaltyIs "DNF" s then PInf
  else if penaltyIs "+2" s then nadd (Fin (time s)) (Fin 2000)
  else Fin (time s).

(** [Array.prototype.slice(start, end)] with relative (negative) indices. *)
Definition relIndex (len i : Z) : Z :=
  if i <? 0 then Z.max (len + i) 0 else Z.min i len.

Definition slice {A : Type} (start end_ : Z) (l : list A) : list A :=
  let len := Z.of_nat (List.length l) in
  let k := relIndex len start in
  let final := relIndex len end_ in
  firstn (Z.to_nat (Z.max (final - k) 0)) (skipn (Z.to_nat k) l).

(** [slice(start)]: up to the end of the array. *)
Definition sliceFrom {A : Type} (start : Z) (l : list A) : list A :=
  slice start (Z.of_nat (List.length l)) l.

(** [Array.prototype.sort(compareFn)].  The sort is stable and [x] is placed
    before [y] unless [compareFn(x, y) > 0] (a [NaN] comparison counts as
    [0]); for a consistent comparator this determines the result, which
    insertion computes. *)
Fixpoint sortInsert (compareFn : num -> num -> num) (x : num) (l : list num)
  : list num :=
  match l with
  | [] => [x]
  | y :: l' =>
      if ngt (compareFn x y) (Fin 0) then y :: sortInsert compareFn x l'
      else x :: l
  end.

Fixpoint Array_sort (compareFn : num -> num -> num) (l : list num) : list num :=
  match l with
  | [] => []
  | x :: l' => sortInsert compareFn x (Array_sort compareFn l')
  end.

(** [reduce((a, b) => a + b, 0)] *)
Definition sumOf (l : list num) : num := fold_left nadd l (Fin 0).

Definition calculateAverage (solves : list solve) (n : Z) : option num :=
  if Z.of_nat (List.length solves) <? n then None
  else
    let recent := sliceFrom (- n) solves in
    let dnfCount := List.length (List.filter (penaltyIs "DNF") recent) in
    if (1 <? Z.of_nat dnfCount) then None
    else
      let times := map getEffectiveTime recent in
      let sorted := Array_sort (fun a b => nsub a b) times in
      let trimmed := slice 1 (-1) sorted in
      if existsb (fun t => strictEq t PInf) trimmed then None
      else Some (ndiv (sumOf trimmed) (ofNat (List.length trimmed))).

(** The first variant of the file computes the average on raw times. *)
Module Legacy.

Definition calculateAverage (times : list num) (n : Z) : option num :=
  if Z.of_nat (List.length times) <? n then None
  else
    let recent := sliceFrom (- n) times in
    let sorted := Array_sort (fun a b => nsub a b) recent in
    let trimmed := slice 1 (-1) sorted in
    Some (ndiv (sumOf trimmed) (ofNat (List.length trimmed))).

End Legacy.

(** What [formatTime] writes: ['-'] for [null] and [Infinity], otherwise the
    digits of its argument (the layout of the digits is not modelled). *)
Inductive display : Type :=
| Dash
| Shown (ms : num).

Definition formatTime (ms : option num) : display :=
  match ms with
  | None => Dash
  | Some PInf => Dash
  | Some x => Shown x
  end.

(** The text contents [updateStats] assigns. *)
Record statsView : Type := {
  ao5 : display;
  ao12 : display;
  ao50 : display;
  ao100 : display;
  best : display;
  worst : display;
  mean : display;
  count : nat
}.

Definition updateStats (current : option session) : statsView :=
  match current with
  | None => Build_statsView Dash Dash Dash Dash Dash Dash Dash 0
  | Some sess =>
      if Nat.eqb (List.length (solves sess)) 0
      then Build_statsView Dash Dash Dash Dash Dash Dash Dash 0
      else
        let validSolves := List.filter (fun s => negb (penaltyIs "DNF" s)) (solves sess) in
        let times := map getEffectiveTime validSolves in
        let avg n := formatTime (calculateAverage (solves sess) n) in
        if Nat.ltb 0 (List.length times) then
          {| ao5 := avg 5; ao12 := avg 12; ao50 := avg 50; ao100 := avg 100;
             best := formatTime (Some (Math_min times));
             worst := formatTime (Some (Math_max times));
             mean := formatTime
                       (Some (ndiv (sumOf times) (ofNat (List.length times))));
             count := List.length (solves sess) |}
        else
          {| ao5 := avg 5; ao12 := avg 12; ao50 := avg 50; ao100 := avg 100;
             best := Dash; worst := Dash; mean := Dash;
             count := List.length (solves sess) |}
  end.

(** ** Application state *)

(** The part of the global [State] object the engine reads and writes.
    [meshSplits] is the two-element array [[r1, r2]]. *)
Record State : Type := {
  sessions : list session;
  currentSessionId : option string;
  timerState : string;
  timerValue : Q;
  intervalId : option Z;
  currentScramble : string;
  settings : gmap string value;
  currentSolve : option solve;
  meshSplits : num * num
}.

(** Decimal literal of the source, in lowest terms. *)
Definition lit (q : Q) : num := Fin (Qred q).

(** The initial state of the file. *)
Definition initialSettings : gmap string value :=
  list_to_map
    [("meshBar"%string, VBool true); ("stackmat"%string, VBool false);
     ("hideWhileRunning"%string, VBool false);
     ("voiceAlerts"%string, VBool false); ("showHistory"%string, VBool true);
     ("confirmDelete"%string, VBool true);
     ("theme"%string, VString "dark"); ("typingMode"%string, VBool false)].

Definition initialState : State :=
  {| sessions := [];
     currentSessionId := None;
     timerState := "idle";
     timerValue := 0;
     intervalId := None;
     currentScramble := EmptyString;
     settings := initialSettings;
     currentSolve := None;
     meshSplits := (lit 0.2, lit 0.65) |}.

(** Truthiness of a property read, [None] being [undefined]. *)
Definition truthy (v : option value) : bool :=
  match v with
  | None | Some VNull => false
  | Some (VBool b) => b
  | Some (VNumber (Fin q)) => negb (Qis_zero q)
  | Some (VNumber NaN) => false
  | Some (VNumber _) => true
  | Some (VString s) => negb (String.eqb s EmptyString)
  end.

Definition idIs (sid : option string) (s : session) : bool :=
  match sid with
  | Some i => String.eqb (session_id s) i
  | None => false
  end.

Definition getCurrentSession (st : State) : option session :=
  find (idIs (currentSessionId st)) (sessions st).

(** ** Phase splits *)

Definition setMeshSplits (st : State) (r : num * num) : State :=
  {| sessions := sessions st;
     currentSessionId := currentSessionId st;
     timerState := timerState st;
     timerValue := timerValue st;
     intervalId := intervalId st;
     currentScramble := currentScramble st;
     settings := settings st;
     currentSolve := currentSolve st;
     meshSplits := r |}.

Definition updateMeshSplit (index relativeX : num) (st : State) : State :=
  let '(r1, r2) := meshSplits st in
  if strictEq index (Fin 0) then
    let r1 := max2 (lit 0.1) (min2 (lit 0.4) relativeX) in
    let r1 := if nge r1 (nsub r2 (lit 0.1)) then nsub r2 (lit 0.1) else r1 in
    setMeshSplits st (r1, r2)
  else if strictEq index (Fin 1) then
    let r2 := max2 (lit 0.5) (min2 (lit 0.9) relativeX) in
    let r2 := if nle r2 (nadd r1 (lit 0.1)) then nadd r1 (lit 0.1) else r2 in
    setMeshSplits st (r1, r2)
  else st.

(** The three phase durations of [time] under the ratios [(r1, r2)]. *)
Definition phasesOf (time : num) (r : num * num) : phaseSplits :=
  {| cross := nmul time (fst r);
     f2l := nmul time (nsub (snd r) (fst r));
     ll := nmul time (nsub (Fin 1) (snd r)) |}.

(** ** Completion protocol *)

(** [Date.now().toString()] for the clock value [now]. *)
Definition toString (now : Z) : string :=
  DecimalString.NilZero.string_of_int (Z.to_int now).

Definition pushSolve (x : solve) (s : session) : session :=
  {| session_id := session_id s; type := type s; name := name s;
     solves := solves s ++ [x]; createdAt := createdAt s |}.

(** [getCurrentSession().solves.push(x)]: the first session with the current
    id is mutated in place; [None] when there is none ([TypeError]). *)
Fixpoint pushToCurrent (sid : option string) (x : solve) (l : list session)
  : option (list session) :=
  match l with
  | [] => None
  | s :: l' =>
      if idIs sid s then Some (pushSolve x s :: l')
      else option_map (cons s) (pushToCurrent sid x l')
  end.

(** [completeSolve]; [nextScramble] is what [generateScramble] draws.  The
    dialogs that lead here are open only while a solve is pending. *)
Definition completeSolve (nextScramble : string) (st : State) : option State :=
  match currentSolve st with
  | None => None
  | Some x =>
      match pushToCurrent (currentSessionId st) x (sessions st) with
      | None => None
      | Some sessions' =>
          Some {| sessions := sessions';
                  currentSessionId := currentSessionId st;
                  timerState := timerState st;
                  timerValue := timerValue st;
                  intervalId := intervalId st;
                  currentScramble := nextScramble;
                  settings := settings st;
                  currentSolve := None;
                  meshSplits := meshSplits st |}
      end
  end.

(** [stopTimer] at clock value [now].  With the mesh bar enabled the solve
    stays pending until the metrics dialog is saved or skipped. *)
Definition stopTimer (now : Z) (nextScramble : string) (st : State)
  : option State :=
  let time := timerValue st in
  let solve :=
    {| solve_id := toString now;
       time := time;
       scramble := currentScramble st;
       timestamp := now;
       splits := None;
       metrics := ∅;
       penalty := None |} in
  let st' :=
    {| sessions := sessions st;
       currentSessionId := currentSessionId st;
       timerState := "idle";
       timerValue := timerValue st;
       intervalId := None;
       currentScramble := currentScramble st;
       settings := settings st;
       currentSolve := Some solve;
       meshSplits := meshSplits st |} in
  if truthy (settings st !! "meshBar"%string) then Some st'
  else completeSolve nextScramble st'.

Definition skipMeshMetrics (nextScramble : string) (st : State) : option State :=
  completeSolve nextScramble st.

(** ** Strings and numeric parsing *)

Definition chars : Type := list ascii.

Definition code (c : ascii) : N := N_of_ascii c.

(** White space and line terminators below 256. *)
Definition isWhiteSpace (c : ascii) : bool :=
  let n := code c in
  (N.leb 9 n && N.leb n 13) || N.eqb n 32 || N.eqb n 160.

Definition isDigit (c : ascii) : bool :=
  let n := code c in N.leb 48 n && N.leb n 57.

Definition digitVal (c : ascii) : Z := Z.of_N (code c) - 48.

(** Value of a hexadecimal digit ([0-9], [a-f], [A-F]). *)
Definition hexVal (c : ascii) : option Z :=
  let n := code c in
  if N.leb 48 n && N.leb n 57 then Some (Z.of_N n - 48)
  else if N.leb 97 n && N.leb n 102 then Some (Z.of_N n - 87)
  else if N.leb 65 n && N.leb n 70 then Some (Z.of_N n - 55)
  else None.

Definition isHexDigit (c : ascii) : bool :=
  match hexVal c with Some _ => true | None => false end.

Fixpoint dropWhile (p : ascii -> bool) (l : chars) : chars :=
  match l with
  | [] => []
  | c :: l' => if p c then dropWhile p l' else l
  end.

Fixpoint takeWhile (p : ascii -> bool) (l : chars) : chars :=
  match l with
  | [] => []
  | c :: l' => if p c then c :: takeWhile p l' else []
  end.

Definition trimStart (l : chars) : chars := dropWhile isWhiteSpace l.

Definition trim (l : chars) : chars :=
  rev (dropWhile isWhiteSpace (rev (dropWhile isWhiteSpace l))).

Definition lowerChar (c : ascii) : ascii :=
  let n := code c in
  if (N.leb 65 n && N.leb n 90)
     || (N.leb 192 n && N.leb n 222 && negb (N.eqb n 215))
  then ascii_of_N (n + 32) else c.

Definition toLowerCase (l : chars) : chars := map lowerChar l.

Definition charsEqb (a b : chars) : bool :=
  String.eqb (string_of_list_ascii a) (string_of_list_ascii b).

Fixpoint startsWith (pre l : chars) : bool :=
  match pre, l with
  | [], _ => true
  | p :: pre', c :: l' => Ascii.eqb p c && startsWith pre' l'
  | _ :: _, [] => false
  end.

Definition endsWith (suf l : chars) : bool := startsWith (rev suf) (rev l).

Definition includes (c : ascii) (l : chars) : bool := existsb (Ascii.eqb c) l.

(** [l.split(c)] for a one-character separator. *)
Fixpoint split (c : ascii) (l : chars) : list chars :=
  match l with
  | [] => [[]]
  | x :: l' =>
      if Ascii.eqb x c then [] :: split c l'
      else
        match split c l' with
        | part :: parts => (x :: part) :: parts
        | [] => [[x]]
        end
  end.

(** Drops the last [k] characters. *)
Definition dropLast (k : nat) (l : chars) : chars := rev (skipn k (rev l)).

(** [l.replace(/\+2?$/, '')] *)
Definition stripPlusSuffix (l : chars) : chars :=
  if endsWith (list_ascii_of_string "+2") l then dropLast 2 l
  else if endsWith (list_ascii_of_string "+") l then dropLast 1 l
  else l.

Definition digitsValue (base : Z) (val : ascii -> Z) (l : chars) : Z :=
  fold_left (fun acc c => base * acc + val c) l 0.

(** An optional sign: [(negative, rest)]. *)
Definition readSign (l : chars) : bool * chars :=
  match l with
  | "-"%char :: r => (true, r)
  | "+"%char :: r => (false, r)
  | _ => (false, l)
  end.

(** The exponent part [e[+-]digits] at the head of [l], or [0]. *)
Definition readExponent (l : chars) : Z :=
  match l with
  | c :: r =>
      if Ascii.eqb c "e" || Ascii.eqb c "E" then
        let '(neg, r') := readSign r in
        let ds := takeWhile isDigit r' in
        match ds with
        | [] => 0
        | _ => let e := digitsValue 10 digitVal ds in if neg then - e else e
        end
      else 0
  | [] => 0
  end.

(** [parseFloat]: the longest prefix of the input, after leading white
    space, that is a decimal literal. *)
Definition parseFloat (input : chars) : num :=
  let '(neg, l) := readSign (trimStart input) in
  if startsWith (list_ascii_of_string "Infinity") l
  then (if neg then NInf else PInf)
  else
    let ip := takeWhile isDigit l in
    let r1 := dropWhile isDigit l in
    let '(fp, r2) :=
      match r1 with
      | "."%char :: r => (takeWhile isDigit r, dropWhile isDigit r)
      | _ => ([], r1)
      end in
    match ip ++ fp with
    | [] => NaN
    | ds =>
        let e := readExponent r2 - Z.of_nat (List.length fp) in
        let q := (inject_Z (digitsValue 10 digitVal ds) * Qpower 10 e)%Q in
        Fin (Qred (if neg then - q else q))
    end.

(** [parseInt] without a radix: decimal, or hexadecimal after [0x]. *)
Definition parseInt (input : chars) : num :=
  let '(neg, l) := readSign (trimStart input) in
  let '(radix, l) :=
    if startsWith (list_ascii_of_string "0x") l
       || startsWith (list_ascii_of_string "0X") l
    then (16, skipn 2 l) else (10, l) in
  let ds := if radix =? 16 then takeWhile isHexDigit l else takeWhile isDigit l in
  match ds with
  | [] => NaN
  | _ =>
      let v :=
        if radix =? 16
        then digitsValue 16 (fun c => match hexVal c with Some v => v | None => 0 end) ds
        else digitsValue 10 digitVal ds in
      Fin (inject_Z (if neg then - v else v))
  end.

(** ** Typed entry *)

Record parsedTime : Type := {
  parsed_time : num;
  parsed_penalty : option string
}.

(** The numeric body: [None] is the early [return null]. *)
Definition parseBody (input : chars) : option num :=
  if includes ":" input then
    match split ":" input with
    | minutes :: rest :: _ =>
        let seconds := parseFloat rest in
        if isNaN (parseInt minutes) || isNaN seconds then None
        else Some (nmul (nadd (nmul (parseInt minutes) (Fin 60)) seconds)
                        (Fin 1000))
    | _ => None
    end
  else
    let seconds := parseFloat input in
    if isNaN seconds then None else Some (nmul seconds (Fin 1000)).

Definition parseTimeInput (input : string) : option parsedTime :=
  let input := trim (list_ascii_of_string input) in
  if charsEqb (toLowerCase input) (list_ascii_of_string "dnf") then
    Some {| parsed_time := Fin 0; parsed_penalty := Some "DNF"%string |}
  else
    let '(penalty, input) :=
      if endsWith (list_ascii_of_string "+") input
         || endsWith (list_ascii_of_string "+2") input
      then (Some "+2"%string, trim (stripPlusSuffix input))
      else (None, input) in
    match parseBody input with
    | None => None
    | Some timeMs =>
        if nle timeMs (Fin 0) || ngt timeMs (Fin 3600000) then None
        else Some {| parsed_time := timeMs; parsed_penalty := penalty |}
    end.

(** ** Metrics dialog *)

(** [input ? parseInt(input) : null] for the text of a form field. *)
Definition metricOf (input : string) : value :=
  if String.eqb input EmptyString then VNull
  else VNumber (parseInt (list_ascii_of_string input)).

Definition saveMeshMetrics
    (crossMoves crossRotations f2lRotations : string)
    (f2lPause llRecognition : bool)
    (nextScramble : string) (st : State) : option State :=
  match currentSolve st with
  | None => None
  | Some cs =>
      let cs' :=
        {| solve_id := solve_id cs;
           time := time cs;
           scramble := scramble cs;
           timestamp := timestamp cs;
           splits := Some (phasesOf (Fin (time cs)) (meshSplits st));
           metrics :=
             list_to_map
               [("crossMoves"%string, metricOf crossMoves);
                ("crossRotations"%string, metricOf crossRotations);
                ("f2lRotations"%string, metricOf f2lRotations);
                ("f2lPause"%string, VBool f2lPause);
                ("llRecognition"%string, VBool llRecognition)];
           penalty := penalty cs |} in
      completeSolve nextScramble
        {| sessions := sessions st;
           currentSessionId := currentSessionId st;
           timerState := timerState st;
           timerValue := timerValue st;
           intervalId := intervalId st;
           currentScramble := currentScramble st;
           settings := settings st;
           currentSolve := Some cs';
           meshSplits := meshSplits st |}
  end.

(** ** Import *)

(** A top-level key of the imported document: a falsy value, or a value of
    the exported shape. *)
Inductive docField (A : Type) : Type :=
| Falsy
| Given (a : A).

Arguments Falsy {A}.
Arguments Given {A} a.

(** The parsed document; [None] is an absent key. *)
Record document : Type := {
  doc_sessions : option (docField (list session));
  doc_settings : option (docField (gmap string value));
  doc_meshSplits : option (docField (num * num))
}.

(** The [onload] handler of [importData]; [data = None] when [JSON.parse]
    throws or yields [null], which the [catch] absorbs. *)
Definition importData (data : option document) (st : State) : State :=
  match data with
  | None => st
  | Some d =>
      let sessions' :=
        match doc_sessions d with
        | Some (Given l) => l
        | _ => sessions st
        end in
      let settings' :=
        match doc_settings d with
        | Some (Given m) => m ∪ settings st
        | _ => settings st
        end in
      let meshSplits' :=
        match doc_meshSplits d with
        | Some (Given r) => r
        | _ => meshSplits st
        end in
      let current :=
        match sessions' with
        | s :: _ => Some (session_id s)
        | [] => currentSessionId st
        end in
      {| sessions := sessions';
         currentSessionId := current;
         timerState := timerState st;
         timerValue := timerValue st;
         intervalId := intervalId st;
         currentScramble := currentScramble st;
         settings := settings';
         currentSolve := currentSolve st;
         meshSplits := meshSplits' |}
  end.

(** * Vocabulary of the properties *)

(** ** Rolling average *)

(** Ascending order of numbers. *)
Definition ascending (l : list num) : Prop :=
  StronglySorted (fun a b => nle a b = true) l.

(** The comparator [(a, b) => a - b] of [calculateAverage]. *)
Definition byDifference (a b : num) : num := nsub a b.

(** Number of DNF solves of a window. *)
Definition voidCount (l : list solve) : nat :=
  List.length (List.filter (penaltyIs "DNF") l).

(** The mean of a collection of values, as the specification words it: the
    sum divided by the number of values, undefined for no value. *)
Definition meanOf (l : list num) : option num :=
  match l with
  | [] => None
  | _ => Some (ndiv (sumOf l) (ofNat (List.length l)))
  end.

(** The contract of [rollingAverage(n)], as the specification words it, on
    the result of [calculateAverage]. *)
Definition rollingAverageContract (solves : list solve) (n : Z) : Prop :=
  let result := calculateAverage solves n in
  (Z.of_nat (List.length solves) < n -> result = None) /\
  (n <= Z.of_nat (List.length solves) ->
   exists older window,
     solves = older ++ window /\ Z.of_nat (List.length window) = n /\
     ((1 < voidCount window)%nat -> result = None) /\
     ((voidCount window <= 1)%nat ->
      exists lo mid hi,
        Permutation (map getEffectiveTime window) (lo :: mid ++ [hi]) /\
        ascending (lo :: mid ++ [hi]) /\
        Z.of_nat (List.length mid) = n - 2 /\
        (In PInf mid -> result = None) /\
        (~ In PInf mid -> exists m, meanOf mid = Some m /\ result = Some m))).

(** Sample data: a solve of [t] ms with penalty [p]. *)
Definition sampleSolve (t : Z) (p : option string) : solve :=
  {| solve_id := toString t; time := inject_Z t; scramble := "R U F";
     timestamp := t; splits := None; metrics := ∅; penalty := p |}.

(** Five solves, the third one a DNF. *)
Definition fiveWithVoid : list solve :=
  [sampleSolve 10000 None; sampleSolve 11000 None;
   sampleSolve 12000 (Some "DNF"%string); sampleSolve 13000 None;
   sampleSolve 14000 None].

(** ** Best, mean and worst *)

(** A session with a plain solve, a DNF and a [+2]. *)
Definition sampleSession : session :=
  {| session_id := "1"; type := "normal"; name := "Normal 1";
     solves := [sampleSolve 10000 None; sampleSolve 11000 (Some "DNF"%string);
                sampleSolve 12000 (Some "+2"%string)];
     createdAt := 0 |}.

(** ** Ratio adjustment *)

(** The invariant of the specification on the pair [(r1, r2)]. *)
Definition splitsInvariant (r : num * num) : bool :=
  let '(r1, r2) := r in
  nle (lit 0.1) r1 && nle r1 (nsub r2 (lit 0.1))
  && nle (nadd r1 (lit 0.1)) r2 && nle r2 (lit 0.9).

(** The shares of the three phases: phase 2 takes at least a tenth, the
    outer phases are not negative. *)
Definition sharesOk (r : num * num) : bool :=
  let '(r1, r2) := r in
  nle (lit 0.1) (nsub r2 r1) && nle (Fin 0) r1 && nle (Fin 0) (nsub (Fin 1) r2).

(** ** Completion protocol *)

(** The solve [stopTimer] creates at clock value [now]. *)
Definition timedSolve (now : Z) (st : State) : solve :=
  {| solve_id := toString now; time := timerValue st;
     scramble := currentScramble st; timestamp := now;
     splits := None; metrics := ∅; penalty := None |}.

(** [stopTimer] followed by the Skip button. *)
Definition skipPath (now : Z) (sc1 sc2 : string) (st : State) : option State :=
  match stopTimer now sc1 st with
  | Some st1 => skipMeshMetrics sc2 st1
  | None => None
  end.

(** [stopTimer] followed by the Save button of the metrics dialog. *)
Definition savePath (now : Z) (sc1 sc2 : string)
    (crossMoves crossRotations f2lRotations : string)
    (f2lPause llRecognition : bool) (st : State) : option State :=
  match stopTimer now sc1 st with
  | Some st1 =>
      saveMeshMetrics crossMoves crossRotations f2lRotations
        f2lPause llRecognition sc2 st1
  | None => None
  end.

(** The solves of the current session. *)
Definition currentSolves (st : State) : option (list solve) :=
  option_map solves (getCurrentSession st).

(** A state with one empty session selected and 10 s on the timer. *)
Definition timedState : State :=
  {| sessions := [{| session_id := "1"; type := "normal"; name := "Normal 1";
                     solves := []; createdAt := 0 |}];
     currentSessionId := Some "1"%string;
     timerState := "running";
     timerValue := 10000;
     intervalId := Some 7;
     currentScramble := "R U F";
     settings := initialSettings;
     currentSolve := None;
     meshSplits := (lit 0.2, lit 0.65) |}.

(** ** Typed entry *)

(** The characters of a string. *)
Definition chars_of (s : string) : chars := list_ascii_of_string s.

(** The stages of [parseTimeInput] on an input. *)
Definition isDnf (input : string) : bool :=
  charsEqb (toLowerCase (trim (chars_of input))) (chars_of "dnf").

(** The trimmed input ends with [+] or [+2]. *)
Definition hasPlusSuffix (input : string) : bool :=
  endsWith (chars_of "+") (trim (chars_of input))
  || endsWith (chars_of "+2") (trim (chars_of input)).

(** What is handed to the numeric parse: the trimmed input without its
    penalty suffix. *)
Definition numericBody (input : string) : chars :=
  if hasPlusSuffix input then trim (stripPlusSuffix (trim (chars_of input)))
  else trim (chars_of input).







(** The end of [parseTimeInput]: the range check on the parsed body. *)
Definition checked (timeMs : option num) (p : option string) : option parsedTime :=
  match timeMs with
  | None => None
  | Some t =>
      if nle t (Fin 0) || ngt t (Fin 3600000) then None
      else Some {| parsed_time := t; parsed_penalty := p |}
  end.

(** * Binary64 arithmetic *)

(** The functions above compute on exact rationals.  JavaScript rounds the
    result of every arithmetic operation, and the value of every decimal
    literal and parsed text, to the nearest binary64 number, ties to even.
    Where a property depends on that rounding, the function is embedded a
    second time in the module [Binary64], with the same text and rounded
    operations.  A binary64 number is kept as the exact rational it stands
    for, so that comparisons stay those of [num]; [-0] is [0] as before. *)

(** [2^k * z] for [k >= 0], [z] otherwise. *)
Definition scaleUp (z k : Z) : Z := if 0 <=? k then z * 2 ^ k else z.

(** The integer part of the binary logarithm of the positive rational
    [n/d]. *)
Definition ilog2 (n d : Z) : Z :=
  let k := Z.log2 n - Z.log2 d in
  if scaleUp d k <=? scaleUp n (- k) then k else k - 1.

(** The integer nearest to [n/d] for [d > 0], ties to even. *)
Definition nearestEven (n d : Z) : Z :=
  let q := n / d in
  let r := n mod d in
  match 2 * r ?= d with
  | Lt => q
  | Gt => q + 1
  | Eq => if Z.even q then q else q + 1
  end.

(** The binary64 number nearest to the positive rational [n/d]: the
    significand [m] has at most 53 bits, the exponent [e] of its last bit
    is at least -1074, and [None] stands for a result of 2^1024 or more. *)
Definition roundPos (n d : Z) : option Q :=
  let e := Z.max (ilog2 n d - 52) (-1074) in
  let m := nearestEven (scaleUp n (- e)) (scaleUp d e) in
  if 1024 <=? e + Z.log2 m then None
  else Some (Qred (Qmake (scaleUp m e) (Z.to_pos (scaleUp 1 (- e))))).

(** The binary64 number nearest to a rational. *)
Definition round64 (q : Q) : num :=
  match Qnum q with
  | Z0 => Fin 0
  | Zpos n =>
      match roundPos (Zpos n) (Zpos (Qden q)) with
      | Some r => Fin r
      | None => PInf
      end
  | Zneg n =>
      match roundPos (Zpos n) (Zpos (Qden q)) with
      | Some r => Fin (Qred (Qopp r))
      | None => NInf
      end
  end.

Module Binary64.

Definition round (x : num) : num :=
  match x with
  | Fin q => round64 q
  | _ => x
  end.

(** A decimal literal of the source. *)
Definition lit (q : Q) : num := round64 q.

(** [x + y], [x - y], [x * y] and [x / y] *)
Definition add (x y : num) : num := round (nadd x y).
Definition sub (x y : num) : num := round (nsub x y).
Definition mul (x y : num) : num := round (nmul x y).
Definition div (x y : num) : num := round (ndiv x y).

(** ** Statistics *)

Definition getEffectiveTime (s : solve) : num :=
  if penaltyIs "DNF" s then PInf
  else if penaltyIs "+2" s then add (Fin (time s)) (Fin 2000)
  else Fin (time s).

(** [reduce((a, b) => a + b, 0)] *)
Definition sumOf (l : list num) : num := fold_left add l (Fin 0).

Definition calculateAverage (solves : list solve) (n : Z) : option num :=
  if Z.of_nat (List.length solves) <? n then None
  else
    let recent := sliceFrom (- n) solves in
    let dnfCount := List.length (List.filter (penaltyIs "DNF") recent) in
    if (1 <? Z.of_nat dnfCount) then None
    else
      let times := map getEffectiveTime recent in
      let sorted := Array_sort (fun a b => sub a b) times in
      let trimmed := slice 1 (-1) sorted in
      if existsb (fun t => strictEq t PInf) trimmed then None
      else Some (div (sumOf trimmed) (ofNat (List.length trimmed))).

Definition updateStats (current : option session) : statsView :=
  match current with
  | None => Build_statsView Dash Dash Dash Dash Dash Dash Dash 0
  | Some sess =>
      if Nat.eqb (List.length (solves sess)) 0
      then Build_statsView Dash Dash Dash Dash Dash Dash Dash 0
      else
        let validSolves := List.filter (fun s => negb (penaltyIs "DNF" s)) (solves sess) in
        let times := map getEffectiveTime validSolves in
        let avg n := formatTime (calculateAverage (solves sess) n) in
        if Nat.ltb 0 (List.length times) then
          {| ao5 := avg 5; ao12 := avg 12; ao50 := avg 50; ao100 := avg 100;
             best := formatTime (Some (Math_min times));
             worst := formatTime (Some (Math_max times));
             mean := formatTime
                       (Some (div (sumOf times) (ofNat (List.length times))));
             count := List.length (solves sess) |}
        else
          {| ao5 := avg 5; ao12 := avg 12; ao50 := avg 50; ao100 := avg 100;
             best := Dash; worst := Dash; mean := Dash;
             count := List.length (solves sess) |}
  end.

(** ** Phase splits *)

(** The initial state of the file, its ratios being the literals [0.2] and
    [0.65]. *)
Definition initialState : State :=
  setMeshSplits initialState (lit 0.2, lit 0.65).

Definition updateMeshSplit (index relativeX : num) (st : State) : State :=
  let '(r1, r2) := meshSplits st in
  if strictEq index (Fin 0) then
    let r1 := max2 (lit 0.1) (min2 (lit 0.4) relativeX) in
    let r1 := if nge r1 (sub r2 (lit 0.1)) then sub r2 (lit 0.1) else r1 in
    setMeshSplits st (r1, r2)
  else if strictEq index (Fin 1) then
    let r2 := max2 (lit 0.5) (min2 (lit 0.9) relativeX) in
    let r2 := if nle r2 (add r1 (lit 0.1)) then add r1 (lit 0.1) else r2 in
    setMeshSplits st (r1, r2)
  else st.

(** ** Typed entry *)

(** [parseFloat] and [parseInt]: the number nearest to the value read. *)
Definition parseFloat (input : chars) : num := round (parseFloat input).
Definition parseInt (input : chars) : num := round (parseInt input).

(** The numeric body: [None] is the early [return null]. *)
Definition parseBody (input : chars) : option num :=
  if includes ":" input then
    match split ":" input with
    | minutes :: rest :: _ =>
        let seconds := parseFloat rest in
        if isNaN (parseInt minutes) || isNaN seconds then None
        else Some (mul (add (mul (parseInt minutes) (Fin 60)) seconds)
                       (Fin 1000))
    | _ => None
    end
  else
    let seconds := parseFloat input in
    if isNaN seconds then None else Some (mul seconds (Fin 1000)).

Definition parseTimeInput (input : string) : option parsedTime :=
  let input := trim (list_ascii_of_string input) in
  if charsEqb (toLowerCase input) (list_ascii_of_string "dnf") then
    Some {| parsed_time := Fin 0; parsed_penalty := Some "DNF"%string |}
  else
    let '(penalty, input) :=
      if endsWith (list_ascii_of_string "+") input
         || endsWith (list_ascii_of_string "+2") input
      then (Some "+2"%string, trim (stripPlusSuffix input))
      else (None, input) in
    match parseBody input with
    | None => None
    | Some timeMs =>
        if nle timeMs (Fin 0) || ngt timeMs (Fin 3600000) then None
        else Some {| parsed_time := timeMs; parsed_penalty := penalty |}
    end.

End Binary64.

(** ** Vocabulary of the binary64 properties *)








(** Four hundred nines for the minutes and [-Infinity] for the seconds. *)
Definition overlongMinutes : string :=
  string_of_list_ascii (repeat "9"%char 400 ++ list_ascii_of_string ":-Infinity").
(** * The rest of the engine *)

(** ** Session store *)

(** The state with its session array and current id replaced. *)
Definition setSessions (st : State) (l : list session) (current : option string)
  : State :=
  {| sessions := l;
     currentSessionId := current;
     timerState := timerState st;
     timerValue := timerValue st;
     intervalId := intervalId st;
     currentScramble := currentScramble st;
     settings := settings st;
     currentSolve := currentSolve st;
     meshSplits := meshSplits st |}.

(** [l.find(p)] followed by a mutation [f] of the object found: the first
    element that satisfies [p] is replaced; [None] when there is none. *)
Fixpoint updateFirst {A : Type} (p : A -> bool) (f : A -> A) (l : list A)
  : option (list A) :=
  match l with
  | [] => None
  | x :: l' =>
      if p x then Some (f x :: l')
      else option_map (cons x) (updateFirst p f l')
  end.

(** [l.findIndex(p)] followed by [l.splice(index, 1)]: the first element
    that satisfies [p] is removed; [None] when the index is [-1]. *)
Fixpoint removeFirst {A : Type} (p : A -> bool) (l : list A) : option (list A) :=
  match l with
  | [] => None
  | x :: l' =>
      if p x then Some l'
      else option_map (cons x) (removeFirst p l')
  end.

(** The labels of the session types (own keys of [typeLabels]). *)
Definition typeLabels : gmap string string :=
  list_to_map
    [("normal", "Normal"); ("cross", "Cross"); ("f2l", "F2L"); ("ll", "LL");
     ("one-handed", "OH"); ("blind", "BLD")]%string.

(** [createSession(type)]; [now] and [created] are the two readings of
    [Date.now()].  The labels are non-empty, so [typeLabels[type] || type]
    is the label when there is one.  The lookup is among the own keys of
    [typeLabels]: for a [type] that names a property every object inherits
    ([constructor], [toString], ...) the source finds that property
    instead, and the definition does not follow it there. *)
Definition createSession (now created : Z) (type : string) (st : State) : State :=
  let label :=
    match typeLabels !! type with
    | Some l => l
    | None => type
    end in
  let session :=
    {| session_id := toString now;
       type := type;
       name := String.append label
                 (String.append " "
                    (toString (Z.of_nat (List.length (sessions st)) + 1)));
       solves := [];
       createdAt := created |} in
  setSessions st (sessions st ++ [session]) (Some (session_id session)).

(** [State.currentSessionId === sessionId] *)
Definition sameId (a b : option string) : bool :=
  match a, b with
  | Some x, Some y => String.eqb x y
  | None, None => true
  | _, _ => false
  end.

(** [deleteSession(sessionId)]; the clock readings are those of the
    [createSession] it calls when no session is left. *)
Definition deleteSession (now created : Z) (sessionId : option string)
    (st : State) : State :=
  match removeFirst (idIs sessionId) (sessions st) with
  | None => st
  | Some [] =>
      createSession now created "normal" (setSessions st [] (currentSessionId st))
  | Some (first :: rest) =>
      if sameId (currentSessionId st) sessionId
      then setSessions st (first :: rest) (Some (session_id first))
      else setSessions st (first :: rest) (currentSessionId st)
  end.

Definition setName (newName : string) (s : session) : session :=
  {| session_id := session_id s; type := type s; name := newName;
     solves := solves s; createdAt := createdAt s |}.

Definition renameSession (sessionId : option string) (newName : string)
    (st : State) : State :=
  match updateFirst (idIs sessionId) (setName newName) (sessions st) with
  | Some l => setSessions st l (currentSessionId st)
  | None => st
  end.

(** ** Editing the solves of the current session *)

Definition setSolves (l : list solve) (s : session) : session :=
  {| session_id := session_id s; type := type s; name := name s;
     solves := l; createdAt := createdAt s |}.

Definition withPenalty (p : option string) (x : solve) : solve :=
  {| solve_id := solve_id x; time := time x; scramble := scramble x;
     timestamp := timestamp x; splits := splits x; metrics := metrics x;
     penalty := p |}.

(** [l[l.length - 1]] mutated by [f]. *)
Fixpoint mapLast {A : Type} (f : A -> A) (l : list A) : list A :=
  match l with
  | [] => []
  | [x] => [f x]
  | x :: l' => x :: mapLast f l'
  end.

(** A mutation [f] of the solve array of the current session; [None] when
    there is no current session ([TypeError] before anything is written). *)
Definition editCurrentSolves (f : list solve -> list solve) (st : State)
  : option State :=
  match updateFirst (idIs (currentSessionId st))
          (fun s => setSolves (f (solves s)) s) (sessions st) with
  | Some l => Some (setSessions st l (currentSessionId st))
  | None => None
  end.

Definition applyPenaltyToLastSolve (penalty : option string) (st : State)
  : option State :=
  match getCurrentSession st with
  | None => None
  | Some session =>
      if Nat.eqb (List.length (solves session)) 0 then Some st
      else editCurrentSolves (mapLast (withPenalty penalty)) st
  end.

(** [session.solves.pop()] on the current session, the body of both
    branches of [deleteLastSolve]. *)
Definition popLastSolve (st : State) : option State :=
  editCurrentSolves (@removelast solve) st.

(** [deleteLastSolve]: with [confirmDelete] set only the dialog opens, and
    [popLastSolve] runs when it is confirmed. *)
Definition deleteLastSolve (st : State) : option State :=
  match getCurrentSession st with
  | None => None
  | Some session =>
      if Nat.eqb (List.length (solves session)) 0 then Some st
      else if truthy (settings st !! "confirmDelete"%string) then Some st
      else popLastSolve st
  end.

(** [s.id === id] for the id kept in [State.editingSolveId]. *)
Definition solveIdIs (id : option string) (x : solve) : bool :=
  match id with
  | Some i => String.eqb (solve_id x) i
  | None => false
  end.

(** ** Typed entry *)

(** [addTypedTime] on the text of the input field, with the exact parse,
    whose time is finite (lemma [parseTimeInput_finite]); the [NaN] that
    [Binary64.parseTimeInput] can return has no counterpart in the field
    [time], a rational.  The flag [typed: true] of the stored object is
    read nowhere and is not kept. *)
Definition addTypedTime (input : string) (now stamp : Z) (nextScramble : string)
    (st : State) : option State :=
  match parseTimeInput input with
  | None => Some st
  | Some parsed =>
      match parsed_time parsed with
      | Fin t =>
          let solve :=
            {| solve_id := toString now;
               time := t;
               scramble := currentScramble st;
               timestamp := stamp;
               splits := None;
               metrics := ∅;
               penalty := parsed_penalty parsed |} in
          match pushToCurrent (currentSessionId st) solve (sessions st) with
          | None => None
          | Some sessions' =>
              Some {| sessions := sessions';
                      currentSessionId := currentSessionId st;
                      timerState := timerState st;
                      timerValue := timerValue st;
                      intervalId := intervalId st;
                      currentScramble := nextScramble;
                      settings := settings st;
                      currentSolve := currentSolve st;
                      meshSplits := meshSplits st |}
          end
      | _ => Some st
      end
  end.

(** ** Vocabulary of the further properties *)

(** The session [createSession] builds when [n] sessions exist. *)
Definition newSession (now created : Z) (type : string) (n : nat) : session :=
  {| session_id := toString now;
     type := type;
     name := String.append
               (match typeLabels !! type with Some l => l | None => type end)
               (String.append " " (toString (Z.of_nat n + 1)));
     solves := [];
     createdAt := created |}.

(** The property names every object inherits from [Object.prototype]:
    [typeLabels[type]] is a function or an object for these, not
    [undefined]. *)
Definition objectPrototypeKeys : list string :=
  ["constructor"; "hasOwnProperty"; "isPrototypeOf"; "propertyIsEnumerable";
   "toLocaleString"; "toString"; "valueOf"; "__proto__"; "__defineGetter__";
   "__defineSetter__"; "__lookupGetter__"; "__lookupSetter__"]%string.

(** The session types that have a label, with their labels. *)
Definition sessionLabels : list (string * string) :=
  [("normal", "Normal"); ("cross", "Cross"); ("f2l", "F2L"); ("ll", "LL");
   ("one-handed", "OH"); ("blind", "BLD")]%string.

(** [label n]: the text [label], a space and the number [n + 1]. *)
Definition numbered (label : string) (n : nat) : string :=
  String.append label (String.append " " (toString (Z.of_nat n + 1))).

(** A state with two sessions, the second one current and holding two
    solves, and deletions that are not confirmed. *)
Definition twoSessions : State :=
  {| sessions :=
       [{| session_id := "1"; type := "normal"; name := "Normal 1";
           solves := [sampleSolve 9000 None]; createdAt := 1 |};
        {| session_id := "2"; type := "cross"; name := "Cross 2";
           solves := [sampleSolve 10000 None; sampleSolve 11000 (Some "+2"%string)];
           createdAt := 2 |}];
     currentSessionId := Some "2"%string;
     timerState := "idle";
     timerValue := 0;
     intervalId := None;
     currentScramble := "R U F";
     settings := <["confirmDelete"%string := VBool false]> initialSettings;
     currentSolve := None;
     meshSplits := (lit 0.2, lit 0.65) |}.


(** * Timer control *)

(** ** The page around the engine *)

(** The two callbacks the file hands to [setInterval]. *)
Inductive callback : Type :=
| timerCallback
| inspectionCallback.

(** The fields of [State] that steer the timer, the two checkboxes the key
    handlers read, and the intervals of the page: [intervals] holds the
    active ones, [lastInterval] the last handle given out (handles are
    positive and never reused).  The timeouts of the file only touch the
    DOM and are left out. *)
Record Runtime : Type := {
  appState : State;
  startTime : Q;
  spacePressed : bool;
  inspectionTime : Z;
  inspectionIntervalId : option Z;
  inspectionToggle : bool;
  typingModeToggle : bool;
  intervals : gmap Z callback;
  lastInterval : Z
}.

(** What an event handler reads from outside: [Date.now()],
    [performance.now()] and the scramble [generateScramble] would draw. *)
Record reading : Type := {
  dateNow : Z;
  performanceNow : Q;
  scrambleDrawn : string
}.

Definition withApp (st : State) (rt : Runtime) : Runtime :=
  {| appState := st; startTime := startTime rt; spacePressed := spacePressed rt;
     inspectionTime := inspectionTime rt;
     inspectionIntervalId := inspectionIntervalId rt;
     inspectionToggle := inspectionToggle rt;
     typingModeToggle := typingModeToggle rt;
     intervals := intervals rt; lastInterval := lastInterval rt |}.

Definition withStartTime (t : Q) (rt : Runtime) : Runtime :=
  {| appState := appState rt; startTime := t; spacePressed := spacePressed rt;
     inspectionTime := inspectionTime rt;
     inspectionIntervalId := inspectionIntervalId rt;
     inspectionToggle := inspectionToggle rt;
     typingModeToggle := typingModeToggle rt;
     intervals := intervals rt; lastInterval := lastInterval rt |}.

Definition withSpacePressed (b : bool) (rt : Runtime) : Runtime :=
  {| appState := appState rt; startTime := startTime rt; spacePressed := b;
     inspectionTime := inspectionTime rt;
     inspectionIntervalId := inspectionIntervalId rt;
     inspectionToggle := inspectionToggle rt;
     typingModeToggle := typingModeToggle rt;
     intervals := intervals rt; lastInterval := lastInterval rt |}.

Definition withInspectionTime (t : Z) (rt : Runtime) : Runtime :=
  {| appState := appState rt; startTime := startTime rt; spacePressed := spacePressed rt;
     inspectionTime := t;
     inspectionIntervalId := inspectionIntervalId rt;
     inspectionToggle := inspectionToggle rt;
     typingModeToggle := typingModeToggle rt;
     intervals := intervals rt; lastInterval := lastInterval rt |}.

Definition withInspectionIntervalId (i : option Z) (rt : Runtime) : Runtime :=
  {| appState := appState rt; startTime := startTime rt; spacePressed := spacePressed rt;
     inspectionTime := inspectionTime rt;
     inspectionIntervalId := i;
     inspectionToggle := inspectionToggle rt;
     typingModeToggle := typingModeToggle rt;
     intervals := intervals rt; lastInterval := lastInterval rt |}.

Definition withInspectionToggle (b : bool) (rt : Runtime) : Runtime :=
  {| appState := appState rt; startTime := startTime rt; spacePressed := spacePressed rt;
     inspectionTime := inspectionTime rt;
     inspectionIntervalId := inspectionIntervalId rt;
     inspectionToggle := b;
     typingModeToggle := typingModeToggle rt;
     intervals := intervals rt; lastInterval := lastInterval rt |}.

Definition withTypingModeToggle (b : bool) (rt : Runtime) : Runtime :=
  {| appState := appState rt; startTime := startTime rt; spacePressed := spacePressed rt;
     inspectionTime := inspectionTime rt;
     inspectionIntervalId := inspectionIntervalId rt;
     inspectionToggle := inspectionToggle rt;
     typingModeToggle := b;
     intervals := intervals rt; lastInterval := lastInterval rt |}.

(** The timer fields of [State]. *)
Definition setTimerState (ts : string) (st : State) : State :=
  {| sessions := sessions st; currentSessionId := currentSessionId st;
     timerState := ts; timerValue := timerValue st;
     intervalId := intervalId st; currentScramble := currentScramble st;
     settings := settings st; currentSolve := currentSolve st;
     meshSplits := meshSplits st |}.

Definition setTimerValue (t : Q) (st : State) : State :=
  {| sessions := sessions st; currentSessionId := currentSessionId st;
     timerState := timerState st; timerValue := t;
     intervalId := intervalId st; currentScramble := currentScramble st;
     settings := settings st; currentSolve := currentSolve st;
     meshSplits := meshSplits st |}.

Definition setIntervalId (i : option Z) (st : State) : State :=
  {| sessions := sessions st; currentSessionId := currentSessionId st;
     timerState := timerState st; timerValue := timerValue st;
     intervalId := i; currentScramble := currentScramble st;
     settings := settings st; currentSolve := currentSolve st;
     meshSplits := meshSplits st |}.

Definition setCurrentScramble (s : string) (st : State) : State :=
  {| sessions := sessions st; currentSessionId := currentSessionId st;
     timerState := timerState st; timerValue := timerValue st;
     intervalId := intervalId st; currentScramble := s;
     settings := settings st; currentSolve := currentSolve st;
     meshSplits := meshSplits st |}.

Definition setSetting (key : string) (v : value) (st : State) : State :=
  {| sessions := sessions st; currentSessionId := currentSessionId st;
     timerState := timerState st; timerValue := timerValue st;
     intervalId := intervalId st; currentScramble := currentScramble st;
     settings := <[key := v]> (settings st); currentSolve := currentSolve st;
     meshSplits := meshSplits st |}.

(** [setInterval(cb, ...)]: the page hands out the next handle. *)
Definition setInterval (cb : callback) (rt : Runtime) : Z * Runtime :=
  let id := lastInterval rt + 1 in
  (id,
   {| appState := appState rt; startTime := startTime rt; spacePressed := spacePressed rt;
      inspectionTime := inspectionTime rt;
      inspectionIntervalId := inspectionIntervalId rt;
      inspectionToggle := inspectionToggle rt;
      typingModeToggle := typingModeToggle rt;
      intervals := <[id := cb]> (intervals rt); lastInterval := id |}).

(** [clearInterval(id)]; nothing happens for [null]. *)
Definition clearInterval (id : option Z) (rt : Runtime) : Runtime :=
  match id with
  | None => rt
  | Some i =>
      {| appState := appState rt; startTime := startTime rt;
         spacePressed := spacePressed rt;
         inspectionTime := inspectionTime rt;
         inspectionIntervalId := inspectionIntervalId rt;
         inspectionToggle := inspectionToggle rt;
         typingModeToggle := typingModeToggle rt;
         intervals := delete i (intervals rt); lastInterval := lastInterval rt |}
  end.

(** Truthiness of a handle kept in [State]: [null] and [0] are falsy. *)
Definition handleSet (id : option Z) : bool :=
  match id with
  | Some i => negb (i =? 0)
  | None => false
  end.

Definition typingMode (rt : Runtime) : bool :=
  truthy (settings (appState rt) !! "typingMode"%string).

Definition timerStateIs (s : string) (rt : Runtime) : bool :=
  String.eqb (timerState (appState rt)) s.

(** ** Timer functions *)

Module Timer.

Definition stopInspection (rt : Runtime) : Runtime :=
  let rt1 :=
    if handleSet (inspectionIntervalId rt)
    then withInspectionIntervalId None
           (clearInterval (inspectionIntervalId rt) rt)
    else rt in
  withApp (setTimerState "idle" (appState rt1)) rt1.

Definition startTimer (r : reading) (rt : Runtime) : Runtime :=
  let rt1 :=
    withApp (setTimerValue 0 (setTimerState "running" (appState rt)))
      (withStartTime (performanceNow r) rt) in
  let (id, rt2) := setInterval timerCallback rt1 in
  withApp (setIntervalId (Some id) (appState rt2)) rt2.

(** The callback of the interval of [startTimer]. *)
Definition timerTick (r : reading) (rt : Runtime) : Runtime :=
  withApp (setTimerValue (Qred (performanceNow r - startTime rt)) (appState rt)) rt.

(** The callback of the interval of [startInspection]. *)
Definition inspectionTick (r : reading) (rt : Runtime) : Runtime :=
  let rt1 := withInspectionTime (inspectionTime rt - 1) rt in
  if inspectionTime rt1 <=? 0 then startTimer r (stopInspection rt1) else rt1.

Definition startInspection (rt : Runtime) : Runtime :=
  let rt1 :=
    withInspectionTime 15 (withApp (setTimerState "inspection" (appState rt)) rt) in
  let (id, rt2) := setInterval inspectionCallback rt1 in
  withInspectionIntervalId (Some id) rt2.

(** The state [stopTimer] leaves when [completeSolve] throws: the solve
    stays pending. *)
Definition pending (now : Z) (st : State) : State :=
  {| sessions := sessions st; currentSessionId := currentSessionId st;
     timerState := "idle"; timerValue := timerValue st;
     intervalId := None; currentScramble := currentScramble st;
     settings := settings st; currentSolve := Some (timedSolve now st);
     meshSplits := meshSplits st |}.

(** [stopTimer] with the interval of the page cleared. *)
Definition stopTimer (r : reading) (rt : Runtime) : Runtime :=
  let rt1 := clearInterval (intervalId (appState rt)) rt in
  match stopTimer (dateNow r) (scrambleDrawn r) (appState rt) with
  | Some st' => withApp st' rt1
  | None => withApp (pending (dateNow r) (appState rt)) rt1
  end.

Definition cancelSolve (rt : Runtime) : Runtime :=
  let rt1 :=
    if handleSet (intervalId (appState rt))
    then let rt' := clearInterval (intervalId (appState rt)) rt in
         withApp (setIntervalId None (appState rt')) rt'
    else rt in
  let rt2 :=
    if handleSet (inspectionIntervalId rt1)
    then withInspectionIntervalId None
           (clearInterval (inspectionIntervalId rt1) rt1)
    else rt1 in
  withSpacePressed false
    (withApp (setTimerValue 0 (setTimerState "idle" (appState rt2))) rt2).

(** A handler of [State] run from a key: an exception ends the handler
    before anything is written. *)
Definition shortcut (f : State -> option State) (rt : Runtime) : Runtime :=
  match f (appState rt) with
  | Some st' => withApp st' rt
  | None => rt
  end.

(** [handleKeyDown(e)]: [field] says that the target is an [INPUT] or a
    [TEXTAREA], [closestInput] that [e.target.closest('input')] finds an
    element. *)
Definition handleKeyDown (r : reading) (code key : string)
    (field closestInput : bool) (rt : Runtime) : Runtime :=
  if field then rt
  else if String.eqb code "Escape" then
    if timerStateIs "running" rt then cancelSolve rt else rt
  else if String.eqb code "Space" && negb (typingMode rt) then
    if negb (spacePressed rt) && timerStateIs "idle" rt then
      let rt1 := withSpacePressed true rt in
      if inspectionToggle rt1 then startInspection rt1 else rt1
    else rt
  else if timerStateIs "idle" rt then
    if String.eqb key "1" then shortcut (applyPenaltyToLastSolve (Some "+2"%string)) rt
    else if String.eqb key "2" then shortcut (applyPenaltyToLastSolve (Some "DNF"%string)) rt
    else if String.eqb key "3" then shortcut (applyPenaltyToLastSolve None) rt
    else if String.eqb key "Delete" || String.eqb key "Backspace" then
      if negb closestInput then shortcut deleteLastSolve rt else rt
    else if String.eqb key "i" || String.eqb key "I" then
      withInspectionToggle (negb (inspectionToggle rt)) rt
    else if String.eqb key "t" || String.eqb key "T" then
      let checked := negb (typingModeToggle rt) in
      withApp (setSetting "typingMode" (VBool checked) (appState rt))
        (withTypingModeToggle checked rt)
    else if String.eqb key "n" || String.eqb key "N" then
      withApp (setCurrentScramble (scrambleDrawn r) (appState rt)) rt
    else rt
  else rt.

Definition handleKeyUp (r : reading) (code : string) (field : bool)
    (rt : Runtime) : Runtime :=
  if field then rt
  else if String.eqb code "Space" && negb (typingMode rt) then
    if spacePressed rt then
      let rt1 := withSpacePressed false rt in
      if timerStateIs "idle" rt1 then startTimer r rt1
      else if timerStateIs "running" rt1 then stopTimer r rt1
      else if timerStateIs "inspection" rt1 then startTimer r (stopInspection rt1)
      else rt1
    else rt
  else rt.

(** The [touchstart] listener of the main area; [onControl] says that the
    target lies in an input, a button or the typing container. *)
Definition touchstart (onControl : bool) (rt : Runtime) : Runtime :=
  if typingMode rt then rt
  else if onControl then rt
  else if timerStateIs "idle" rt then
    if inspectionToggle rt then startInspection rt
    else withSpacePressed true rt
  else rt.

Definition touchend (r : reading) (onControl : bool) (rt : Runtime) : Runtime :=
  if typingMode rt then rt
  else if onControl then rt
  else if timerStateIs "idle" rt && spacePressed rt then
    startTimer r (withSpacePressed false rt)
  else if timerStateIs "running" rt then stopTimer r rt
  else if timerStateIs "inspection" rt then startTimer r (stopInspection rt)
  else rt.

End Timer.

(** ** Events *)

(** What the page delivers: key and touch events, and the firing of an
    interval.  Only an active interval fires. *)
Inductive event : Type :=
| keydown (code key : string) (field closestInput : bool)
| keyup (code : string) (field : bool)
| touchstartOn (onControl : bool)
| touchendOn (onControl : bool)
| fires (id : Z).

Definition dispatch (rt : Runtime) (e : reading * event) : Runtime :=
  let (r, ev) := e in
  match ev with
  | keydown code key field closestInput =>
      Timer.handleKeyDown r code key field closestInput rt
  | keyup code field => Timer.handleKeyUp r code field rt
  | touchstartOn onControl => Timer.touchstart onControl rt
  | touchendOn onControl => Timer.touchend r onControl rt
  | fires id =>
      match intervals rt !! id with
      | Some timerCallback => Timer.timerTick r rt
      | Some inspectionCallback => Timer.inspectionTick r rt
      | None => rt
      end
  end.

Definition run (evs : list (reading * event)) (rt : Runtime) : Runtime :=
  fold_left dispatch evs rt.

(** ** Vocabulary of the timer properties *)

(** The intervals of the page are those [State] remembers: none while idle,
    the timer's while running, the countdown's during inspection. *)
Definition timerInv (rt : Runtime) : Prop :=
  0 <= lastInterval rt /\
  ((timerState (appState rt) = "idle"%string /\
    intervalId (appState rt) = None /\ inspectionIntervalId rt = None /\
    intervals rt = ∅) \/
   (timerState (appState rt) = "running"%string /\
    inspectionIntervalId rt = None /\
    exists i, 0 < i <= lastInterval rt /\ intervalId (appState rt) = Some i /\
              intervals rt = {[ i := timerCallback ]}) \/
   (timerState (appState rt) = "inspection"%string /\
    intervalId (appState rt) = None /\ 0 < inspectionTime rt <= 15 /\
    exists i, 0 < i <= lastInterval rt /\ inspectionIntervalId rt = Some i /\
              intervals rt = {[ i := inspectionCallback ]})).

(** Key events other than Escape, and interval firings. *)
Definition keyOrTick (e : reading * event) : bool :=
  match snd e with
  | keydown code _ _ _ => negb (String.eqb code "Escape")
  | keyup _ _ => true
  | fires _ => true
  | _ => false
  end.

(** The page after loading: [st] with no interval. *)
Definition loaded (st : State) (inspection : bool) : Runtime :=
  {| appState := st; startTime := 0; spacePressed := false; inspectionTime := 15;
     inspectionIntervalId := None; inspectionToggle := inspection;
     typingModeToggle := false; intervals := ∅; lastInterval := 0 |}.

(** [k] firings of interval [id] with the readings [rs]. *)
Definition firings (id : Z) (rs : list reading) : list (reading * event) :=
  map (fun r => (r, fires id)) rs.

(** * Scramble generation *)

Definition moves : list string := ["R"; "L"; "U"; "D"; "F"; "B"]%string.
Definition modifiers : list string := [EmptyString; "'"; "2"]%string.

(** [l[Math.floor(random * l.length)]]; [None] is [undefined]. *)
Definition pick (l : list string) (random : Q) : option string :=
  let i := Qfloor (random * inject_Z (Z.of_nat (List.length l))) in
  if i <? 0 then None else nth_error l (Z.to_nat i).

Definition getAxis (move : option string) : string :=
  match move with
  | Some m =>
      if String.eqb m "R" || String.eqb m "L" then "RL"
      else if String.eqb m "U" || String.eqb m "D" then "UD"
      else if String.eqb m "F" || String.eqb m "B" then "FB"
      else EmptyString
  | None => EmptyString
  end.

(** [a === b] on values that are strings or [undefined]. *)
Definition sameValue (a b : option string) : bool :=
  match a, b with
  | Some x, Some y => String.eqb x y
  | None, None => true
  | _, _ => false
  end.

(** A string or [undefined] in a concatenation. *)
Definition text (v : option string) : string :=
  match v with
  | Some s => s
  | None => "undefined"
  end.

(** The [do ... while] of [generateScramble] on the values [Math.random]
    returns, in order: the move accepted and the draws that are left;
    [None] when the draws run out first. *)
Fixpoint drawMove (lastMove : option string) (lastAxis : string)
    (draws : list Q) : option (option string * list Q) :=
  match draws with
  | [] => None
  | random :: rest =>
      let move := pick moves random in
      if sameValue move lastMove || String.eqb (getAxis move) lastAxis
      then drawMove lastMove lastAxis rest
      else Some (move, rest)
  end.

(** [n] rounds of the [for] loop: the tokens pushed and the draws left. *)
Fixpoint scrambleLoop (n : nat) (lastMove : option string) (lastAxis : string)
    (draws : list Q) : option (list string * list Q) :=
  match n with
  | O => Some ([], draws)
  | S n' =>
      match drawMove lastMove lastAxis draws with
      | None => None
      | Some (_, []) => None
      | Some (move, random :: rest) =>
          let modifier := pick modifiers random in
          match scrambleLoop n' move (getAxis move) rest with
          | Some (tokens, remaining) =>
              Some (String.append (text move) (text modifier) :: tokens, remaining)
          | None => None
          end
      end
  end.

(** [generateScramble]: the text stored in [State.currentScramble] and the
    draws left. *)
Definition generateScramble (draws : list Q) : option (string * list Q) :=
  match scrambleLoop 20 (Some EmptyString) EmptyString draws with
  | Some (tokens, remaining) => Some (String.concat " " tokens, remaining)
  | None => None
  end.

(** ** Vocabulary of the scramble properties *)

(** A value of [Math.random]. *)
Definition unitDraw (q : Q) : Prop := (0 <= q)%Q /\ (q < 1)%Q.

(** No two consecutive faces turn about the same axis. *)
Fixpoint axesAlternate (faces : list string) : Prop :=
  match faces with
  | a :: (b :: _) as rest => getAxis (Some a) <> getAxis (Some b) /\ axesAlternate rest
  | _ => True
  end.

(** The tokens of a scramble: a face and a modifier each. *)
Definition tokensOf (faces mods : list string) : list string :=
  map (fun p => String.append (fst p) (snd p)) (combine faces mods).

(** [k] draws that alternate between [0] and [1/3]. *)
Fixpoint alternating (zero : bool) (k : nat) : list Q :=
  match k with
  | O => []
  | S k' => (if zero then 0 else 1 # 3)%Q :: alternating (negb zero) k'
  end.

(** * The solve dialog *)

(** An array with its first match of [p] mutated by [f], or as it is. *)
Definition mutateFirst {A : Type} (p : A -> bool) (f : A -> A) (l : list A)
  : list A :=
  match updateFirst p f l with
  | Some l' => l'
  | None => l
  end.

(** An array with its first match of [p] spliced out, or as it is. *)
Definition spliceFirst {A : Type} (p : A -> bool) (l : list A) : list A :=
  match removeFirst p l with
  | Some l' => l'
  | None => l
  end.

(** [showSolveEditModal(solveId)]: the new [State.editingSolveId], [editing]
    being the old one; [None] when there is no current session
    ([TypeError]). *)
Definition showSolveEditModal (solveId editing : option string) (st : State)
  : option (option string) :=
  match getCurrentSession st with
  | None => None
  | Some session =>
      match find (solveIdIs solveId) (solves session) with
      | Some _ => Some solveId
      | None => Some editing
      end
  end.

(** [setPenalty(penalty)] with [State.editingSolveId = editing]. *)
Definition setPenalty (editing penalty : option string) (st : State)
  : option State :=
  match getCurrentSession st with
  | None => None
  | Some session =>
      match find (solveIdIs editing) (solves session) with
      | Some _ =>
          editCurrentSolves
            (mutateFirst (solveIdIs editing) (withPenalty penalty)) st
      | None => Some st
      end
  end.

(** [performDeleteSolve] with [State.editingSolveId = editing]: the state
    and the new [editingSolveId]. *)
Definition performDeleteSolve (editing : option string) (st : State)
  : option (State * option string) :=
  match getCurrentSession st with
  | None => None
  | Some session =>
      match find (solveIdIs editing) (solves session) with
      | Some _ =>
          match editCurrentSolves (spliceFirst (solveIdIs editing)) st with
          | Some st' => Some (st', None)
          | None => None
          end
      | None => Some (st, None)
      end
  end.

(** * Start-up *)

(** The object [JSON.parse] yields for the stored text, in the shape
    [saveState] writes: each key absent, falsy, or of the stored shape.  The
    current id is a string, or absent or [null].  A [sessions] that is
    truthy without being an array of session records with string ids, as
    the import of such a document leaves in the store, is outside this
    type. *)
Record savedData : Type := {
  saved_sessions : option (docField (list session));
  saved_currentSessionId : option string;
  saved_settings : option (docField (gmap string value));
  saved_meshSplits : option (docField (num * num))
}.

(** [loadState]; [data = None] when nothing is stored, or when reading,
    parsing or the first property access throws, which the [catch]
    absorbs before anything is written. *)
Definition loadState (data : option savedData) (st : State) : State :=
  match data with
  | None => st
  | Some d =>
      {| sessions :=
           match saved_sessions d with
           | Some (Given l) => l
           | _ => []
           end;
         currentSessionId := saved_currentSessionId d;
         timerState := timerState st;
         timerValue := timerValue st;
         intervalId := intervalId st;
         currentScramble := currentScramble st;
         settings :=
           match saved_settings d with
           | Some (Given m) => m ∪ settings st
           | _ => settings st
           end;
         currentSolve := currentSolve st;
         meshSplits :=
           match saved_meshSplits d with
           | Some (Given r) => r
           | _ => meshSplits st
           end |}
  end.

(** Truthiness of [State.currentSessionId]. *)
Definition idSet (id : option string) : bool :=
  match id with
  | Some i => negb (String.eqb i EmptyString)
  | None => false
  end.

(** [init] up to the drawing of the page; [now] and [created] are the
    clock readings of [createSession], [scramble] what [generateScramble]
    draws.  [None] when [State.sessions[0]] is [undefined]. *)
Definition init (data : option savedData) (now created : Z) (scramble : string)
    (st : State) : option State :=
  let st1 := loadState data st in
  let st2 :=
    if Nat.eqb (List.length (sessions st1)) 0
    then createSession now created "normal" st1 else st1 in
  let st3 :=
    if negb (idSet (currentSessionId st2)) then
      match sessions st2 with
      | first :: _ => Some (setSessions st2 (sessions st2) (Some (session_id first)))
      | [] => None
      end
    else Some st2 in
  option_map (setCurrentScramble scramble) st3.

(** ** Vocabulary of the start-up properties *)

(** The sessions a stored object brings. *)
Definition storedSessions (data : option savedData) : list session :=
  match data with
  | Some d =>
      match saved_sessions d with
      | Some (Given l) => l
      | _ => []
      end
  | None => []
  end.

Definition storedId (data : option savedData) : option string :=
  match data with
  | Some d => saved_currentSessionId d
  | None => None
  end.

(** * Goal table *)

Record goal : Type := {
  goal_cross : Q;
  goal_f2l : Q;
  goal_ll : Q;
  goal_rotations : Q
}.

(** The entries of [GOALS] in the order of the source, in seconds. *)
Definition goalList : list (string * goal) :=
  [("sub60", {| goal_cross := 8; goal_f2l := 35; goal_ll := 17;
                goal_rotations := 6 |});
   ("sub30", {| goal_cross := 3.5; goal_f2l := 18; goal_ll := 8.5;
                goal_rotations := 4 |});
   ("sub20", {| goal_cross := 1.8; goal_f2l := 13; goal_ll := 5.2;
                goal_rotations := 3 |});
   ("sub15", {| goal_cross := 1.5; goal_f2l := 9.5; goal_ll := 4;
                goal_rotations := 2 |});
   ("sub10", {| goal_cross := 1.2; goal_f2l := 6.5; goal_ll := 2.3;
                goal_rotations := 1.5 |});
   ("sub8", {| goal_cross := 1; goal_f2l := 5; goal_ll := 2;
               goal_rotations := 1.2 |});
   ("sub5", {| goal_cross := 0.8; goal_f2l := 3; goal_ll := 1.2;
               goal_rotations := 1 |});
   ("sub3", {| goal_cross := 0.5; goal_f2l := 1.8; goal_ll := 0.7;
               goal_rotations := 0.5 |})]%string.

Definition GOALS : gmap string goal := list_to_map goalList.

(** [l.reduce((a, s) => a + s.splits.phase, 0) / l.length / 1000] *)
Definition phaseAverage (phase : phaseSplits -> num) (l : list phaseSplits)
  : num :=
  ndiv (ndiv (fold_left (fun a s => nadd a (phase s)) l (Fin 0))
          (ofNat (List.length l)))
       (ofZ 1000).

(** The fields [cross], [f2l] and [ll] of [userStats]. *)
Definition userStats (current : option session) : num * num * num :=
  match current with
  | Some session =>
      if Nat.ltb 0 (List.length (solves session)) then
        let solvesWithSplits := omap splits (solves session) in
        if Nat.ltb 0 (List.length solvesWithSplits)
        then (phaseAverage cross solvesWithSplits,
              phaseAverage f2l solvesWithSplits,
              phaseAverage ll solvesWithSplits)
        else (Fin 0, Fin 0, Fin 0)
      else (Fin 0, Fin 0, Fin 0)
  | None => (Fin 0, Fin 0, Fin 0)
  end.

(** A row of the table: the class of the average cell, whether the average
    is shown rather than a dash, and the status cell. *)
Record goalRow : Type := {
  row_class : string;
  row_shown : bool;
  row_status : string
}.

Definition goalRowOf (stat target : num) : goalRow :=
  {| row_class := if ngt stat target then "over" else "under";
     row_shown := ngt stat (Fin 0);
     row_status :=
       if ngt stat (Fin 0)
       then if nle stat target then "&#10003;" else "&#10005;"
       else "-" |}.

(** [updateGoalTable] for the selected key: the rows of the three phases
    (the row of the rotations is not modelled).  [Some None] is the
    placeholder for an empty selection, [None] the [TypeError] for a key
    that [GOALS] lacks. *)
Definition updateGoalTable (goalKey : string) (st : State)
  : option (option (list goalRow)) :=
  if String.eqb goalKey EmptyString then Some None
  else
    match GOALS !! goalKey with
    | None => None
    | Some goal =>
        let '(c, f, l) := userStats (getCurrentSession st) in
        Some (Some [goalRowOf c (lit (goal_cross goal));
                    goalRowOf f (lit (goal_f2l goal));
                    goalRowOf l (lit (goal_ll goal))])
    end.

(** ** Vocabulary of the goal table *)

(** [k1] stands before [k2] in [GOALS], or is [k2]. *)
Definition notHarder (k1 k2 : string) : Prop :=
  exists (i j : nat) (g1 g2 : goal),
    (i <= j)%nat /\ goalList !! i = Some (k1, g1) /\ goalList !! j = Some (k2, g2).

(** A row whose class and status agree. *)
Definition rowAgrees (r : goalRow) : Prop :=
  (row_status r = "&#10005;"%string <-> row_class r = "over"%string) /\
  (row_status r = "&#10003;"%string ->
   row_class r = "under"%string /\ row_shown r = true) /\
  (row_status r = "-"%string <-> row_shown r = false).

(** The phase targets of [g2] are at most those of [g1]. *)
Definition targetsBelow (g1 g2 : goal) : Prop :=
  (goal_cross g2 <= goal_cross g1)%Q /\ (goal_f2l g2 <= goal_f2l g1)%Q /\
  (goal_ll g2 <= goal_ll g1)%Q.

(** The events of a run by touch: a touch, its release, firings of
    interval [id] with the readings [ticks], and the touch that stops. *)
Definition touchRun (id : Z) (r0 r1 r2 : reading) (ticks : list reading)
  : list (reading * event) :=
  [(r0, touchstartOn false); (r1, touchendOn false)]
  ++ firings id ticks ++ [(r2, touchendOn false)].

(** The solve [stopTimer] creates at [r2] for a run started at [r1]. *)
Definition runSolve (r1 r2 : reading) (ticks : list reading) (scramble : string)
  : solve :=
  {| solve_id := toString (dateNow r2);
     time := match last ticks with
             | Some r => Qred (performanceNow r - performanceNow r1)
             | None => 0
             end;
     scramble := scramble;
     timestamp := dateNow r2;
     splits := None; metrics := ∅; penalty := None |}.
(** * Properties *)

(** ** Effective time *)



(** ** Slices and sorting *)

Section Slices.
Context {A : Type}.
Implicit Types l m : list A.

Lemma sliceFrom_last l (n : Z) :
  0 < n -> n <= Z.of_nat (List.length l) ->
  sliceFrom (- n) l = skipn (List.length l - Z.to_nat n) l.
Proof.
  intros Hn Hle. unfold sliceFrom, slice, relIndex.
  destruct (Z.ltb_spec (- n) 0); [|lia].
  destruct (Z.ltb_spec (Z.of_nat (List.length l)) 0); [lia|].
  replace (Z.to_nat (Z.max (Z.of_nat (List.length l) + - n) 0))
    with (List.length l - Z.to_nat n)%nat by lia.
  apply firstn_all2. rewrite length_skipn. lia.
Qed.

Lemma sliceFrom_last_length l (n : Z) :
  0 < n -> n <= Z.of_nat (List.length l) ->
  Z.of_nat (List.length (sliceFrom (- n) l)) = n.
Proof.
  intros Hn Hle. rewrite sliceFrom_last by assumption.
  rewrite length_skipn. lia.
Qed.

Lemma sliceFrom_last_app l (n : Z) :
  0 < n -> n <= Z.of_nat (List.length l) ->
  l = firstn (List.length l - Z.to_nat n) l ++ sliceFrom (- n) l.
Proof.
  intros Hn Hle. rewrite sliceFrom_last by assumption.
  symmetry. apply firstn_skipn.
Qed.

(** [slice(1, -1)] drops the first and the last element. *)
Lemma slice_inner x m y : slice 1 (-1) (x :: m ++ [y]) = m.
Proof.
  unfold slice, relIndex.
  change (-1 <? 0) with true. change (1 <? 0) with false. cbv iota.
  rewrite length_cons, length_app. simpl List.length.
  replace (Z.to_nat (Z.min 1 (Z.of_nat (S (List.length m + 1))))) with 1%nat by lia.
  simpl skipn.
  replace (Z.to_nat _) with (List.length m) by lia.
  change (skipn 0 (m ++ [y])) with (m ++ [y]).
  rewrite firstn_app, Nat.sub_diag, firstn_all. simpl. apply app_nil_r.
Qed.

Lemma slice_inner_short l :
  (List.length l <= 2)%nat -> slice 1 (-1) l = [].
Proof.
  intros Hl. unfold slice, relIndex.
  change (-1 <? 0) with true. change (1 <? 0) with false. cbv iota.
  replace (Z.to_nat (Z.max _ 0)) with 0%nat by lia.
  reflexivity.
Qed.

(** A list of at least two elements has a first, a middle and a last. *)
Lemma list_ends l :
  (2 <= List.length l)%nat -> exists x m y, l = x :: m ++ [y].
Proof.
  intros Hl. destruct l as [|x l]; [simpl in Hl; lia|].
  destruct (exists_last (l := l)) as (m & y & ->).
  - intros ->. simpl in Hl. lia.
  - eauto.
Qed.
End Slices.

Lemma length_sortInsert f x l :
  List.length (sortInsert f x l) = S (List.length l).
Proof.
  induction l as [|y l IH]; [reflexivity|]. cbn [sortInsert].
  destruct (ngt (f x y) (Fin 0)); cbn [List.length]; [rewrite IH|]; reflexivity.
Qed.

Lemma length_Array_sort f l :
  List.length (Array_sort f l) = List.length l.
Proof.
  induction l as [|x l IH]; [reflexivity|]. cbn [Array_sort].
  rewrite length_sortInsert, IH. reflexivity.
Qed.

Lemma sortInsert_perm f x l : Permutation (x :: l) (sortInsert f x l).
Proof.
  induction l as [|y l IH]; [reflexivity|]. cbn [sortInsert].
  destruct (ngt (f x y) (Fin 0)); [|reflexivity].
  rewrite perm_swap. apply perm_skip, IH.
Qed.

Lemma Array_sort_perm f l : Permutation l (Array_sort f l).
Proof.
  induction l as [|x l IH]; [reflexivity|]. cbn [Array_sort].
  rewrite <- sortInsert_perm. apply perm_skip, IH.
Qed.

Lemma Qle_bool_Qred_sub a b :
  Qle_bool (Qred (a - b)) 0 = Qle_bool a b.
Proof.
  apply eq_true_iff_eq. rewrite !Qle_bool_iff, Qred_correct. split; intros; lra.
Qed.

Lemma byDifference_le a b :
  isNaN a = false -> isNaN b = false ->
  ngt (byDifference a b) (Fin 0) = false -> nle a b = true.
Proof.
  unfold ngt, byDifference.
  destruct a as [p| | |], b as [q| | |]; simpl; try congruence.
  rewrite Qle_bool_Qred_sub. intros _ _ H. now apply negb_false_iff in H.
Qed.

Lemma byDifference_gt a b :
  isNaN a = false -> isNaN b = false ->
  ngt (byDifference a b) (Fin 0) = true -> nle b a = true.
Proof.
  unfold ngt, byDifference.
  destruct a as [p| | |], b as [q| | |]; simpl; try congruence.
  rewrite Qle_bool_Qred_sub. intros _ _ H. apply negb_true_iff in H.
  apply Qle_bool_iff. destruct (Qle_bool p q) eqn:E; [discriminate|].
  destruct (Qlt_le_dec q p) as [?|Hle]; [lra|].
  apply Qle_bool_iff in Hle. congruence.
Qed.

Lemma nle_trans a b c : nle a b = true -> nle b c = true -> nle a c = true.
Proof.
  destruct a as [p| | |], b as [q| | |], c as [r| | |]; simpl; try congruence.
  rewrite !Qle_bool_iff. intros; lra.
Qed.

(** Insertion keeps a list without [NaN] ascending. *)
Lemma sortInsert_ascending x l :
  isNaN x = false -> Forall (fun y => isNaN y = false) l ->
  ascending l -> ascending (sortInsert byDifference x l).
Proof.
  intros Hx Hl Hs. induction Hs as [|y l Hs IH Hy]; cbn [sortInsert].
  - repeat constructor.
  - inversion Hl as [|? ? Hy' Hl']; subst.
    destruct (ngt (byDifference x y) (Fin 0)) eqn:E.
    + constructor; [now apply IH|].
      rewrite <- sortInsert_perm. constructor; [|assumption].
      now apply byDifference_gt.
    + pose proof (byDifference_le _ _ Hx Hy' E) as Hxy.
      constructor; [now constructor|].
      constructor; [assumption|].
      eapply List.Forall_impl; [|exact Hy]. intros z Hz. eapply nle_trans; eauto.
Qed.

Lemma Array_sort_ascending l :
  Forall (fun y => isNaN y = false) l -> ascending (Array_sort byDifference l).
Proof.
  induction 1 as [|x l Hx Hl IH]; cbn [Array_sort]; [constructor|].
  apply sortInsert_ascending; [assumption| |assumption].
  now rewrite <- Array_sort_perm.
Qed.

Lemma getEffectiveTime_notNaN s : isNaN (getEffectiveTime s) = false.
Proof.
  unfold getEffectiveTime.
  destruct (penaltyIs "DNF" s); [reflexivity|].
  destruct (penaltyIs "+2" s); reflexivity.
Qed.

Lemma existsb_PInf l :
  existsb (fun t => strictEq t PInf) l = true <-> In PInf l.
Proof.
  rewrite existsb_exists. split.
  - intros (x & Hin & Hx). destruct x; simpl in Hx; try discriminate. exact Hin.
  - intros Hin. exists PInf. split; [exact Hin|reflexivity].
Qed.

(** ** Rolling average *)

(** C1, as amended: for every window size of at least 3, [calculateAverage]
    is [null] below [n] solves and with more than one DNF among the last
    [n]; otherwise the effective times of the last [n] solves are sorted
    ascending, the lowest and the highest are dropped, and the result is
    [null] if an infinity is left and the mean of the [n - 2] values left
    otherwise. *)
Theorem calculateAverage_contract (solves : list solve) (n : Z) :
  3 <= n -> rollingAverageContract solves n.
Proof.
  intros Hn. unfold rollingAverageContract, calculateAverage.
  destruct (Z.ltb_spec (Z.of_nat (List.length solves)) n) as [Hlt|Hge].
  - split; [reflexivity|lia].
  - split; [lia|]. intros _.
    pose proof (sliceFrom_last_length solves n ltac:(lia) Hge) as Hlen.
    exists (firstn (List.length solves - Z.to_nat n) solves), (sliceFrom (- n) solves).
    split; [apply sliceFrom_last_app; lia|]. split; [exact Hlen|].
    set (window := sliceFrom (- n) solves) in *.
    fold (voidCount window).
    destruct (Z.ltb_spec 1 (Z.of_nat (voidCount window))) as [Hv|Hv].
    + split; [reflexivity|lia].
    + split; [lia|]. intros _.
      change (fun a b : num => nsub a b) with byDifference.
      set (sorted := Array_sort byDifference (map getEffectiveTime window)).
      assert (Hperm : Permutation (map getEffectiveTime window) sorted)
        by apply Array_sort_perm.
      assert (Hasc : ascending sorted).
      { apply Array_sort_ascending, List.Forall_forall. intros x Hx.
        apply in_map_iff in Hx as (s & <- & _). apply getEffectiveTime_notNaN. }
      assert (Hslen : List.length sorted = Z.to_nat n).
      { unfold sorted. rewrite length_Array_sort, length_map. lia. }
      destruct (list_ends sorted ltac:(lia)) as (lo & mid & hi & Hs).
      exists lo, mid, hi. rewrite <- Hs.
      split; [exact Hperm|]. split; [exact Hasc|].
      assert (Hmid : Z.of_nat (List.length mid) = n - 2).
      { rewrite Hs, length_cons, length_app in Hslen. simpl in Hslen. lia. }
      split; [exact Hmid|].
      rewrite Hs, slice_inner.
      destruct (existsb (fun t => strictEq t PInf) mid) eqn:E.
      * split; [reflexivity|]. intros Hno. apply existsb_PInf in E. contradiction.
      * split.
        -- intros Hin. apply existsb_PInf in Hin. congruence.
        -- intros _. eexists. split; [|reflexivity].
           destruct mid; [simpl in Hmid; lia|reflexivity].
Qed.

Lemma calculateAverage_contract_witness :
  rollingAverageContract
    [sampleSolve 10000 None; sampleSolve 11000 None; sampleSolve 12000 None] 3.
Proof. apply calculateAverage_contract. lia. Defined.

(** C1, as stated for every positive [n], fails for [n = 1] and [n = 2]:
    a single value has no separate lowest and highest, and no mean of zero
    values is returned. *)
Lemma calculateAverage_contract_fails_small :
  ~ rollingAverageContract [sampleSolve 10000 None] 1 /\
  ~ rollingAverageContract [sampleSolve 10000 None; sampleSolve 11000 None] 2.
Proof.
  split.
  - intros [_ H]. destruct (H ltac:(simpl; lia)) as (older & window & Heq & Hlen & _ & H1).
    assert (Hw : (List.length window = 1)%nat) by lia.
    destruct H1 as (lo & mid & hi & Hperm & _).
    { unfold voidCount. pose proof (filter_length_le (penaltyIs "DNF") window). lia. }
    apply Permutation_length in Hperm.
    rewrite length_map, length_cons, length_app in Hperm. simpl in Hperm. lia.
  - intros [_ H]. destruct (H ltac:(simpl; lia)) as (older & window & Heq & Hlen & _ & H1).
    assert (Hw : (List.length window = 2)%nat) by lia.
    assert (Hold : older = []).
    { apply (f_equal (@List.length solve)) in Heq.
      rewrite length_app in Heq. simpl in Heq.
      destruct older; [reflexivity|simpl in Heq; lia]. }
    subst older. simpl in Heq. subst window.
    destruct H1 as (lo & mid & hi & Hperm & _ & Hmid & _ & Hmean).
    { vm_compute. lia. }
    destruct mid; [|simpl in Hmid; lia].
    destruct (Hmean ltac:(simpl; tauto)) as (m & Hm & _). discriminate.
Qed.

(** C10: for a window of one or two solves with at most one DNF among
    them, [calculateAverage] divides the empty sum by zero and returns
    [NaN]; so does the first variant of the function on raw times. *)
Theorem calculateAverage_small_window_NaN (n : Z) :
  n = 1 \/ n = 2 ->
  (forall solves : list solve,
     n <= Z.of_nat (List.length solves) ->
     (voidCount (sliceFrom (- n) solves) <= 1)%nat ->
     calculateAverage solves n = Some NaN) /\
  (forall times : list num,
     n <= Z.of_nat (List.length times) ->
     Legacy.calculateAverage times n = Some NaN).
Proof.
  intros Hn. split.
  - intros solves Hlen Hvoid. unfold calculateAverage.
    destruct (Z.ltb_spec (Z.of_nat (List.length solves)) n); [lia|].
    fold (voidCount (sliceFrom (- n) solves)).
    destruct (Z.ltb_spec 1 (Z.of_nat (voidCount (sliceFrom (- n) solves)))); [lia|].
    pose proof (sliceFrom_last_length solves n ltac:(lia) Hlen) as Hw.
    rewrite slice_inner_short; [reflexivity|].
    rewrite length_Array_sort, length_map. lia.
  - intros times Hlen. unfold Legacy.calculateAverage.
    destruct (Z.ltb_spec (Z.of_nat (List.length times)) n); [lia|].
    pose proof (sliceFrom_last_length times n ltac:(lia) Hlen) as Hw.
    rewrite slice_inner_short; [reflexivity|].
    rewrite length_Array_sort. lia.
Qed.

Lemma calculateAverage_small_window_NaN_witness :
  calculateAverage [sampleSolve 10000 None; sampleSolve 11000 (Some "DNF"%string)] 2
  = Some NaN.
Proof.
  apply (proj1 (calculateAverage_small_window_NaN 2 (or_intror eq_refl)));
    vm_compute; [discriminate|lia].
Defined.

(** C2: over five solves of 10000, 11000, 12000, 13000 and 14000 ms without
    penalty the average of 5 is 12000; with the third one a DNF the sorted
    effective times are 10000, 11000, 13000, 14000, infinity and the
    average is 38000/3, that is 12666.67 to two decimals. *)
Theorem calculateAverage_five (solves : list solve) :
  map time solves = [10000; 11000; 12000; 13000; 14000]%Q ->
  (map penalty solves = [None; None; None; None; None] ->
   calculateAverage solves 5 = Some (Fin 12000)) /\
  (map penalty solves = [None; None; Some "DNF"%string; None; None] ->
   Array_sort (fun a b => nsub a b) (map getEffectiveTime solves)
   = [Fin 10000; Fin 11000; Fin 13000; Fin 14000; PInf] /\
   slice 1 (-1) (Array_sort (fun a b => nsub a b) (map getEffectiveTime solves))
   = [Fin 11000; Fin 13000; Fin 14000] /\
   calculateAverage solves 5 = Some (Fin (38000 # 3)) /\
   (12666.665 <= 38000 # 3 < 12666.675)%Q).
Proof.
  intros Ht.
  do 6 (destruct solves as [|[] solves]; try discriminate Ht).
  simpl in Ht. injection Ht as -> -> -> -> ->.
  split; intros Hp; simpl in Hp; injection Hp as -> -> -> -> ->.
  - reflexivity.
  - split; [reflexivity|]. split; [reflexivity|]. split; [reflexivity|].
    split; [|reflexivity]. now vm_compute.
Qed.

Lemma calculateAverage_five_witness :
  calculateAverage fiveWithVoid 5 = Some (Fin (38000 # 3)).
Proof.
  exact (proj1 (proj2 (proj2 (proj2 (calculateAverage_five fiveWithVoid eq_refl) eq_refl)))).
Defined.

(** ** Comparisons of rationals *)

Lemma Qle_bool_true a b : Qle_bool a b = true <-> (a <= b)%Q.
Proof. apply Qle_bool_iff. Qed.

Lemma Qle_bool_false a b : Qle_bool a b = false <-> (b < a)%Q.
Proof.
  split; intros H.
  - destruct (Qlt_le_dec b a) as [?|Hle]; [assumption|].
    apply Qle_bool_iff in Hle. congruence.
  - destruct (Qle_bool a b) eqn:E; [|reflexivity].
    apply Qle_bool_iff in E. lra.
Qed.

(** ** Best, mean and worst *)















(** ** Ratio adjustment in binary64 *)

(** C6: the invariant does not survive every sequence of adjustments.
    From the initial ratios, [updateMeshSplit(1, 0.5)] followed by
    [updateMeshSplit(0, 0.4)] stores [0.4] and [0.5], whose difference
    [0.5 - 0.4] is 0.09999999999999998, below [0.1]: the first ratio was
    set to [r2 - 0.1], which rounds up to [0.4].  And a proposed value that
    is [NaN] passes [Math.max(0.1, Math.min(0.4, NaN))] and the comparison
    after it, and is stored as the first ratio. *)
Theorem updateMeshSplit_breaks_invariant :
  let dragged :=
    Binary64.updateMeshSplit (Fin 0) (Binary64.lit 0.4)
      (Binary64.updateMeshSplit (Fin 1) (Binary64.lit 0.5) Binary64.initialState) in
  meshSplits Binary64.initialState = (Binary64.lit 0.2, Binary64.lit 0.65) /\
  meshSplits dragged = (Binary64.lit 0.4, Binary64.lit 0.5) /\
  Binary64.sub (Binary64.lit 0.5) (Binary64.lit 0.4)
  = Fin (900719925474099 # 9007199254740992) /\
  nlt (Binary64.sub (Binary64.lit 0.5) (Binary64.lit 0.4)) (Binary64.lit 0.1) = true /\
  nlt (nsub (Binary64.lit 0.5) (Binary64.lit 0.4)) (Fin (1 # 10)) = true /\
  sharesOk (meshSplits dragged) = false /\
  splitsInvariant (meshSplits dragged) = false /\
  meshSplits (Binary64.updateMeshSplit (Fin 0) NaN Binary64.initialState)
  = (NaN, Binary64.lit 0.65) /\
  meshSplits (updateMeshSplit (Fin 0) NaN initialState) = (NaN, lit 0.65) /\
  splitsInvariant (NaN, Binary64.lit 0.65) = false /\
  splitsInvariant (NaN, lit 0.65) = false.
Proof. cbv zeta. repeat split; vm_compute; reflexivity. Qed.

(** C4, as amended: with the ratios at (0.2, 0.65), [updateMeshSplit(0,
    0.65)] sets r1 to the upper clamp 0.4, which does not exceed r2 - 0.1 =
    0.55, and leaves r2. *)
Theorem updateMeshSplit_first_clamped (st : State) :
  meshSplits st = (lit 0.2, lit 0.65) ->
  meshSplits (updateMeshSplit (Fin 0) (lit 0.65) st) = (lit 0.4, lit 0.65) /\
  nsub (lit 0.65) (lit 0.1) = lit 0.55 /\
  nle (lit 0.4) (lit 0.55) = true.
Proof.
  intros H. unfold updateMeshSplit. rewrite H.
  repeat split; reflexivity.
Qed.

Lemma updateMeshSplit_first_clamped_witness :
  meshSplits (updateMeshSplit (Fin 0) (lit 0.65) initialState)
  = (lit 0.4, lit 0.65).
Proof. apply (updateMeshSplit_first_clamped initialState eq_refl). Defined.

(** C4, as stated, fails: r1 is not set to r2 - 0.1 = 0.55. *)
Lemma updateMeshSplit_first_not_r2_minus_tenth :
  meshSplits initialState = (lit 0.2, lit 0.65) /\
  fst (meshSplits (updateMeshSplit (Fin 0) (lit 0.65) initialState))
  <> nsub (lit 0.65) (lit 0.1).
Proof. split; [reflexivity|]. vm_compute. discriminate. Qed.

(** ** Completion protocol *)

Lemma idIs_pushSolve sid x s : idIs sid (pushSolve x s) = idIs sid s.
Proof. reflexivity. Qed.

(** Pushing to the current session succeeds when there is one, and the
    session found afterwards is the old one with the solve appended. *)
Lemma pushToCurrent_found sid x l sess :
  find (idIs sid) l = Some sess ->
  exists l', pushToCurrent sid x l = Some l' /\
             find (idIs sid) l' = Some (pushSolve x sess).
Proof.
  induction l as [|s l IH]; [discriminate|]. cbn [find pushToCurrent].
  destruct (idIs sid s) eqn:E.
  - intros [= ->]. eexists. split; [reflexivity|].
    cbn [find]. now rewrite idIs_pushSolve, E.
  - intros H. destruct (IH H) as (l' & -> & Hl'). eexists. split; [reflexivity|].
    cbn [find]. now rewrite E.
Qed.

(** C5, as amended: with the mesh bar enabled and a current session, the
    skip path stores the timed solve with its duration, with [splits] still
    [null] and [metrics] empty; the phase splits computed from the duration
    and the current ratios are stored by the save path only. *)
Theorem skipPath_stores_no_splits
    (st : State) (sess : session) (now : Z) (sc1 sc2 : string) :
  truthy (settings st !! "meshBar"%string) = true ->
  getCurrentSession st = Some sess ->
  (exists st2,
     skipPath now sc1 sc2 st = Some st2 /\
     currentSolves st2 = Some (solves sess ++ [timedSolve now st]) /\
     time (timedSolve now st) = timerValue st /\
     splits (timedSolve now st) = None /\
     metrics (timedSolve now st) = ∅) /\
  (forall cm cr fr fp lr, exists st3 stored,
     savePath now sc1 sc2 cm cr fr fp lr st = Some st3 /\
     currentSolves st3 = Some (solves sess ++ [stored]) /\
     time stored = timerValue st /\
     splits stored = Some (phasesOf (Fin (timerValue st)) (meshSplits st)) /\
     metrics stored !! "f2lPause"%string = Some (VBool fp)).
Proof.
  intros Hbar Hcur. split.
  - unfold skipPath, stopTimer. rewrite Hbar.
    unfold skipMeshMetrics, completeSolve. cbn [currentSolve currentSessionId sessions].
    destruct (pushToCurrent_found (currentSessionId st) (timedSolve now st) _ _ Hcur)
      as (l' & Hpush & Hfind).
    fold (timedSolve now st). rewrite Hpush.
    eexists. split; [reflexivity|].
    unfold currentSolves, getCurrentSession. cbn [currentSessionId sessions].
    rewrite Hfind. repeat split; reflexivity.
  - intros cm cr fr fp lr.
    unfold savePath, stopTimer. rewrite Hbar.
    unfold saveMeshMetrics, completeSolve.
    cbn [currentSolve currentSessionId sessions meshSplits time].
    match goal with
    | |- context [pushToCurrent _ ?x _] =>
        destruct (pushToCurrent_found (currentSessionId st) x _ _ Hcur)
          as (l' & Hpush & Hfind); rewrite Hpush
    end.
    eexists. eexists. split; [reflexivity|].
    unfold currentSolves, getCurrentSession. cbn [currentSessionId sessions].
    rewrite Hfind. repeat split; reflexivity.
Qed.

Lemma skipPath_stores_no_splits_witness :
  exists st2,
    skipPath 1700000000000 "R U F" "L D B" timedState = Some st2 /\
    currentSolves st2 = Some [timedSolve 1700000000000 timedState].
Proof.
  destruct (proj1 (skipPath_stores_no_splits timedState
                     {| session_id := "1"; type := "normal"; name := "Normal 1";
                        solves := []; createdAt := 0 |}
                     1700000000000 "R U F" "L D B" eq_refl eq_refl))
    as (st2 & H1 & H2 & _).
  exists st2. split; assumption.
Defined.

(** C5, as stated, fails: the solve stored by the skip path carries no
    splits, whereas the duration and the ratios give 2000, 4500 and 3500. *)
Lemma skipPath_splits_absent :
  option_map (fun st2 => option_map (map splits) (currentSolves st2))
    (skipPath 1700000000000 "R U F" "L D B" timedState)
  = Some (Some [None]) /\
  phasesOf (Fin 10000) (meshSplits timedState)
  = {| cross := Fin 2000; f2l := Fin 4500; ll := Fin 3500 |}.
Proof. split; reflexivity. Qed.

(** ** Import *)

(** C9: a key that is absent from the imported document leaves the state
    it would replace untouched, and a document with a non-empty [sessions]
    array makes its first session the current one. *)
Theorem importData_keys (d : document) (st : State) :
  (doc_sessions d = None -> sessions (importData (Some d) st) = sessions st) /\
  (doc_settings d = None -> settings (importData (Some d) st) = settings st) /\
  (doc_meshSplits d = None ->
   meshSplits (importData (Some d) st) = meshSplits st) /\
  (forall s l, doc_sessions d = Some (Given (s :: l)) ->
     sessions (importData (Some d) st) = s :: l /\
     currentSessionId (importData (Some d) st) = Some (session_id s) /\
     getCurrentSession (importData (Some d) st) = Some s).
Proof.
  unfold importData, getCurrentSession. cbn [sessions settings meshSplits currentSessionId].
  split; [|split; [|split]].
  - intros ->. reflexivity.
  - intros ->. reflexivity.
  - intros ->. reflexivity.
  - intros s l ->. cbn [find idIs]. rewrite String.eqb_refl. auto.
Qed.

Lemma importData_keys_witness :
  currentSessionId
    (importData
       (Some {| doc_sessions := Some (Given [sampleSession]);
                doc_settings := None; doc_meshSplits := None |})
       timedState)
  = Some "1"%string /\
  settings
    (importData
       (Some {| doc_sessions := Some (Given [sampleSession]);
                doc_settings := None; doc_meshSplits := None |})
       timedState)
  = settings timedState.
Proof.
  split.
  - apply (proj2 (proj2 (proj2 (importData_keys _ timedState))) sampleSession []).
    reflexivity.
  - apply (proj1 (proj2 (importData_keys _ timedState))). reflexivity.
Defined.

(** ** Typed entry *)


























(** [parseTimeInput] on an input that is not [dnf], by stages. *)
Lemma parseTimeInput_stages input :
  isDnf input = false ->
  parseTimeInput input
  = checked (parseBody (numericBody input))
            (if hasPlusSuffix input then Some "+2"%string else None).
Proof.
  unfold isDnf, parseTimeInput, numericBody, hasPlusSuffix, chars_of.
  intros ->. now destruct (_ || _).
Qed.

(** ** Typed entry in binary64 *)




(** *** Inputs that do not begin with a number *)















(** *** Spaces around [dnf] *)











(** * Further properties *)

(** ** Finding and mutating the first match *)

Section FirstMatch.
Context {A : Type}.
Implicit Types (p : A -> bool) (f g : A -> A) (l : list A).

Lemma updateFirst_find p f l x :
  (forall y, p (f y) = p y) -> find p l = Some x ->
  exists l', updateFirst p f l = Some l' /\ find p l' = Some (f x).
Proof.
  intros Hp. induction l as [|y l IH]; [discriminate|]. cbn [find updateFirst].
  destruct (p y) eqn:E.
  - intros [= ->]. eexists. split; [reflexivity|]. cbn [find]. now rewrite Hp, E.
  - intros H. destruct (IH H) as (l' & -> & Hl'). eexists. split; [reflexivity|].
    cbn [find]. now rewrite E.
Qed.

Lemma updateFirst_none p f l :
  find p l = None -> updateFirst p f l = None.
Proof.
  induction l as [|y l IH]; [reflexivity|]. cbn [find updateFirst].
  destruct (p y); [discriminate|]. intros H. now rewrite (IH H).
Qed.

Lemma updateFirst_compose p f g l l1 :
  (forall y, p (f y) = p y) -> updateFirst p f l = Some l1 ->
  updateFirst p g l1 = updateFirst p (fun y => g (f y)) l.
Proof.
  intros Hp. revert l1. induction l as [|y l IH]; intros l1; [discriminate|].
  cbn [updateFirst]. destruct (p y) eqn:E.
  - intros [= <-]. cbn [updateFirst]. now rewrite Hp, E.
  - destruct (updateFirst p f l) as [l2|] eqn:E2; [|discriminate].
    intros [= <-]. cbn [updateFirst]. rewrite E. now rewrite (IH l2 eq_refl).
Qed.

Lemma updateFirst_same p f l l1 :
  (forall y, p y = true -> f y = y) -> updateFirst p f l = Some l1 -> l1 = l.
Proof.
  intros Hf. revert l1. induction l as [|y l IH]; intros l1; [discriminate|].
  cbn [updateFirst]. destruct (p y) eqn:E.
  - intros [= <-]. now rewrite (Hf y E).
  - destruct (updateFirst p f l) as [l2|]; [|discriminate].
    intros [= <-]. now rewrite (IH l2 eq_refl).
Qed.

Lemma updateFirst_map {B : Type} (proj : A -> B) p f l l1 :
  (forall y, proj (f y) = proj y) -> updateFirst p f l = Some l1 ->
  map proj l1 = map proj l.
Proof.
  intros Hf. revert l1. induction l as [|y l IH]; intros l1; [discriminate|].
  cbn [updateFirst]. destruct (p y).
  - intros [= <-]. cbn [map]. now rewrite Hf.
  - destruct (updateFirst p f l) as [l2|]; [|discriminate].
    intros [= <-]. cbn [map]. now rewrite (IH l2 eq_refl).
Qed.

(** Elements that do not satisfy [p] are found as before. *)
Lemma updateFirst_find_other p (q : A -> bool) f l l1 :
  (forall y, q (f y) = q y) -> (forall y, p y = true -> q y = false) ->
  updateFirst p f l = Some l1 -> find q l1 = find q l.
Proof.
  intros Hq Hpq. revert l1. induction l as [|y l IH]; intros l1; [discriminate|].
  cbn [updateFirst]. destruct (p y) eqn:E.
  - intros [= <-]. cbn [find]. now rewrite Hq, (Hpq y E).
  - destruct (updateFirst p f l) as [l2|]; [|discriminate].
    intros [= <-]. cbn [find]. now rewrite (IH l2 eq_refl).
Qed.

Lemma removeFirst_none p l : find p l = None -> removeFirst p l = None.
Proof.
  induction l as [|y l IH]; [reflexivity|]. cbn [find removeFirst].
  destruct (p y); [discriminate|]. intros H. now rewrite (IH H).
Qed.

Lemma removeFirst_length p l l1 :
  removeFirst p l = Some l1 -> List.length l = S (List.length l1).
Proof.
  revert l1. induction l as [|y l IH]; intros l1; [discriminate|].
  cbn [removeFirst]. destruct (p y).
  - now intros [= <-].
  - destruct (removeFirst p l) as [l2|]; [|discriminate].
    intros [= <-]. cbn [List.length]. now rewrite (IH l2 eq_refl).
Qed.

(** Removing the first match of [p] keeps what [q] finds when the two
    tests exclude each other. *)
Lemma removeFirst_find_other p (q : A -> bool) l l1 :
  (forall y, p y = true -> q y = false) ->
  removeFirst p l = Some l1 -> find q l1 = find q l.
Proof.
  intros Hpq. revert l1. induction l as [|y l IH]; intros l1; [discriminate|].
  cbn [removeFirst]. destruct (p y) eqn:E.
  - intros [= <-]. cbn [find]. now rewrite (Hpq y E).
  - destruct (removeFirst p l) as [l2|]; [|discriminate].
    intros [= <-]. cbn [find]. now rewrite (IH l2 eq_refl).
Qed.

(** What is removed is the first match, and the rest keeps its order. *)
Lemma removeFirst_split p l l1 :
  removeFirst p l = Some l1 ->
  exists before x after,
    l = before ++ x :: after /\ l1 = before ++ after /\ p x = true /\
    List.Forall (fun y => p y = false) before.
Proof.
  revert l1. induction l as [|y l IH]; intros l1; [discriminate|].
  cbn [removeFirst]. destruct (p y) eqn:E.
  - intros [= <-]. exists [], y, l.
    split; [reflexivity|]. split; [reflexivity|]. split; [assumption|constructor].
  - destruct (removeFirst p l) as [l2|]; [|discriminate].
    intros [= <-]. destruct (IH l2 eq_refl) as (b & x & a & -> & -> & Hx & Hb).
    exists (y :: b), x, a.
    split; [reflexivity|]. split; [reflexivity|]. split; [assumption|now constructor].
Qed.

End FirstMatch.

Lemma pushToCurrent_updateFirst sid x l :
  pushToCurrent sid x l = updateFirst (idIs sid) (pushSolve x) l.
Proof.
  induction l as [|s l IH]; [reflexivity|]. cbn [pushToCurrent updateFirst].
  now rewrite IH.
Qed.

Lemma setSessions_same st : setSessions st (sessions st) (currentSessionId st) = st.
Proof. now destruct st. Qed.

Lemma idIs_sameId cur sid s :
  idIs sid s = true -> idIs cur s = sameId cur sid.
Proof.
  destruct sid as [i|]; [|discriminate]. cbn [idIs]. intros H.
  apply String.eqb_eq in H. subst i.
  destruct cur as [c|]; [|reflexivity]. cbn [idIs sameId]. apply String.eqb_sym.
Qed.

(** ** Session store *)

Lemma find_app_first {A : Type} (p : A -> bool) (l l' : list A) :
  find p (l ++ l') = match find p l with Some x => Some x | None => find p l' end.
Proof.
  induction l as [|y l IH]; [reflexivity|]. cbn [app find].
  now destruct (p y).
Qed.

Lemma typeLabels_own ty label :
  In (ty, label) sessionLabels -> typeLabels !! ty = Some label.
Proof.
  unfold sessionLabels. cbn [In].
  intros [[= <- <-]|[[= <- <-]|[[= <- <-]|[[= <- <-]|[[= <- <-]|[[= <- <-]|[]]]]]]];
    reflexivity.
Qed.

Lemma typeLabels_other ty :
  ~ In ty (map fst sessionLabels) -> typeLabels !! ty = None.
Proof.
  intros Hnot. unfold typeLabels. apply not_elem_of_list_to_map_1.
  intros Hin. apply Hnot. apply list_elem_of_In in Hin. exact Hin.
Qed.

(** X1: for a type that is not a property name inherited from
    [Object.prototype], [createSession] appends one session, with the clock
    reading as id, the type, no solves and the second clock reading as
    creation time, named by the label of the type, or by the type itself
    when it has no label, and the number of sessions; it selects the id of
    that session, and the session then found as current is the new one,
    unless an older session already carries the same clock id, which is
    then found first. *)
Theorem createSession_current (now created : Z) (ty : string) (st : State) :
  ~ In ty objectPrototypeKeys ->
  exists s : session,
    sessions (createSession now created ty st) = sessions st ++ [s] /\
    session_id s = toString now /\ type s = ty /\ solves s = [] /\
    createdAt s = created /\
    (forall label, In (ty, label) sessionLabels ->
       name s = numbered label (List.length (sessions st))) /\
    (~ In ty (map fst sessionLabels) ->
       name s = numbered ty (List.length (sessions st))) /\
    currentSessionId (createSession now created ty st) = Some (toString now) /\
    (List.Forall (fun o => session_id o <> toString now) (sessions st) ->
     getCurrentSession (createSession now created ty st) = Some s) /\
    (forall old, find (idIs (Some (toString now))) (sessions st) = Some old ->
     getCurrentSession (createSession now created ty st) = Some old).
Proof.
  intros _. eexists. split; [reflexivity|].
  cbn [session_id type solves createdAt name].
  split; [reflexivity|]. split; [reflexivity|]. split; [reflexivity|].
  split; [reflexivity|].
  split; [intros label Hl; now rewrite (typeLabels_own ty label Hl)|].
  split; [intros Hn; now rewrite (typeLabels_other ty Hn)|].
  split; [reflexivity|].
  unfold getCurrentSession, createSession.
  cbn [sessions currentSessionId setSessions session_id]. split.
  - intros Hfresh. rewrite find_app_first.
    replace (find _ (sessions st)) with (@None session).
    + cbn [find idIs session_id]. now rewrite String.eqb_refl.
    + symmetry. induction Hfresh as [|o l Ho Hl IH]; [reflexivity|].
      cbn [find idIs]. destruct (String.eqb_spec (session_id o) (toString now));
        [contradiction|exact IH].
  - intros old Hold. now rewrite find_app_first, Hold.
Qed.

Lemma createSession_current_witness :
  exists s : session,
    sessions (createSession 3 3 "f2l" twoSessions) = sessions twoSessions ++ [s] /\
    name s = "F2L 3"%string /\
    getCurrentSession (createSession 3 3 "f2l" twoSessions) = Some s.
Proof.
  destruct (createSession_current 3 3 "f2l" twoSessions)
    as (s & Hs & _ & _ & _ & _ & Hname & _ & _ & Hcur & _).
  - cbn [objectPrototypeKeys In]. intros H.
    repeat (destruct H as [H|H]; [discriminate H|]). exact H.
  - exists s. split; [exact Hs|]. split.
    + apply (Hname "F2L"%string). cbn [sessionLabels In]. auto.
    + apply Hcur. repeat constructor; discriminate.
Defined.

(** X2: [deleteSession] does nothing for an id no session carries;
    otherwise it removes the first session with that id and keeps the
    others in order, and when that was the only session it leaves exactly
    one new, empty, current session named "Normal 1". *)
Theorem deleteSession_effect (now created : Z) (sid : option string) (st : State) :
  (find (idIs sid) (sessions st) = None ->
   deleteSession now created sid st = st) /\
  (forall s, find (idIs sid) (sessions st) = Some s ->
   exists before x after,
     sessions st = before ++ x :: after /\ idIs sid x = true /\
     List.Forall (fun y => idIs sid y = false) before /\
     (before ++ after <> [] ->
      sessions (deleteSession now created sid st) = before ++ after) /\
     (before ++ after = [] ->
      sessions (deleteSession now created sid st)
      = [newSession now created "normal" 0] /\
      name (newSession now created "normal" 0) = "Normal 1"%string /\
      getCurrentSession (deleteSession now created sid st)
      = Some (newSession now created "normal" 0))).
Proof.
  unfold deleteSession. split.
  - intros H. now rewrite (removeFirst_none _ _ H).
  - intros s Hs.
    destruct (removeFirst (idIs sid) (sessions st)) as [l1|] eqn:E.
    + destruct (removeFirst_split _ _ _ E) as (b & x & a & Hl & -> & Hx & Hb).
      exists b, x, a. split; [exact Hl|]. split; [exact Hx|]. split; [exact Hb|].
      split.
      * intros Hne. destruct (b ++ a) as [|first rest]; [congruence|].
        now destruct (sameId (currentSessionId st) sid).
      * intros ->. split; [reflexivity|]. split; [reflexivity|].
        unfold getCurrentSession, createSession.
        cbn [sessions currentSessionId setSessions app find idIs session_id].
        now rewrite String.eqb_refl.
    + exfalso. clear -Hs E. induction (sessions st) as [|y l IH]; [discriminate|].
      cbn [find removeFirst] in *. destruct (idIs sid y); [discriminate|].
      destruct (removeFirst (idIs sid) l); [discriminate|]. now apply IH.
Qed.

Lemma deleteSession_effect_witness :
  deleteSession 5 5 (Some "9"%string) twoSessions = twoSessions.
Proof.
  apply (proj1 (deleteSession_effect 5 5 (Some "9"%string) twoSessions)).
  reflexivity.
Defined.

(** X3: when a current session is found, [deleteSession] leaves the
    collection non-empty with a current session that is found; deleting a
    session other than the current one leaves the current session, with
    its solves, as it was. *)
Theorem deleteSession_keeps_current
    (now created : Z) (sid : option string) (st : State) (cur : session) :
  getCurrentSession st = Some cur ->
  sessions (deleteSession now created sid st) <> [] /\
  (exists s, getCurrentSession (deleteSession now created sid st) = Some s) /\
  (sameId (currentSessionId st) sid = false ->
   getCurrentSession (deleteSession now created sid st) = Some cur).
Proof.
  intros Hcur. unfold deleteSession.
  destruct (removeFirst (idIs sid) (sessions st)) as [l1|] eqn:E.
  - assert (Hother : sameId (currentSessionId st) sid = false ->
                     find (idIs (currentSessionId st)) l1 = Some cur).
    { intros Hne.
      rewrite (removeFirst_find_other (idIs sid) (idIs (currentSessionId st))
                 (sessions st) l1); [exact Hcur| |exact E].
      intros y Hy. rewrite (idIs_sameId _ _ _ Hy). exact Hne. }
    destruct l1 as [|first rest].
    + split; [|split].
      * unfold createSession. cbn [sessions setSessions app]. discriminate.
      * eexists. unfold getCurrentSession, createSession.
        cbn [sessions currentSessionId setSessions app find idIs session_id].
        now rewrite String.eqb_refl.
      * intros Hne. specialize (Hother Hne). discriminate.
    + destruct (sameId (currentSessionId st) sid) eqn:Es.
      * split; [discriminate|]. split; [|discriminate].
        exists first. unfold getCurrentSession.
        cbn [sessions currentSessionId setSessions find idIs].
        now rewrite String.eqb_refl.
      * split; [discriminate|]. split.
        -- exists cur. unfold getCurrentSession.
           cbn [sessions currentSessionId setSessions]. now apply Hother.
        -- intros _. unfold getCurrentSession.
           cbn [sessions currentSessionId setSessions]. now apply Hother.
  - split; [|split].
    + intros Hnil. unfold getCurrentSession in Hcur. now rewrite Hnil in Hcur.
    + now exists cur.
    + intros _. exact Hcur.
Qed.

Lemma deleteSession_keeps_current_witness :
  getCurrentSession (deleteSession 5 5 (Some "1"%string) twoSessions)
  = getCurrentSession twoSessions.
Proof.
  apply (proj2 (proj2 (deleteSession_keeps_current 5 5 (Some "1"%string)
                         twoSessions _ eq_refl))).
  reflexivity.
Defined.

(** X4: [renameSession] changes nothing but the name of the first session
    with the id: ids, types, creation times and solves of all sessions
    stay, so does the current id, and an id no session carries changes
    nothing at all. *)
Theorem renameSession_effect (sid : option string) (newName : string) (st : State) :
  map session_id (sessions (renameSession sid newName st))
  = map session_id (sessions st) /\
  map solves (sessions (renameSession sid newName st)) = map solves (sessions st) /\
  map type (sessions (renameSession sid newName st)) = map type (sessions st) /\
  map createdAt (sessions (renameSession sid newName st))
  = map createdAt (sessions st) /\
  currentSessionId (renameSession sid newName st) = currentSessionId st /\
  (forall s, find (idIs sid) (sessions st) = Some s ->
     find (idIs sid) (sessions (renameSession sid newName st))
     = Some (setName newName s)) /\
  (find (idIs sid) (sessions st) = None -> renameSession sid newName st = st).
Proof.
  unfold renameSession.
  destruct (updateFirst (idIs sid) (setName newName) (sessions st)) as [l|] eqn:E.
  - cbn [sessions currentSessionId setSessions].
    split; [exact (updateFirst_map session_id (idIs sid) (setName newName) _ _ (fun _ => eq_refl) E)|].
    split; [exact (updateFirst_map solves (idIs sid) (setName newName) _ _ (fun _ => eq_refl) E)|].
    split; [exact (updateFirst_map type (idIs sid) (setName newName) _ _ (fun _ => eq_refl) E)|].
    split; [exact (updateFirst_map createdAt (idIs sid) (setName newName) _ _ (fun _ => eq_refl) E)|].
    split; [reflexivity|]. split.
    + intros s Hs.
      destruct (updateFirst_find (idIs sid) (setName newName) _ s
                  (fun _ => eq_refl) Hs) as (l' & Hl' & Hf).
      rewrite E in Hl'. now injection Hl' as <-.
    + intros Hnone. rewrite (updateFirst_none _ _ _ Hnone) in E. discriminate.
  - repeat split; try reflexivity. intros s Hs.
    destruct (updateFirst_find (idIs sid) (setName newName) _ s
                (fun _ => eq_refl) Hs) as (l' & Hl' & _).
    rewrite E in Hl'. discriminate.
Qed.

Lemma renameSession_effect_witness :
  renameSession (Some "7"%string) "Evening" twoSessions = twoSessions.
Proof.
  apply (proj2 (proj2 (proj2 (proj2 (proj2 (proj2
           (renameSession_effect (Some "7"%string) "Evening" twoSessions))))))).
  reflexivity.
Defined.

(** ** Editing the solves of the current session *)

Lemma updateFirst_fixed {A : Type} (p : A -> bool) (f : A -> A) (l : list A) x :
  find p l = Some x -> f x = x -> updateFirst p f l = Some l.
Proof.
  induction l as [|y l IH]; [discriminate|]. cbn [find updateFirst].
  destruct (p y).
  - intros [= ->] ->. reflexivity.
  - intros H Hf. now rewrite (IH H Hf).
Qed.

Lemma updateFirst_ext {A : Type} (p : A -> bool) (f g : A -> A) (l : list A) :
  (forall y, f y = g y) -> updateFirst p f l = updateFirst p g l.
Proof.
  intros H. induction l as [|y l IH]; [reflexivity|]. cbn [updateFirst].
  now rewrite H, IH.
Qed.

Lemma mapLast_last {A : Type} (f : A -> A) (l : list A) (x : A) :
  mapLast f (l ++ [x]) = l ++ [f x].
Proof.
  induction l as [|y l IH]; [reflexivity|]. cbn [app mapLast].
  rewrite IH. destruct (l ++ [x]) eqn:E; [|reflexivity].
  now destruct l.
Qed.

Lemma setSolves_same s : setSolves (solves s) s = s.
Proof. now destruct s. Qed.

Lemma withPenalty_same x : withPenalty (penalty x) x = x.
Proof. now destruct x. Qed.

(** A mutation of the solves of the current session, when one is found. *)
Lemma editCurrentSolves_found (f : list solve -> list solve) st sess :
  getCurrentSession st = Some sess ->
  exists st',
    editCurrentSolves f st = Some st' /\
    getCurrentSession st' = Some (setSolves (f (solves sess)) sess) /\
    currentSessionId st' = currentSessionId st /\
    map session_id (sessions st') = map session_id (sessions st) /\
    settings st' = settings st /\ currentSolve st' = currentSolve st /\
    meshSplits st' = meshSplits st.
Proof.
  intros Hcur. unfold editCurrentSolves.
  destruct (updateFirst_find (idIs (currentSessionId st))
              (fun s => setSolves (f (solves s)) s) _ sess (fun _ => eq_refl) Hcur)
    as (l' & Hl' & Hf).
  rewrite Hl'. eexists. split; [reflexivity|].
  unfold getCurrentSession. cbn [sessions currentSessionId setSessions
    settings currentSolve meshSplits].
  split; [exact Hf|]. split; [reflexivity|].
  split; [|auto].
  exact (updateFirst_map session_id (idIs (currentSessionId st))
           (fun s => setSolves (f (solves s)) s) _ _ (fun _ => eq_refl) Hl').
Qed.

(** [applyPenaltyToLastSolve] on a session with a last solve. *)
Lemma applyPenaltyToLastSolve_last
    (p : option string) (st : State) (sess : session) (l : list solve) (x : solve) :
  getCurrentSession st = Some sess -> solves sess = l ++ [x] ->
  exists st',
    applyPenaltyToLastSolve p st = Some st' /\
    getCurrentSession st' = Some (setSolves (l ++ [withPenalty p x]) sess) /\
    map time (l ++ [withPenalty p x]) = map time (solves sess) /\
    map session_id (sessions st') = map session_id (sessions st).
Proof.
  intros Hcur Hl. unfold applyPenaltyToLastSolve. rewrite Hcur.
  rewrite Hl, length_app. cbn [List.length].
  replace (List.length l + 1 =? 0)%nat with false
    by (symmetry; apply Nat.eqb_neq; lia).
  destruct (editCurrentSolves_found (mapLast (withPenalty p)) st sess Hcur)
    as (st' & -> & Hf & _ & Hids & _).
  exists st'. split; [reflexivity|]. rewrite Hl, mapLast_last in Hf.
  split; [exact Hf|]. split; [|exact Hids].
  now rewrite !map_app.
Qed.

(** X5: [applyPenaltyToLastSolve] leaves a session without solves alone;
    otherwise it rewrites the penalty of the last solve of the current
    session and nothing else of it: the other solves, all times and the
    number of solves stay. *)
Theorem applyPenaltyToLastSolve_effect
    (p : option string) (st : State) (sess : session) :
  getCurrentSession st = Some sess ->
  (solves sess = [] -> applyPenaltyToLastSolve p st = Some st) /\
  (forall l x, solves sess = l ++ [x] ->
   exists st',
     applyPenaltyToLastSolve p st = Some st' /\
     getCurrentSession st' = Some (setSolves (l ++ [withPenalty p x]) sess) /\
     map time (l ++ [withPenalty p x]) = map time (solves sess) /\
     map session_id (sessions st') = map session_id (sessions st)).
Proof.
  intros Hcur. split.
  - intros Hnil. unfold applyPenaltyToLastSolve. now rewrite Hcur, Hnil.
  - intros l x Hl. now apply applyPenaltyToLastSolve_last.
Qed.

Lemma applyPenaltyToLastSolve_effect_witness :
  exists st',
    applyPenaltyToLastSolve (Some "DNF"%string) twoSessions = Some st' /\
    option_map (map penalty) (currentSolves st')
    = Some [None; Some "DNF"%string].
Proof.
  destruct (proj2 (applyPenaltyToLastSolve_effect (Some "DNF"%string) twoSessions
                     _ eq_refl)
              [sampleSolve 10000 None] (sampleSolve 11000 (Some "+2"%string))
              eq_refl)
    as (st' & H1 & H2 & _).
  exists st'. split; [exact H1|]. unfold currentSolves. now rewrite H2.
Defined.

(** X6: a penalty set on the last solve is undone by setting the former
    penalty again: the whole state is as before. *)
Theorem applyPenaltyToLastSolve_restores
    (p : option string) (st : State) (sess : session) (l : list solve) (x : solve) :
  getCurrentSession st = Some sess -> solves sess = l ++ [x] ->
  exists st1,
    applyPenaltyToLastSolve p st = Some st1 /\
    applyPenaltyToLastSolve (penalty x) st1 = Some st.
Proof.
  intros Hcur Hl.
  destruct (applyPenaltyToLastSolve_last p st sess l x Hcur Hl)
    as (st1 & H1 & Hcur1 & _).
  exists st1. split; [exact H1|].
  unfold applyPenaltyToLastSolve in *. rewrite Hcur in H1. rewrite Hcur1.
  cbn [solves setSolves]. rewrite Hl, !length_app in *. cbn [List.length] in *.
  replace (List.length l + 1 =? 0)%nat with false in *
    by (symmetry; apply Nat.eqb_neq; lia).
  unfold editCurrentSolves in *.
  destruct (updateFirst _ _ (sessions st)) as [l1|] eqn:E; [|discriminate].
  injection H1 as <-. cbn [sessions currentSessionId setSessions].
  rewrite (updateFirst_compose (idIs (currentSessionId st))
             (fun s => setSolves (mapLast (withPenalty p) (solves s)) s)
             (fun s => setSolves (mapLast (withPenalty (penalty x)) (solves s)) s)
             _ _ (fun _ => eq_refl) E).
  rewrite (updateFirst_fixed _ _ _ sess Hcur).
  - f_equal. now destruct st.
  - cbn [solves setSolves]. rewrite Hl, !mapLast_last.
    replace (withPenalty (penalty x) (withPenalty p x)) with x by now destruct x.
    rewrite <- Hl. now destruct sess.
Qed.

Lemma applyPenaltyToLastSolve_restores_witness :
  exists st1,
    applyPenaltyToLastSolve None twoSessions = Some st1 /\
    applyPenaltyToLastSolve (Some "+2"%string) st1 = Some twoSessions.
Proof.
  exact (applyPenaltyToLastSolve_restores None twoSessions _
           [sampleSolve 10000 None] (sampleSolve 11000 (Some "+2"%string))
           eq_refl eq_refl).
Defined.

(** Popping the last solve of the current session right after a push
    gives the session array back. *)
Lemma popLastSolve_after_push (st st2 : State) (x : solve) (sess : session)
    (l' : list session) :
  getCurrentSession st = Some sess ->
  pushToCurrent (currentSessionId st) x (sessions st) = Some l' ->
  sessions st2 = l' -> currentSessionId st2 = currentSessionId st ->
  popLastSolve st2 = Some (setSessions st2 (sessions st) (currentSessionId st)) /\
  getCurrentSession st2 = Some (pushSolve x sess).
Proof.
  intros Hcur Hpush Hs Hc. split.
  - unfold popLastSolve, editCurrentSolves. rewrite Hs, Hc.
    rewrite pushToCurrent_updateFirst in Hpush.
    rewrite (updateFirst_compose (idIs (currentSessionId st)) (pushSolve x)
               (fun s => setSolves (removelast (solves s)) s)
               _ _ (fun _ => eq_refl) Hpush).
    rewrite (updateFirst_fixed _ _ _ sess Hcur); [reflexivity|].
    cbn [solves pushSolve setSolves]. rewrite removelast_last. now destruct sess.
  - destruct (pushToCurrent_found _ x _ _ Hcur) as (l2 & Hl2 & Hf).
    unfold getCurrentSession in *. rewrite Hs, Hc.
    rewrite Hpush in Hl2. now injection Hl2 as ->.
Qed.

(** X7: deleting the last solve undoes a completion: after the skip path
    stored a solve, popping the last solve of the current session (what
    [deleteLastSolve] does at once when deletions are not confirmed, and
    what the confirm dialog runs otherwise) gives the session array of
    before; with confirmation required [deleteLastSolve] itself changes
    nothing. *)
Theorem deleteLastSolve_undoes_completion
    (st : State) (sess : session) (now : Z) (sc1 sc2 : string) :
  truthy (settings st !! "meshBar"%string) = true ->
  getCurrentSession st = Some sess ->
  exists st2 st3,
    skipPath now sc1 sc2 st = Some st2 /\
    popLastSolve st2 = Some st3 /\
    sessions st3 = sessions st /\
    currentSessionId st3 = currentSessionId st /\
    (truthy (settings st !! "confirmDelete"%string) = false ->
     deleteLastSolve st2 = Some st3) /\
    (truthy (settings st !! "confirmDelete"%string) = true ->
     deleteLastSolve st2 = Some st2).
Proof.
  intros Hbar Hcur.
  destruct (pushToCurrent_found (currentSessionId st) (timedSolve now st) _ _ Hcur)
    as (l' & Hpush & _).
  unfold skipPath, stopTimer. rewrite Hbar.
  unfold skipMeshMetrics, completeSolve.
  cbn [currentSolve currentSessionId sessions]. fold (timedSolve now st).
  rewrite Hpush. eexists. eexists. split; [reflexivity|].
  match goal with |- popLastSolve ?s2 = _ /\ _ =>
    destruct (popLastSolve_after_push st s2 (timedSolve now st) sess l'
                Hcur Hpush eq_refl eq_refl) as [Hpop Hcur2]
  end.
  split; [exact Hpop|]. split; [reflexivity|]. split; [reflexivity|].
  unfold deleteLastSolve. rewrite Hcur2. cbn [solves pushSolve settings].
  rewrite length_app. cbn [List.length].
  replace (List.length (solves sess) + 1 =? 0)%nat with false
    by (symmetry; apply Nat.eqb_neq; lia).
  split; intros ->; [exact Hpop|reflexivity].
Qed.

Lemma deleteLastSolve_undoes_completion_witness :
  exists st2 st3,
    skipPath 1700000000000 "R U F" "L D B" timedState = Some st2 /\
    popLastSolve st2 = Some st3 /\ sessions st3 = sessions timedState.
Proof.
  destruct (deleteLastSolve_undoes_completion timedState _ 1700000000000
              "R U F" "L D B" eq_refl eq_refl)
    as (st2 & st3 & H1 & H2 & H3 & _).
  exists st2, st3. repeat split; assumption.
Defined.

(** ** Typed entry *)

Lemma parseInt_cases l :
  parseInt l = NaN \/ exists z, parseInt l = Fin (inject_Z z).
Proof.
  unfold parseInt. destruct (readSign (trimStart l)) as [neg l'].
  destruct (startsWith _ l' || startsWith _ l').
  - change (16 =? 16) with true. cbv iota.
    destruct (takeWhile isHexDigit (skipn 2 l')); [now left|right; eexists; reflexivity].
  - change (10 =? 16) with false. cbv iota.
    destruct (takeWhile isDigit l'); [now left|right; eexists; reflexivity].
Qed.

(** The numeric body of the exact parse never evaluates to [NaN]. *)
Lemma parseBody_notNaN l t : parseBody l = Some t -> isNaN t = false.
Proof.
  unfold parseBody. destruct (includes ":" l).
  - destruct (split ":" l) as [|minutes [|rest parts]]; try discriminate.
    destruct (parseInt_cases minutes) as [->|[z ->]]; [discriminate|].
    destruct (parseFloat rest) as [q| | |]; cbn [isNaN orb]; try discriminate;
      intros [= <-]; reflexivity.
  - destruct (parseFloat l) as [q| | |]; cbn [isNaN]; try discriminate;
      intros [= <-]; reflexivity.
Qed.

(** What the exact [parseTimeInput] accepts carries a finite time. *)
Lemma parseTimeInput_finite (input : string) (r : parsedTime) :
  parseTimeInput input = Some r -> exists t, parsed_time r = Fin t.
Proof.
  destruct (isDnf input) eqn:Ed.
  - unfold parseTimeInput. unfold isDnf, chars_of in Ed. rewrite Ed.
    intros [= <-]. now exists 0%Q.
  - rewrite (parseTimeInput_stages input Ed). unfold checked.
    destruct (parseBody (numericBody input)) as [t|] eqn:Eb; [|discriminate].
    pose proof (parseBody_notNaN _ _ Eb) as Hn.
    destruct t as [q| | |]; try discriminate.
    destruct (_ || _); [discriminate|]. intros [= <-]. now exists q.
Qed.

(** X8: what [parseTimeInput] accepts is the DNF record of time 0, or a
    record with the penalty [null] or ['+2'] whose time is either a finite
    number in (0, 3600000] or [NaN]; [NaN] passes both comparisons of the
    range check, and is what four hundred nines for the minutes and
    [-Infinity] for the seconds give (Infinity plus -Infinity). *)
Theorem parseTimeInput_range :
  (forall (input : string) (r : parsedTime),
     Binary64.parseTimeInput input = Some r ->
     r = {| parsed_time := Fin 0; parsed_penalty := Some "DNF"%string |} \/
     ((exists t, parsed_time r = Fin t /\ (0 < t <= 3600000)%Q) \/
      parsed_time r = NaN) /\
     (parsed_penalty r = None \/ parsed_penalty r = Some "+2"%string)) /\
  Binary64.parseTimeInput overlongMinutes
  = Some {| parsed_time := NaN; parsed_penalty := None |}.
Proof.
  split; [|vm_compute; reflexivity].
  intros input r. unfold Binary64.parseTimeInput.
  destruct (charsEqb _ _); [intros [= <-]; now left|].
  set (body := if _ || _ then _ else _).
  assert (Hp : fst body = None \/ fst body = Some "+2"%string).
  { subst body. destruct (_ || _); auto. }
  destruct body as [p l]. cbn [fst] in Hp.
  destruct (Binary64.parseBody l) as [t|]; [|discriminate].
  destruct t as [q| | |]; cbn [nle ngt nlt negb orb]; try discriminate.
  - destruct (Qle_bool q 0) eqn:E1; [discriminate|].
    destruct (Qle_bool q 3600000) eqn:E2; [|discriminate].
    cbn [negb orb]. intros [= <-]. right.
    apply Qle_bool_false in E1. apply Qle_bool_true in E2.
    cbn [parsed_time parsed_penalty]. split; [|exact Hp].
    left. exists q. split; [reflexivity|lra].
  - intros [= <-]. right. cbn [parsed_time parsed_penalty].
    split; [now right|exact Hp].
Qed.

Lemma parseTimeInput_range_witness :
  exists t, (0 < t <= 3600000)%Q /\
    Binary64.parseTimeInput "59:59.9+"
    = Some {| parsed_time := Fin t; parsed_penalty := Some "+2"%string |}.
Proof.
  destruct (proj1 parseTimeInput_range "59:59.9+"
              {| parsed_time := Fin 3599900; parsed_penalty := Some "+2"%string |}
              eq_refl) as [H|[[(t & Ht & Hr)|Hnan] _]]; [discriminate| |discriminate].
  exists t. split; [exact Hr|]. cbn [parsed_time] in Ht. now rewrite <- Ht.
Defined.

(** ** More on the rolling average *)

(** X10: the average of [n] looks at the last [n] solves only: solves
    before the window do not change it. *)
Theorem calculateAverage_window_only (older window : list solve) (n : Z) :
  0 < n -> Z.of_nat (List.length window) = n ->
  calculateAverage (older ++ window) n = calculateAverage window n.
Proof.
  intros Hn Hw. unfold calculateAverage. rewrite length_app.
  destruct (Z.ltb_spec (Z.of_nat (List.length older + List.length window)) n); [lia|].
  destruct (Z.ltb_spec (Z.of_nat (List.length window)) n); [lia|].
  rewrite !sliceFrom_last by (rewrite ?length_app; lia).
  rewrite length_app.
  replace (List.length older + List.length window - Z.to_nat n)%nat
    with (List.length older) by lia.
  rewrite skipn_app, skipn_all, Nat.sub_diag.
  replace (List.length window - Z.to_nat n)%nat with 0%nat by lia.
  reflexivity.
Qed.

Lemma calculateAverage_window_only_witness :
  calculateAverage (sampleSolve 99000 (Some "DNF"%string) :: fiveWithVoid) 5
  = calculateAverage fiveWithVoid 5.
Proof.
  apply (calculateAverage_window_only [sampleSolve 99000 (Some "DNF"%string)]
           fiveWithVoid 5); [lia|reflexivity].
Defined.

(** ** Timer control *)

Lemma stopTimer_timer_fields now sc st st2 :
  stopTimer now sc st = Some st2 ->
  timerState st2 = "idle"%string /\ intervalId st2 = None /\
  timerValue st2 = timerValue st /\ settings st2 = settings st.
Proof.
  unfold stopTimer, completeSolve.
  destruct (truthy _); cbn [currentSolve currentSessionId sessions].
  - intros [= <-]. now cbn.
  - destruct (pushToCurrent _ _ _); [|discriminate]. intros [= <-]. now cbn.
Qed.

Lemma Timer_stopTimer_fields r rt :
  timerState (appState (Timer.stopTimer r rt)) = "idle"%string /\
  intervalId (appState (Timer.stopTimer r rt)) = None /\
  inspectionIntervalId (Timer.stopTimer r rt) = inspectionIntervalId rt /\
  lastInterval (Timer.stopTimer r rt) = lastInterval rt /\
  inspectionTime (Timer.stopTimer r rt) = inspectionTime rt /\
  intervals (Timer.stopTimer r rt)
  = intervals (clearInterval (intervalId (appState rt)) rt).
Proof.
  unfold Timer.stopTimer.
  destruct (stopTimer _ _ _) as [st2|] eqn:E.
  - apply stopTimer_timer_fields in E as (H1 & H2 & _).
    destruct (intervalId (appState rt)); cbn; rewrite H1, H2; now repeat split.
  - destruct (intervalId (appState rt)); now cbn.
Qed.

Lemma editCurrentSolves_fields f st st2 :
  editCurrentSolves f st = Some st2 ->
  timerState st2 = timerState st /\ intervalId st2 = intervalId st.
Proof.
  unfold editCurrentSolves. destruct (updateFirst _ _ _); [|discriminate].
  intros [= <-]. now cbn.
Qed.

Lemma shortcut_penalty_fields p st st2 :
  applyPenaltyToLastSolve p st = Some st2 ->
  timerState st2 = timerState st /\ intervalId st2 = intervalId st.
Proof.
  unfold applyPenaltyToLastSolve. destruct (getCurrentSession st); [|discriminate].
  destruct (Nat.eqb _ _); [now intros [= <-]|]. apply editCurrentSolves_fields.
Qed.

Lemma shortcut_delete_fields st st2 :
  deleteLastSolve st = Some st2 ->
  timerState st2 = timerState st /\ intervalId st2 = intervalId st.
Proof.
  unfold deleteLastSolve, popLastSolve.
  destruct (getCurrentSession st); [|discriminate].
  destruct (Nat.eqb _ _); [now intros [= <-]|].
  destruct (truthy _); [now intros [= <-]|]. apply editCurrentSolves_fields.
Qed.

(** A change of [State] that leaves the timer fields alone keeps the
    invariant. *)
Lemma timerInv_withApp st rt :
  timerState st = timerState (appState rt) ->
  intervalId st = intervalId (appState rt) ->
  timerInv rt -> timerInv (withApp st rt).
Proof.
  intros Hs Hi. unfold timerInv. cbn [withApp appState lastInterval
    inspectionIntervalId intervals inspectionTime]. now rewrite Hs, Hi.
Qed.

Lemma timerInv_shortcut f rt :
  (forall st2, f (appState rt) = Some st2 ->
     timerState st2 = timerState (appState rt) /\
     intervalId st2 = intervalId (appState rt)) ->
  timerInv rt -> timerInv (Timer.shortcut f rt).
Proof.
  intros Hf Hinv. unfold Timer.shortcut.
  destruct (f (appState rt)) as [st2|] eqn:E; [|exact Hinv].
  destruct (Hf st2 eq_refl). now apply timerInv_withApp.
Qed.

Lemma timerInv_idle rt :
  timerInv rt -> timerState (appState rt) = "idle"%string ->
  0 <= lastInterval rt /\ intervalId (appState rt) = None /\
  inspectionIntervalId rt = None /\ intervals rt = ∅.
Proof.
  intros (Hl & [(_ & H)|[(Hs & _)|(Hs & _)]]) Hidle; [easy| |];
    rewrite Hidle in Hs; discriminate.
Qed.

Lemma timerInv_running rt :
  timerInv rt -> timerState (appState rt) = "running"%string ->
  inspectionIntervalId rt = None /\
  exists i, 0 < i <= lastInterval rt /\ intervalId (appState rt) = Some i /\
            intervals rt = {[ i := timerCallback ]}.
Proof.
  intros (Hl & [(Hs & _)|[(_ & H)|(Hs & _)]]) Hrun; [|easy|];
    rewrite Hrun in Hs; discriminate.
Qed.

Lemma timerInv_inspection rt :
  timerInv rt -> timerState (appState rt) = "inspection"%string ->
  intervalId (appState rt) = None /\ 0 < inspectionTime rt <= 15 /\
  exists i, 0 < i <= lastInterval rt /\ inspectionIntervalId rt = Some i /\
            intervals rt = {[ i := inspectionCallback ]}.
Proof.
  intros (Hl & [(Hs & _)|[(Hs & _)|(_ & H)]]) Hrun; [| |easy];
    rewrite Hrun in Hs; discriminate.
Qed.

Lemma timerInv_states rt :
  timerInv rt ->
  timerState (appState rt) = "idle"%string \/
  timerState (appState rt) = "running"%string \/
  timerState (appState rt) = "inspection"%string.
Proof. intros (_ & [(H & _)|[(H & _)|(H & _)]]); auto. Qed.

Lemma startTimer_idle r rt :
  0 <= lastInterval rt -> inspectionIntervalId rt = None -> intervals rt = ∅ ->
  timerInv (Timer.startTimer r rt).
Proof.
  intros Hl Hn Hm. unfold Timer.startTimer, setInterval, timerInv.
  cbn. split; [lia|]. right. left. split; [reflexivity|].
  split; [exact Hn|]. exists (lastInterval rt + 1). split; [lia|].
  split; [reflexivity|]. rewrite Hm. apply insert_empty.
Qed.

Lemma startInspection_idle rt :
  0 <= lastInterval rt -> intervalId (appState rt) = None -> intervals rt = ∅ ->
  timerInv (Timer.startInspection rt).
Proof.
  intros Hl Hn Hm. unfold Timer.startInspection, setInterval, timerInv.
  cbn. split; [lia|]. right. right. split; [reflexivity|].
  split; [exact Hn|]. split; [lia|]. exists (lastInterval rt + 1).
  split; [lia|]. split; [reflexivity|]. rewrite Hm. apply insert_empty.
Qed.

Lemma handleSet_pos i : 0 < i -> handleSet (Some i) = true.
Proof. intros H. cbn. destruct (Z.eqb_spec i 0); [lia|reflexivity]. Qed.

Lemma stopInspection_clears rt i :
  0 < i -> inspectionIntervalId rt = Some i ->
  intervals rt = {[ i := inspectionCallback ]} ->
  let rt' := Timer.stopInspection rt in
  timerState (appState rt') = "idle"%string /\
  lastInterval rt' = lastInterval rt /\
  intervalId (appState rt') = intervalId (appState rt) /\
  inspectionIntervalId rt' = None /\ intervals rt' = ∅ /\
  spacePressed rt' = spacePressed rt /\
  sessions (appState rt') = sessions (appState rt) /\
  currentSolve (appState rt') = currentSolve (appState rt) /\
  settings (appState rt') = settings (appState rt).
Proof.
  intros Hi Hn Hm.
  unfold Timer.stopInspection. rewrite Hn, handleSet_pos by lia.
  cbn. rewrite Hm. repeat split; try reflexivity. apply delete_singleton_eq.
Qed.

Lemma dispatch_timerInv rt e : timerInv rt -> timerInv (dispatch rt e).
Proof.
  intros Hinv. destruct e as [r ev].
  destruct ev as [kc key field closestInput|kc field|onControl|onControl|id];
    cbn [dispatch].
  - (* keydown *)
    unfold Timer.handleKeyDown.
    destruct field; [exact Hinv|].
    destruct (String.eqb kc "Escape").
    { unfold timerStateIs.
      destruct (String.eqb_spec (timerState (appState rt)) "running") as [Hs|]; [|exact Hinv].
      destruct (timerInv_running rt Hinv Hs) as (Hn & i & Hr & Hi & Hm).
      unfold Timer.cancelSolve. rewrite Hi, handleSet_pos by lia.
      cbn. rewrite Hn. cbn. split; [apply Hinv|]. left.
      repeat split; try reflexivity. rewrite Hm. apply delete_singleton_eq. }
    destruct (String.eqb kc "Space" && negb (typingMode rt)).
    { unfold timerStateIs.
      destruct (negb (spacePressed rt)); [|exact Hinv]. cbn [andb].
      destruct (String.eqb_spec (timerState (appState rt)) "idle") as [Hs|]; [|exact Hinv].
      destruct (timerInv_idle rt Hinv Hs) as (Hl & Hi & Hn & Hm).
      cbn [inspectionToggle withSpacePressed].
      destruct (inspectionToggle rt).
      - now apply startInspection_idle.
      - unfold timerInv. exact Hinv. }
    unfold timerStateIs.
    destruct (String.eqb (timerState (appState rt)) "idle"); [|exact Hinv].
    repeat match goal with
    | |- timerInv (if ?c then _ else _) => destruct c
    end; try exact Hinv.
    + apply timerInv_shortcut; [|exact Hinv]. intros; eapply shortcut_penalty_fields; eauto.
    + apply timerInv_shortcut; [|exact Hinv]. intros; eapply shortcut_penalty_fields; eauto.
    + apply timerInv_shortcut; [|exact Hinv]. intros; eapply shortcut_penalty_fields; eauto.
    + apply timerInv_shortcut; [|exact Hinv]. intros; eapply shortcut_delete_fields; eauto.
  - (* keyup *)
    unfold Timer.handleKeyUp. destruct field; [exact Hinv|].
    destruct (_ && _); [|exact Hinv].
    destruct (spacePressed rt) eqn:Hsp; [|exact Hinv].
    assert (Hinv' : timerInv (withSpacePressed false rt)) by exact Hinv.
    unfold timerStateIs. cbn [appState withSpacePressed].
    destruct (timerInv_states rt Hinv) as [Hs|[Hs|Hs]]; rewrite Hs.
    + change (String.eqb "idle" "idle") with true. cbv iota.
      destruct (timerInv_idle rt Hinv Hs) as (Hl & Hi & Hn & Hm).
      now apply startTimer_idle.
    + change (String.eqb "running" "idle") with false.
      change (String.eqb "running" "running") with true. cbv iota.
      destruct (timerInv_running _ Hinv Hs) as (Hn & i & Hr & Hi & Hm).
      destruct (Timer_stopTimer_fields r (withSpacePressed false rt))
        as (H1 & H2 & H3 & H4 & H5 & H6).
      split; [rewrite H4; apply Hinv|]. left. rewrite H1, H2, H3, H6.
      cbn [appState withSpacePressed inspectionIntervalId]. rewrite Hi.
      cbn [clearInterval intervals withSpacePressed]. rewrite Hm.
      repeat split; try assumption. apply delete_singleton_eq.
    + change (String.eqb "inspection" "idle") with false.
      change (String.eqb "inspection" "running") with false.
      change (String.eqb "inspection" "inspection") with true. cbv iota.
      destruct (timerInv_inspection rt Hinv Hs) as (Hi & Ht & i & Hr & Hn & Hm).
      destruct (stopInspection_clears (withSpacePressed false rt) i)
        as (H1 & H2 & H3 & H4 & H5 & _); [lia|assumption|assumption|].
      apply startTimer_idle; [rewrite H2; apply Hinv|assumption|assumption].
  - (* touchstart *)
    unfold Timer.touchstart. destruct (typingMode rt); [exact Hinv|].
    destruct onControl; [exact Hinv|]. unfold timerStateIs.
    destruct (String.eqb_spec (timerState (appState rt)) "idle") as [Hs|]; [|exact Hinv].
    destruct (timerInv_idle rt Hinv Hs) as (Hl & Hi & Hn & Hm).
    destruct (inspectionToggle rt); [now apply startInspection_idle|exact Hinv].
  - (* touchend *)
    unfold Timer.touchend. destruct (typingMode rt); [exact Hinv|].
    destruct onControl; [exact Hinv|]. unfold timerStateIs.
    destruct (timerInv_states rt Hinv) as [Hs|[Hs|Hs]]; rewrite Hs.
    + change (String.eqb "idle" "idle") with true.
      change (String.eqb "idle" "running") with false.
      change (String.eqb "idle" "inspection") with false.
      destruct (timerInv_idle rt Hinv Hs) as (Hl & Hi & Hn & Hm).
      destruct (spacePressed rt); cbn [andb]; [|exact Hinv].
      now apply startTimer_idle.
    + change (String.eqb "running" "idle") with false.
      change (String.eqb "running" "running") with true. cbn [andb].
      destruct (timerInv_running _ Hinv Hs) as (Hn & i & Hr & Hi & Hm).
      destruct (Timer_stopTimer_fields r rt) as (H1 & H2 & H3 & H4 & H5 & H6).
      split; [rewrite H4; apply Hinv|]. left. rewrite H1, H2, H3, H6.
      repeat split; try assumption. rewrite Hi. cbn. rewrite Hm.
      apply delete_singleton_eq.
    + change (String.eqb "inspection" "idle") with false.
      change (String.eqb "inspection" "running") with false.
      change (String.eqb "inspection" "inspection") with true. cbn [andb].
      destruct (timerInv_inspection rt Hinv Hs) as (Hi & Ht & i & Hr & Hn & Hm).
      destruct (stopInspection_clears rt i)
        as (H1 & H2 & H3 & H4 & H5 & _); [lia|assumption|assumption|].
      apply startTimer_idle; [rewrite H2; apply Hinv|assumption|assumption].
  - (* an interval fires *)
    destruct (intervals rt !! id) as [[|]|] eqn:Hid; [| |exact Hinv].
    + unfold Timer.timerTick. now apply timerInv_withApp.
    + destruct (timerInv_states rt Hinv) as [Hs|[Hs|Hs]].
      * destruct (timerInv_idle rt Hinv Hs) as (_ & _ & _ & Hm).
        rewrite Hm in Hid. discriminate.
      * destruct (timerInv_running rt Hinv Hs) as (_ & i & _ & _ & Hm).
        rewrite Hm in Hid. apply lookup_singleton_Some in Hid as [_ [=]].
      * destruct (timerInv_inspection rt Hinv Hs) as (Hi & Ht & i & Hr & Hn & Hm).
        unfold Timer.inspectionTick. cbn [inspectionTime withInspectionTime].
        destruct (Z.leb_spec (inspectionTime rt - 1) 0).
        -- destruct (stopInspection_clears
                       (withInspectionTime (inspectionTime rt - 1) rt) i)
             as (H1 & H2 & H3 & H4 & H5 & _); [lia|assumption|assumption|].
           apply startTimer_idle; [rewrite H2; apply Hinv|assumption|assumption].
        -- split; [apply Hinv|]. right. right. cbn.
           repeat split; try assumption; try lia. now exists i.
Qed.

Lemma run_app evs1 evs2 rt : run (evs1 ++ evs2) rt = run evs2 (run evs1 rt).
Proof. apply fold_left_app. Qed.

Lemma run_keeps_timerInv (evs : list (reading * event)) (rt : Runtime) :
  timerInv rt -> timerInv (run evs rt).
Proof.
  revert rt. induction evs as [|e evs IH]; intros rt Hinv; [exact Hinv|].
  apply IH. now apply dispatch_timerInv.
Qed.

(** X13: over any sequence of key events, touch events and interval
    firings the intervals of the page stay those [State] remembers: none
    while idle, only the timer's while running, only the countdown's during
    inspection; no interval is left running without its handle. *)
Theorem run_timerInv (evs : list (reading * event)) (rt : Runtime) :
  timerInv rt -> timerInv (run evs rt).
Proof.
  intros Hinv. unfold run. revert rt Hinv.
  induction evs as [|e evs IH]; intros rt Hinv; cbn [fold_left].
  - exact Hinv.
  - apply IH, dispatch_timerInv, Hinv.
Qed.

Lemma timerInv_loaded st inspection :
  timerState st = "idle"%string -> intervalId st = None ->
  timerInv (loaded st inspection).
Proof.
  intros Hs Hi. split; [cbn; lia|]. left. now repeat split.
Qed.

(** While a run is on and Space is not held, a key event other than Escape
    or the firing of an interval changes the timer value at most. *)
Lemma running_unpressed_step rt e :
  timerInv rt -> timerState (appState rt) = "running"%string ->
  spacePressed rt = false -> keyOrTick e = true ->
  timerState (appState (dispatch rt e)) = "running"%string /\
  spacePressed (dispatch rt e) = false /\
  sessions (appState (dispatch rt e)) = sessions (appState rt) /\
  currentSolve (appState (dispatch rt e)) = currentSolve (appState rt).
Proof.
  intros Hinv Hs Hsp He. destruct e as [r ev].
  destruct ev as [kc key field closestInput|kc field|onControl|onControl|id];
    cbn in He; try discriminate; cbn [dispatch].
  - unfold Timer.handleKeyDown, timerStateIs. rewrite Hs, Hsp.
    destruct field; [easy|]. destruct (String.eqb kc "Escape"); [discriminate|].
    change (String.eqb "running" "idle") with false. rewrite andb_false_r.
    now destruct (_ && _).
  - unfold Timer.handleKeyUp. rewrite Hsp. destruct field; [easy|].
    now destruct (_ && _).
  - destruct (timerInv_running rt Hinv Hs) as (_ & i & _ & _ & Hm).
    rewrite Hm. destruct (decide (i = id)) as [->|Hne].
    + rewrite lookup_singleton_eq. now cbn.
    + now rewrite lookup_singleton_ne.
Qed.

Lemma running_unpressed_run evs rt :
  timerInv rt -> timerState (appState rt) = "running"%string ->
  spacePressed rt = false -> List.Forall (fun e => keyOrTick e = true) evs ->
  timerState (appState (run evs rt)) = "running"%string /\
  sessions (appState (run evs rt)) = sessions (appState rt) /\
  currentSolve (appState (run evs rt)) = currentSolve (appState rt).
Proof.
  intros Hinv Hs Hsp Hevs. revert rt Hinv Hs Hsp.
  induction Hevs as [|e evs He Hevs IH]; intros rt Hinv Hs Hsp; [easy|].
  destruct (running_unpressed_step rt e Hinv Hs Hsp He) as (H1 & H2 & H3 & H4).
  cbn [run fold_left].
  destruct (IH (dispatch rt e) (dispatch_timerInv rt e Hinv) H1 H2)
    as (H5 & H6 & H7).
  unfold run in *. rewrite H5, H6, H7. easy.
Qed.

(** What [startTimer] writes. *)
Lemma startTimer_fields r rt :
  let rt' := Timer.startTimer r rt in
  timerState (appState rt') = "running"%string /\
  timerValue (appState rt') = 0%Q /\
  startTime rt' = performanceNow r /\
  intervalId (appState rt') = Some (lastInterval rt + 1) /\
  intervals rt' = <[lastInterval rt + 1 := timerCallback]> (intervals rt) /\
  spacePressed rt' = spacePressed rt /\
  sessions (appState rt') = sessions (appState rt) /\
  currentSolve (appState rt') = currentSolve (appState rt) /\
  settings (appState rt') = settings (appState rt) /\
  currentSessionId (appState rt') = currentSessionId (appState rt) /\
  currentScramble (appState rt') = currentScramble (appState rt).
Proof. cbn. now repeat split. Qed.

Lemma handleKeyDown_space r key ci rt :
  typingMode rt = false -> spacePressed rt = false ->
  timerState (appState rt) = "idle"%string ->
  Timer.handleKeyDown r "Space" key false ci rt
  = if inspectionToggle rt then Timer.startInspection (withSpacePressed true rt)
    else withSpacePressed true rt.
Proof.
  intros Hty Hsp Hs. unfold Timer.handleKeyDown, timerStateIs.
  rewrite Hty, Hsp, Hs. reflexivity.
Qed.

Lemma handleKeyUp_space r rt :
  typingMode rt = false -> spacePressed rt = true ->
  Timer.handleKeyUp r "Space" false rt
  = if timerStateIs "idle" rt then Timer.startTimer r (withSpacePressed false rt)
    else if timerStateIs "running" rt
         then Timer.stopTimer r (withSpacePressed false rt)
    else if timerStateIs "inspection" rt
         then Timer.startTimer r (Timer.stopInspection (withSpacePressed false rt))
    else withSpacePressed false rt.
Proof.
  intros Hty Hsp. unfold Timer.handleKeyUp. rewrite Hty, Hsp. reflexivity.
Qed.

(** What [startInspection] writes. *)
Lemma startInspection_fields rt :
  let rt' := Timer.startInspection rt in
  timerState (appState rt') = "inspection"%string /\
  inspectionTime rt' = 15 /\
  inspectionIntervalId rt' = Some (lastInterval rt + 1) /\
  intervals rt' = <[lastInterval rt + 1 := inspectionCallback]> (intervals rt) /\
  lastInterval rt' = lastInterval rt + 1 /\
  spacePressed rt' = spacePressed rt /\
  intervalId (appState rt') = intervalId (appState rt) /\
  sessions (appState rt') = sessions (appState rt) /\
  currentSolve (appState rt') = currentSolve (appState rt) /\
  settings (appState rt') = settings (appState rt).
Proof. cbn. now repeat split. Qed.

(** X14: a run started by pressing and releasing Space cannot be ended
    from the keyboard except by Escape: whatever key events other than
    Escape and whatever interval firings follow, the timer is still running
    and no solve has been stored or made pending. *)
Theorem space_cannot_stop
    (rt : Runtime) (r1 r2 : reading) (key : string) (closestInput : bool)
    (evs : list (reading * event)) :
  timerInv rt -> timerState (appState rt) = "idle"%string ->
  spacePressed rt = false -> typingMode rt = false ->
  List.Forall (fun e => keyOrTick e = true) evs ->
  let started :=
    run [(r1, keydown "Space" key false closestInput);
         (r2, keyup "Space" false)] rt in
  timerState (appState started) = "running"%string /\
  timerState (appState (run evs started)) = "running"%string /\
  sessions (appState (run evs started)) = sessions (appState rt) /\
  currentSolve (appState (run evs started)) = currentSolve (appState rt).
Proof.
  intros Hinv Hs Hsp Hty Hevs started.
  assert (Hstarted : timerInv started) by now apply run_keeps_timerInv.
  assert (H : timerState (appState started) = "running"%string /\
              spacePressed started = false /\
              sessions (appState started) = sessions (appState rt) /\
              currentSolve (appState started) = currentSolve (appState rt)).
  { clear Hstarted. subst started. cbn [run fold_left dispatch].
    destruct (timerInv_idle rt Hinv Hs) as (Hl & Hi & Hn & Hm).
    rewrite handleKeyDown_space by assumption.
    destruct (inspectionToggle rt).
    - destruct (startInspection_fields (withSpacePressed true rt))
        as (F1 & F2 & F3 & F4 & F5 & F6 & F7 & F8 & F9 & F10).
      rewrite handleKeyUp_space;
        [|unfold typingMode; rewrite F10; exact Hty|rewrite F6; reflexivity].
      unfold timerStateIs. rewrite F1.
      change (String.eqb "inspection" "idle") with false.
      change (String.eqb "inspection" "running") with false.
      change (String.eqb "inspection" "inspection") with true. cbv iota.
      set (rt1 := withSpacePressed false _).
      destruct (stopInspection_clears rt1 (lastInterval rt + 1))
        as (G1 & G2 & G3 & G4 & G5 & G6 & G7 & G8 & G9);
        [lia|exact F3|subst rt1; cbn [intervals withSpacePressed];
                     rewrite F4; cbn [intervals withSpacePressed];
                     rewrite Hm; apply insert_empty|].
      destruct (startTimer_fields r2 (Timer.stopInspection rt1))
        as (S1 & _ & _ & _ & _ & S6 & S7 & S8 & _).
      rewrite S1, S6, S7, S8, G6, G7, G8. subst rt1.
      cbn [spacePressed appState withSpacePressed]. rewrite F8, F9. easy.
    - rewrite handleKeyUp_space; [|exact Hty|reflexivity].
      unfold timerStateIs. cbn [appState withSpacePressed]. rewrite Hs.
      change (String.eqb "idle" "idle") with true. cbv iota.
      destruct (startTimer_fields r2
                  (withSpacePressed false (withSpacePressed true rt)))
        as (S1 & _ & _ & _ & _ & S6 & S7 & S8 & _).
      rewrite S1, S6, S7, S8. easy. }
  destruct H as (H1 & H2 & H3 & H4). split; [exact H1|].
  destruct (running_unpressed_run evs started Hstarted H1 H2 Hevs)
    as (H5 & H6 & H7).
  rewrite H5, H6, H7. easy.
Qed.

Lemma space_cannot_stop_witness :
  let rt := loaded twoSessions false in
  let started :=
    run [({| dateNow := 1; performanceNow := 100; scrambleDrawn := "R" |},
          keydown "Space" " " false false);
         ({| dateNow := 2; performanceNow := 200; scrambleDrawn := "R" |},
          keyup "Space" false)] rt in
  timerState (appState started) = "running"%string /\
  timerState
    (appState
       (run [({| dateNow := 3; performanceNow := 300; scrambleDrawn := "R" |},
              keydown "Space" " " false false);
             ({| dateNow := 4; performanceNow := 400; scrambleDrawn := "R" |},
              keyup "Space" false)] started)) = "running"%string.
Proof.
  intros rt started.
  destruct (space_cannot_stop rt
              {| dateNow := 1; performanceNow := 100; scrambleDrawn := "R" |}
              {| dateNow := 2; performanceNow := 200; scrambleDrawn := "R" |}
              " " false
              [({| dateNow := 3; performanceNow := 300; scrambleDrawn := "R" |},
                keydown "Space" " " false false);
               ({| dateNow := 4; performanceNow := 400; scrambleDrawn := "R" |},
                keyup "Space" false)])
    as (H1 & H2 & _).
  - now apply timerInv_loaded.
  - reflexivity.
  - reflexivity.
  - reflexivity.
  - repeat constructor.
  - split; [exact H1|exact H2].
Defined.

Lemma run_timerInv_witness :
  timerInv
    (run [({| dateNow := 1; performanceNow := 100; scrambleDrawn := "R" |},
           touchstartOn false);
          ({| dateNow := 2; performanceNow := 1100; scrambleDrawn := "R" |},
           fires 1);
          ({| dateNow := 3; performanceNow := 1200; scrambleDrawn := "R" |},
           touchendOn false);
          ({| dateNow := 4; performanceNow := 1210; scrambleDrawn := "R" |},
           fires 2);
          ({| dateNow := 5; performanceNow := 1215; scrambleDrawn := "R" |},
           keydown "Escape" "Escape" false false)]
       (loaded twoSessions true)).
Proof. apply run_timerInv. now apply timerInv_loaded. Defined.

(** ** Inspection *)

Lemma withInspectionTime_twice a b rt :
  withInspectionTime a (withInspectionTime b rt) = withInspectionTime a rt.
Proof. reflexivity. Qed.

(** Firings of the countdown that leave time on the clock only count. *)
Lemma inspection_firings id rs rt :
  intervals rt !! id = Some inspectionCallback ->
  Z.of_nat (List.length rs) < inspectionTime rt ->
  run (firings id rs) rt
  = match rs with
    | [] => rt
    | _ => withInspectionTime (inspectionTime rt - Z.of_nat (List.length rs)) rt
    end.
Proof.
  revert rt. induction rs as [|r rs IH]; intros rt Hid Hlen; [reflexivity|].
  cbn [firings map run fold_left dispatch]. rewrite Hid.
  unfold Timer.inspectionTick. cbn [inspectionTime withInspectionTime].
  cbn [List.length] in Hlen.
  destruct (Z.leb_spec (inspectionTime rt - 1) 0) as [H|H]; [lia|].
  fold (firings id rs). fold (run (firings id rs)).
  fold (run (firings id rs) (withInspectionTime (inspectionTime rt - 1) rt)).
  rewrite IH; [|exact Hid|cbn; lia].
  destruct rs as [|r' rs]; cbn [List.length].
  - f_equal; lia.
  - rewrite withInspectionTime_twice. f_equal;
      cbn [inspectionTime withInspectionTime]; lia.
Qed.

(** X15: with inspection enabled a touch on the idle timer starts a
    countdown from 15; each firing of its interval takes one second off,
    and the fifteenth firing ends the inspection and starts the timer at
    zero with the timer's interval as the only one active. *)
Theorem inspection_counts_down
    (rt : Runtime) (r0 r : reading) (rs : list reading) :
  timerInv rt -> timerState (appState rt) = "idle"%string ->
  typingMode rt = false -> inspectionToggle rt = true ->
  (List.length rs < 15)%nat ->
  let id := lastInterval rt + 1 in
  let counting := run ((r0, touchstartOn false) :: firings id rs) rt in
  timerState (appState counting) = "inspection"%string /\
  inspectionTime counting = 15 - Z.of_nat (List.length rs) /\
  (List.length rs = 14%nat ->
   let started := dispatch counting (r, fires id) in
   timerState (appState started) = "running"%string /\
   timerValue (appState started) = 0%Q /\
   startTime started = performanceNow r /\
   inspectionIntervalId started = None /\
   intervals started = {[ id + 1 := timerCallback ]}).
Proof.
  intros Hinv Hs Hty Htog Hlen id counting.
  destruct (timerInv_idle rt Hinv Hs) as (Hl & Hi & Hn & Hm).
  assert (Hstart : dispatch rt (r0, touchstartOn false) = Timer.startInspection rt).
  { cbn [dispatch]. unfold Timer.touchstart, timerStateIs.
    rewrite Hty, Hs, Htog. reflexivity. }
  destruct (startInspection_fields rt)
    as (F1 & F2 & F3 & F4 & F5 & F6 & F7 & F8 & F9 & F10).
  assert (Hid : intervals (Timer.startInspection rt) !! id
                = Some inspectionCallback).
  { rewrite F4. apply lookup_insert_eq. }
  assert (Hcount : counting
          = withInspectionTime (15 - Z.of_nat (List.length rs))
              (Timer.startInspection rt)).
  { subst counting. cbn [run fold_left]. rewrite Hstart.
    fold (run (firings id rs) (Timer.startInspection rt)).
    rewrite inspection_firings; [|exact Hid|rewrite F2; lia].
    rewrite F2. destruct rs; [|reflexivity].
    cbn [List.length]. now destruct rt. }
  rewrite Hcount. cbn [appState inspectionTime withInspectionTime].
  split; [exact F1|]. split; [reflexivity|]. intros H14. cbv zeta.
  cbn [dispatch intervals withInspectionTime]. rewrite Hid.
  unfold Timer.inspectionTick. cbn [inspectionTime withInspectionTime].
  rewrite H14. change (15 - Z.of_nat 14 - 1 <=? 0) with true. cbv iota.
  set (rt1 := withInspectionTime _ _).
  destruct (stopInspection_clears rt1 id)
    as (G1 & G2 & G3 & G4 & G5 & _);
    [subst id; lia|exact F3|
     subst rt1; cbn [intervals withInspectionTime]; rewrite F4, Hm;
     apply insert_empty|].
  destruct (startTimer_fields r (Timer.stopInspection rt1))
    as (S1 & S2 & S3 & S4 & S5 & _).
  rewrite S1, S2, S3, S5, G5, G2. split; [reflexivity|].
  split; [reflexivity|]. split; [reflexivity|].
  split; [|subst rt1; cbn [lastInterval withInspectionTime]; rewrite F5;
           apply insert_empty].
  unfold Timer.startTimer, setInterval.
  cbn [inspectionIntervalId withApp withStartTime]. exact G4.
Qed.

Lemma inspection_counts_down_witness :
  let r := {| dateNow := 1; performanceNow := 100; scrambleDrawn := "R" |} in
  let counting :=
    run ((r, touchstartOn false) :: firings 1 (repeat r 14))
      (loaded twoSessions true) in
  inspectionTime counting = 1 /\
  timerState (appState (dispatch counting (r, fires 1))) = "running"%string.
Proof.
  intros r counting.
  destruct (inspection_counts_down (loaded twoSessions true) r r (repeat r 14))
    as (_ & H2 & H3).
  - now apply timerInv_loaded.
  - reflexivity.
  - reflexivity.
  - reflexivity.
  - cbn. lia.
  - split; [exact H2|]. now destruct (H3 eq_refl).
Defined.

(** ** A timed run *)

Lemma timerTick_twice r r' rt :
  Timer.timerTick r (Timer.timerTick r' rt) = Timer.timerTick r rt.
Proof. reflexivity. Qed.

(** Firings of the timer's interval: the last one decides the value. *)
Lemma timer_firings id rs rt :
  intervals rt !! id = Some timerCallback ->
  run (firings id rs) rt
  = match last rs with
    | Some r => Timer.timerTick r rt
    | None => rt
    end.
Proof.
  revert rt. induction rs as [|r rs IH]; intros rt Hid; [reflexivity|].
  cbn [firings map run fold_left dispatch]. rewrite Hid.
  fold (firings id rs). fold (run (firings id rs) (Timer.timerTick r rt)).
  rewrite IH by exact Hid.
  destruct rs as [|r' rs]; [reflexivity|].
  change (last (r :: r' :: rs)) with (last (r' :: rs)).
  destruct (last (r' :: rs)) eqn:E; [apply timerTick_twice|].
  apply last_None in E. discriminate.
Qed.

(** X16: a run by touch with the mesh bar disabled stores one solve in
    the current session.  Its duration is the reading of the last firing of
    the timer's interval minus the reading at the start, or zero when the
    interval never fired; the reading at the stop is not used. *)
Theorem touch_run_records
    (rt : Runtime) (sess : session) (r0 r1 r2 : reading) (ticks : list reading) :
  timerInv rt -> timerState (appState rt) = "idle"%string ->
  typingMode rt = false -> inspectionToggle rt = false ->
  truthy (settings (appState rt) !! "meshBar"%string) = false ->
  getCurrentSession (appState rt) = Some sess ->
  let id := lastInterval rt + 1 in
  let final :=
    run ([(r0, touchstartOn false); (r1, touchendOn false)]
         ++ firings id ticks ++ [(r2, touchendOn false)]) rt in
  timerState (appState final) = "idle"%string /\
  intervals final = ∅ /\
  currentSolve (appState final) = None /\
  currentScramble (appState final) = scrambleDrawn r2 /\
  currentSolves (appState final)
  = Some (solves sess ++
          [{| solve_id := toString (dateNow r2);
              time := match last ticks with
                      | Some r => Qred (performanceNow r - performanceNow r1)
                      | None => 0
                      end;
              scramble := currentScramble (appState rt);
              timestamp := dateNow r2;
              splits := None; metrics := ∅; penalty := None |}]).
Proof.
  intros Hinv Hs Hty Htog Hbar Hcur id final.
  destruct (timerInv_idle rt Hinv Hs) as (Hl & Hi & Hn & Hm).
  subst final. rewrite !run_app. cbn [run fold_left dispatch].
  assert (H0 : Timer.touchstart false rt = withSpacePressed true rt).
  { unfold Timer.touchstart, timerStateIs. now rewrite Hty, Hs, Htog. }
  rewrite H0.
  assert (H1 : Timer.touchend r1 false (withSpacePressed true rt)
               = Timer.startTimer r1 (withSpacePressed false rt)).
  { unfold Timer.touchend, timerStateIs.
    change (typingMode (withSpacePressed true rt)) with (typingMode rt).
    rewrite Hty. cbn [appState withSpacePressed spacePressed]. now rewrite Hs. }
  rewrite H1. set (started := Timer.startTimer r1 _).
  destruct (startTimer_fields r1 (withSpacePressed false rt))
    as (S1 & S2 & S3 & S4 & S5 & S6 & S7 & S8 & S9 & S10 & S11).
  fold started in S1, S2, S3, S4, S5, S6, S7, S8, S9, S10, S11.
  cbn [withSpacePressed lastInterval intervals appState] in S4, S5, S7, S8, S9, S10, S11.
  rewrite Hm, insert_empty in S5.
  fold (run (firings id ticks) started).
  rewrite timer_firings by (rewrite S5; apply lookup_singleton_eq).
  set (ticked := match last ticks with Some r => Timer.timerTick r started
                                     | None => started end).
  assert (T : timerState (appState ticked) = "running"%string /\
              typingMode ticked = false /\
              intervalId (appState ticked) = Some id /\
              intervals ticked = {[ id := timerCallback ]} /\
              settings (appState ticked) = settings (appState rt) /\
              sessions (appState ticked) = sessions (appState rt) /\
              currentSessionId (appState ticked) = currentSessionId (appState rt) /\
              currentScramble (appState ticked) = currentScramble (appState rt) /\
              timerValue (appState ticked)
              = match last ticks with
                | Some r => Qred (performanceNow r - performanceNow r1)
                | None => 0%Q
                end).
  { subst ticked. unfold typingMode.
    destruct (last ticks); cbn [Timer.timerTick appState withApp setTimerValue
      timerState intervalId intervals settings sessions currentSessionId
      currentScramble timerValue];
      rewrite ?S1, ?S2, ?S3, ?S4, ?S5, ?S7, ?S9, ?S10, ?S11; easy. }
  destruct T as (T1 & T2 & T3 & T4 & T5 & T6 & T7 & T8 & T9).
  assert (H2 : Timer.touchend r2 false ticked = Timer.stopTimer r2 ticked).
  { unfold Timer.touchend, timerStateIs. now rewrite T2, T1. }
  rewrite H2. unfold Timer.stopTimer, stopTimer, completeSolve.
  rewrite T5, Hbar, T3. cbn [currentSolve currentSessionId sessions].
  rewrite T6, T7, T8, T9.
  match goal with
  | |- context [pushToCurrent _ ?x _] =>
      destruct (pushToCurrent_found (currentSessionId (appState rt)) x _ _ Hcur)
        as (l' & Hpush & Hfind); rewrite Hpush
  end.
  cbn [appState withApp clearInterval intervals timerState currentSolve
       currentScramble]. rewrite T4.
  split; [reflexivity|]. split; [apply delete_singleton_eq|].
  split; [reflexivity|]. split; [reflexivity|].
  unfold currentSolves, getCurrentSession. cbn [sessions currentSessionId].
  rewrite Hfind. reflexivity.
Qed.

Lemma touch_run_records_witness :
  let r t := {| dateNow := 1700000000000 + t; performanceNow := inject_Z t;
               scrambleDrawn := "L D B" |} in
  currentSolves
    (appState
       (run ([(r 0, touchstartOn false); (r 500, touchendOn false)]
             ++ firings 1 [r 510; r 520; r 12340] ++ [(r 12345, touchendOn false)])
          (loaded (setSetting "meshBar" (VBool false) twoSessions) false)))
  = Some [sampleSolve 10000 None; sampleSolve 11000 (Some "+2"%string);
          {| solve_id := "1700000012345"; time := 11840;
             scramble := "R U F"; timestamp := 1700000012345;
             splits := None; metrics := ∅; penalty := None |}].
Proof.
  intros r.
  destruct (touch_run_records
              (loaded (setSetting "meshBar" (VBool false) twoSessions) false)
              {| session_id := "2"; type := "cross"; name := "Cross 2";
                 solves := [sampleSolve 10000 None;
                            sampleSolve 11000 (Some "+2"%string)];
                 createdAt := 2 |}
              (r 0) (r 500) (r 12345) [r 510; r 520; r 12340])
    as (_ & _ & _ & _ & H).
  - now apply timerInv_loaded.
  - reflexivity.
  - reflexivity.
  - reflexivity.
  - reflexivity.
  - reflexivity.
  - exact H.
Defined.

(** ** Scramble generation *)

Lemma pick_unitDraw (l : list string) (q : Q) :
  l <> [] -> unitDraw q -> exists s, pick l q = Some s /\ In s l.
Proof.
  intros Hl [H0 H1]. unfold pick.
  set (n := Z.of_nat (List.length l)).
  assert (Hn : 0 < n) by (subst n; destruct l; [easy|cbn; lia]).
  assert (Hlo : 0 <= Qfloor (q * inject_Z n)).
  { change 0 with (Qfloor 0). apply Qfloor_resp_le.
    apply Qmult_le_0_compat; [exact H0|]. change 0%Q with (inject_Z 0).
    rewrite <- Zle_Qle. lia. }
  assert (Hhi : Qfloor (q * inject_Z n) < n).
  { rewrite Zlt_Qlt. eapply Qle_lt_trans; [apply Qfloor_le|].
    assert (0 < inject_Z n)%Q
      by (change 0%Q with (inject_Z 0); rewrite <- Zlt_Qlt; lia).
    nra. }
  destruct (Z.ltb_spec (Qfloor (q * inject_Z n)) 0) as [|_]; [lia|].
  destruct (nth_error l (Z.to_nat (Qfloor (q * inject_Z n)))) as [s|] eqn:E.
  - exists s. split; [reflexivity|]. eapply nth_error_In, E.
  - apply nth_error_None in E. subst n. lia.
Qed.

Lemma drawMove_accepts lastMove lastAxis draws move rest :
  drawMove lastMove lastAxis draws = Some (move, rest) ->
  List.Forall unitDraw draws ->
  (exists face, move = Some face /\ In face moves) /\
  getAxis move <> lastAxis /\ List.Forall unitDraw rest.
Proof.
  induction draws as [|q draws IH]; [discriminate|].
  cbn [drawMove]. intros H Hall.
  apply List.Forall_cons_iff in Hall as [Hq Hall].
  destruct (pick_unitDraw moves q) as (face & Hpick & Hin);
    [discriminate|exact Hq|].
  rewrite Hpick in H.
  destruct (sameValue (Some face) lastMove
            || String.eqb (getAxis (Some face)) lastAxis) eqn:E.
  - now apply IH.
  - injection H as <- <-. apply orb_false_elim in E as [_ E].
    apply String.eqb_neq in E. split; [now exists face|]. now split.
Qed.

Lemma scrambleLoop_wellformed n :
  forall lastMove lastAxis draws tokens rest,
    scrambleLoop n lastMove lastAxis draws = Some (tokens, rest) ->
    List.Forall unitDraw draws ->
    exists faces mods,
      tokens = tokensOf faces mods /\
      List.length faces = n /\ List.length mods = n /\
      List.Forall (fun f => In f moves) faces /\
      List.Forall (fun m => In m modifiers) mods /\
      axesAlternate faces /\
      match faces with
      | f :: _ => getAxis (Some f) <> lastAxis
      | [] => True
      end.
Proof.
  induction n as [|n IH]; intros lastMove lastAxis draws tokens rest H Hall.
  - injection H as <- <-. exists [], []. now repeat split.
  - cbn [scrambleLoop] in H.
    destruct (drawMove lastMove lastAxis draws) as [[move [|q rest']]|] eqn:E;
      try discriminate.
    destruct (drawMove_accepts _ _ _ _ _ E Hall)
      as ((face & -> & Hface) & Hax & Hrest).
    apply List.Forall_cons_iff in Hrest as [Hq Hrest].
    destruct (pick_unitDraw modifiers q) as (m & Hm & Hmin);
      [discriminate|exact Hq|].
    rewrite Hm in H.
    destruct (scrambleLoop n (Some face) (getAxis (Some face)) rest')
      as [[tokens' rest'']|] eqn:E'; [|discriminate].
    injection H as <- <-.
    destruct (IH _ _ _ _ _ E' Hrest)
      as (faces & mods & -> & Hlf & Hlm & Hf & Hmods & Halt & Hhead).
    exists (face :: faces), (m :: mods).
    split; [reflexivity|]. split; [cbn; now rewrite Hlf|].
    split; [cbn; now rewrite Hlm|]. split; [now constructor|].
    split; [now constructor|]. split; [|exact Hax].
    destruct faces as [|f faces]; [exact I|].
    split; [|exact Halt]. intros Heq. apply Hhead. now rewrite Heq.
Qed.

Lemma alternating_unitDraw zero k : List.Forall unitDraw (alternating zero k).
Proof.
  revert zero. induction k as [|k IH]; intros zero; [constructor|].
  cbn [alternating]. constructor; [|apply IH].
  destruct zero; split; lra.
Qed.

(** On draws followed by alternating ones a face is accepted after two of
    the alternating draws at most. *)
Lemma drawMove_progress lastMove draws :
  forall zero k, (2 <= k)%nat ->
  exists move draws' zero' k',
    drawMove lastMove (getAxis lastMove) (draws ++ alternating zero k)
    = Some (move, draws' ++ alternating zero' k') /\
    (k - 2 <= k')%nat /\
    (List.Forall unitDraw draws -> List.Forall unitDraw draws').
Proof.
  induction draws as [|q draws IH]; intros zero k Hk.
  - destruct k as [|[|k]]; try lia. cbn [app alternating drawMove].
    assert (Hcases :
      forall m, sameValue (Some m) lastMove = true ->
                String.eqb (getAxis (Some m)) (getAxis lastMove) = true).
    { intros m Hm. destruct lastMove as [l|]; [|discriminate].
      cbn [sameValue] in Hm. apply String.eqb_eq in Hm as ->.
      apply String.eqb_refl. }
    assert (HR : pick moves 0 = Some "R"%string) by reflexivity.
    assert (HU : pick moves (1 # 3) = Some "U"%string) by reflexivity.
    destruct zero; cbn [negb]; rewrite ?HR, ?HU.
    + destruct (sameValue (Some "R"%string) lastMove
                || String.eqb (getAxis (Some "R"%string)) (getAxis lastMove))
        eqn:E.
      * assert (Hax : String.eqb (getAxis (Some "R"%string)) (getAxis lastMove)
                      = true).
        { apply orb_true_iff in E as [E|E]; [now apply Hcases|exact E]. }
        apply String.eqb_eq in Hax.
        assert (E2 : sameValue (Some "U"%string) lastMove
                     || String.eqb (getAxis (Some "U"%string)) (getAxis lastMove)
                     = false).
        { apply orb_false_intro.
          - destruct (sameValue (Some "U"%string) lastMove) eqn:E3; [|reflexivity].
            apply Hcases in E3. apply String.eqb_eq in E3.
            rewrite <- Hax in E3. discriminate.
          - rewrite <- Hax. reflexivity. }
        rewrite E2. exists (Some "U"%string), [], true, k.
        split; [reflexivity|]. split; [lia|]. constructor.
      * exists (Some "R"%string), [], false, (S k).
        split; [reflexivity|]. split; [lia|]. constructor.
    + destruct (sameValue (Some "U"%string) lastMove
                || String.eqb (getAxis (Some "U"%string)) (getAxis lastMove))
        eqn:E.
      * assert (Hax : String.eqb (getAxis (Some "U"%string)) (getAxis lastMove)
                      = true).
        { apply orb_true_iff in E as [E|E]; [now apply Hcases|exact E]. }
        apply String.eqb_eq in Hax.
        assert (E2 : sameValue (Some "R"%string) lastMove
                     || String.eqb (getAxis (Some "R"%string)) (getAxis lastMove)
                     = false).
        { apply orb_false_intro.
          - destruct (sameValue (Some "R"%string) lastMove) eqn:E3; [|reflexivity].
            apply Hcases in E3. apply String.eqb_eq in E3.
            rewrite <- Hax in E3. discriminate.
          - rewrite <- Hax. reflexivity. }
        rewrite E2. exists (Some "R"%string), [], false, k.
        split; [reflexivity|]. split; [lia|]. constructor.
      * exists (Some "U"%string), [], true, (S k).
        split; [reflexivity|]. split; [lia|]. constructor.
  - cbn [app drawMove].
    destruct (sameValue (pick moves q) lastMove
              || String.eqb (getAxis (pick moves q)) (getAxis lastMove)).
    + destruct (IH zero k Hk) as (move & draws' & zero' & k' & H1 & H2 & H3).
      exists move, draws', zero', k'. split; [exact H1|]. split; [exact H2|].
      intros Hall. apply H3. now apply List.Forall_cons_iff in Hall.
    + exists (pick moves q), draws, zero, k. split; [reflexivity|].
      split; [lia|]. intros Hall. now apply List.Forall_cons_iff in Hall.
Qed.

Lemma scrambleLoop_progress n :
  forall lastMove draws zero k, (3 * n <= k)%nat ->
  exists tokens rest,
    scrambleLoop n lastMove (getAxis lastMove) (draws ++ alternating zero k)
    = Some (tokens, rest).
Proof.
  induction n as [|n IH]; intros lastMove draws zero k Hk.
  - now eexists _, _.
  - cbn [scrambleLoop].
    destruct (drawMove_progress lastMove draws zero k)
      as (move & draws' & zero' & k' & -> & Hk' & _); [lia|].
    destruct draws' as [|q draws'].
    + destruct k' as [|k']; [lia|]. cbn [app alternating].
      destruct (IH move [] (negb zero') k') as (tokens & rest & Hloop); [lia|].
      cbn [app] in Hloop. rewrite Hloop. now eexists _, _.
    + cbn [app].
      destruct (IH move draws' zero' k') as (tokens & rest & Hloop); [lia|].
      rewrite Hloop. now eexists _, _.
Qed.

(** X17: on values of [Math.random] a scramble that is produced holds 20
    tokens, each a face with a modifier, and no two consecutive faces turn
    about the same axis; and the generation comes to an end on any draws
    once they are followed by 60 that alternate between 0 and 1/3. *)
Theorem generateScramble_wellformed (draws : list Q) :
  List.Forall unitDraw draws ->
  (forall s rest,
     generateScramble draws = Some (s, rest) ->
     exists faces mods,
       s = String.concat " " (tokensOf faces mods) /\
       List.length faces = 20%nat /\ List.length mods = 20%nat /\
       List.Forall (fun f => In f moves) faces /\
       List.Forall (fun m => In m modifiers) mods /\
       axesAlternate faces) /\
  (exists s rest,
     generateScramble (draws ++ alternating true 60) = Some (s, rest)).
Proof.
  intros Hall. split.
  - intros s rest. unfold generateScramble.
    destruct (scrambleLoop 20 _ _ draws) as [[tokens rest']|] eqn:E;
      [|discriminate].
    intros [= <- <-].
    destruct (scrambleLoop_wellformed _ _ _ _ _ _ E Hall)
      as (faces & mods & -> & H1 & H2 & H3 & H4 & H5 & _).
    now exists faces, mods.
  - unfold generateScramble.
    destruct (scrambleLoop_progress 20 (Some EmptyString) draws true 60)
      as (tokens & rest & Hloop); [lia|].
    change (getAxis (Some EmptyString)) with EmptyString in Hloop.
    rewrite Hloop. now eexists _, _.
Qed.

Lemma generateScramble_wellformed_witness :
  generateScramble ([0; 0; 1 # 2; 5 # 6; 1 # 6; 99 # 100]%Q ++ alternating false 50)
  = Some ("R D2 L2 U R' U R' U R' U R' U R' U R' U R' U R' U"%string,
          []) /\
  exists faces mods,
    "R D2 L2 U R' U R' U R' U R' U R' U R' U R' U R' U"%string
    = String.concat " " (tokensOf faces mods) /\
    axesAlternate faces.
Proof.
  split; [vm_compute; reflexivity|].
  destruct (generateScramble_wellformed
              ([0; 0; 1 # 2; 5 # 6; 1 # 6; 99 # 100]%Q ++ alternating false 50))
    as [H _].
  - apply List.Forall_app. split; [|apply alternating_unitDraw].
    repeat (apply List.Forall_cons; [split; lra|]). apply List.Forall_nil.
  - destruct (H _ _ eq_refl) as (faces & mods & H1 & _ & _ & _ & _ & H6).
    now exists faces, mods.
Defined.

(** ** The solve dialog *)

Lemma find_split {A : Type} (p : A -> bool) (l : list A) (x : A) :
  find p l = Some x ->
  exists before after,
    l = before ++ x :: after /\ p x = true /\
    List.Forall (fun y => p y = false) before.
Proof.
  induction l as [|y l IH]; [discriminate|]. cbn [find].
  destruct (p y) eqn:E.
  - intros [= ->]. exists [], l. split; [reflexivity|]. split; [exact E|constructor].
  - intros H. destruct (IH H) as (b & a & -> & Hx & Hb).
    exists (y :: b), a. split; [reflexivity|]. split; [exact Hx|now constructor].
Qed.

Lemma updateFirst_at {A : Type} (p : A -> bool) (f : A -> A) before x after :
  p x = true -> List.Forall (fun y => p y = false) before ->
  updateFirst p f (before ++ x :: after) = Some (before ++ f x :: after).
Proof.
  intros Hx Hb. induction Hb as [|y b Hy Hb IH]; cbn [app updateFirst].
  - now rewrite Hx.
  - now rewrite Hy, IH.
Qed.

Lemma removeFirst_at {A : Type} (p : A -> bool) before x after :
  p x = true -> List.Forall (fun y => p y = false) before ->
  removeFirst p (before ++ x :: after) = Some (before ++ after).
Proof.
  intros Hx Hb. induction Hb as [|y b Hy Hb IH]; cbn [app removeFirst].
  - now rewrite Hx.
  - now rewrite Hy, IH.
Qed.

Lemma find_In_some {A : Type} (p : A -> bool) (l : list A) (x : A) :
  In x l -> p x = true -> exists y, find p l = Some y.
Proof.
  intros Hin Hx. destruct (find p l) as [y|] eqn:E; [now exists y|].
  now rewrite (find_none p l E x Hin) in Hx.
Qed.

Lemma solveIdIs_self x : solveIdIs (Some (solve_id x)) x = true.
Proof. apply String.eqb_refl. Qed.

(** X18: the dialog opened on a solve of the current session selects it,
    and [setPenalty] then writes the penalty of the first solve with that
    id and of no other: the solves before and after it, the times and the
    other sessions stay as they are. *)
Theorem setPenalty_effect
    (st : State) (sess : session) (x : solve) (editing p : option string) :
  getCurrentSession st = Some sess -> In x (solves sess) ->
  exists before y after st',
    showSolveEditModal (Some (solve_id x)) editing st = Some (Some (solve_id x)) /\
    solves sess = before ++ y :: after /\
    solve_id y = solve_id x /\
    List.Forall (fun z => solve_id z <> solve_id x) before /\
    setPenalty (Some (solve_id x)) p st = Some st' /\
    getCurrentSession st'
    = Some (setSolves (before ++ withPenalty p y :: after) sess) /\
    map session_id (sessions st') = map session_id (sessions st).
Proof.
  intros Hcur Hin.
  destruct (find_In_some (solveIdIs (Some (solve_id x))) _ x Hin
              (solveIdIs_self x)) as (y & Hy).
  destruct (find_split _ _ _ Hy) as (before & after & Hl & Hyx & Hb).
  exists before, y, after.
  destruct (editCurrentSolves_found
              (mutateFirst (solveIdIs (Some (solve_id x))) (withPenalty p))
              st sess Hcur) as (st' & Hedit & Hf & _ & Hids & _).
  exists st'. unfold showSolveEditModal, setPenalty. rewrite Hcur, Hy.
  split; [reflexivity|]. split; [exact Hl|].
  split; [now apply String.eqb_eq in Hyx|].
  split.
  { eapply List.Forall_impl; [|exact Hb]. intros z Hz.
    now apply String.eqb_neq in Hz. }
  split; [exact Hedit|]. split; [|exact Hids].
  rewrite Hf. unfold mutateFirst. rewrite Hl.
  now rewrite (updateFirst_at _ _ before y after Hyx Hb).
Qed.

Lemma setPenalty_effect_witness :
  exists st',
    setPenalty (Some "10000"%string) (Some "DNF"%string) twoSessions = Some st' /\
    option_map (map penalty) (currentSolves st')
    = Some [Some "DNF"%string; Some "+2"%string].
Proof.
  destruct (setPenalty_effect twoSessions
              {| session_id := "2"; type := "cross"; name := "Cross 2";
                 solves := [sampleSolve 10000 None;
                            sampleSolve 11000 (Some "+2"%string)];
                 createdAt := 2 |}
              (sampleSolve 10000 None) None (Some "DNF"%string) eq_refl)
    as (before & y & after & st' & _ & _ & _ & _ & H & _).
  - now left.
  - exists st'. split; [exact H|]. vm_compute in H. now injection H as <-.
Defined.

(** X19: [performDeleteSolve] on a solve of the current session splices
    out the first solve with the selected id and no other, keeps the order
    of the rest and closes the selection; with no such solve only the
    selection is closed. *)
Theorem performDeleteSolve_effect
    (st : State) (sess : session) (editing : option string) :
  getCurrentSession st = Some sess ->
  (find (solveIdIs editing) (solves sess) = None ->
   performDeleteSolve editing st = Some (st, None)) /\
  (forall x, In x (solves sess) -> editing = Some (solve_id x) ->
   exists before y after st',
     solves sess = before ++ y :: after /\
     solve_id y = solve_id x /\
     List.Forall (fun z => solve_id z <> solve_id x) before /\
     performDeleteSolve editing st = Some (st', None) /\
     getCurrentSession st' = Some (setSolves (before ++ after) sess) /\
     map session_id (sessions st') = map session_id (sessions st)).
Proof.
  intros Hcur. split.
  - intros Hnone. unfold performDeleteSolve. now rewrite Hcur, Hnone.
  - intros x Hin ->.
    destruct (find_In_some (solveIdIs (Some (solve_id x))) _ x Hin
                (solveIdIs_self x)) as (y & Hy).
    destruct (find_split _ _ _ Hy) as (before & after & Hl & Hyx & Hb).
    exists before, y, after.
    destruct (editCurrentSolves_found
                (spliceFirst (solveIdIs (Some (solve_id x)))) st sess Hcur)
      as (st' & Hedit & Hf & _ & Hids & _).
    exists st'. unfold performDeleteSolve. rewrite Hcur, Hy, Hedit.
    split; [exact Hl|]. split; [now apply String.eqb_eq in Hyx|].
    split.
    { eapply List.Forall_impl; [|exact Hb]. intros z Hz.
      now apply String.eqb_neq in Hz. }
    split; [reflexivity|]. split; [|exact Hids].
    rewrite Hf. unfold spliceFirst. rewrite Hl.
    now rewrite (removeFirst_at _ before y after Hyx Hb).
Qed.

Lemma performDeleteSolve_effect_witness :
  exists st',
    performDeleteSolve (Some "10000"%string) twoSessions = Some (st', None) /\
    currentSolves st' = Some [sampleSolve 11000 (Some "+2"%string)].
Proof.
  destruct (proj2 (performDeleteSolve_effect twoSessions
              {| session_id := "2"; type := "cross"; name := "Cross 2";
                 solves := [sampleSolve 10000 None;
                            sampleSolve 11000 (Some "+2"%string)];
                 createdAt := 2 |}
              (Some "10000"%string) eq_refl) (sampleSolve 10000 None))
    as (before & y & after & st' & _ & _ & _ & H & _).
  - now left.
  - reflexivity.
  - exists st'. split; [exact H|]. vm_compute in H. now injection H as <-.
Defined.

(** ** Cancelling *)

(** X20: Escape outside an input cancels a run and nothing else.  While
    the timer runs it returns to idle with the value 0, the Space flag
    down and no interval active, and the sessions and a pending solve are
    as before; in any other state of the timer, an inspection included,
    nothing changes. *)
Theorem escape_cancels_run_only
    (rt : Runtime) (r : reading) (key : string) (closestInput : bool) :
  timerInv rt ->
  let rt' := Timer.handleKeyDown r "Escape" key false closestInput rt in
  (timerState (appState rt) = "running"%string ->
   timerState (appState rt') = "idle"%string /\
   timerValue (appState rt') = 0%Q /\ spacePressed rt' = false /\
   intervalId (appState rt') = None /\ intervals rt' = ∅ /\
   sessions (appState rt') = sessions (appState rt) /\
   currentSolve (appState rt') = currentSolve (appState rt)) /\
  (timerState (appState rt) <> "running"%string -> rt' = rt).
Proof.
  intros Hinv rt'. subst rt'. unfold Timer.handleKeyDown, timerStateIs.
  change (String.eqb "Escape" "Escape") with true. cbv iota. split.
  - intros Hs. rewrite Hs. change (String.eqb "running" "running") with true.
    cbv iota.
    destruct (timerInv_running rt Hinv Hs) as (Hn & i & Hr & Hi & Hm).
    unfold Timer.cancelSolve. rewrite Hi, handleSet_pos by lia.
    cbn. rewrite Hn. cbn. rewrite Hm.
    repeat split; try reflexivity. apply delete_singleton_eq.
  - intros Hs. apply String.eqb_neq in Hs. now rewrite Hs.
Qed.

Lemma escape_cancels_run_only_witness :
  let r := {| dateNow := 1; performanceNow := 100; scrambleDrawn := "R" |} in
  let running :=
    run [(r, touchstartOn false); (r, touchendOn false)]
      (loaded twoSessions false) in
  timerState (appState running) = "running"%string /\
  timerState
    (appState (Timer.handleKeyDown r "Escape" "Escape" false false running))
  = "idle"%string /\
  intervals (Timer.handleKeyDown r "Escape" "Escape" false false running) = ∅.
Proof.
  intros r running.
  destruct (escape_cancels_run_only running r "Escape" false) as [H _].
  - apply run_keeps_timerInv. now apply timerInv_loaded.
  - split; [reflexivity|]. destruct (H eq_refl) as (H1 & _ & _ & _ & H5 & _).
    split; [exact H1|exact H5].
Defined.

(** ** Start-up *)

Lemma toString_nonempty z : toString z <> EmptyString.
Proof.
  unfold toString. destruct (Z.to_int z) as [d|d]; cbn.
  - unfold DecimalString.NilZero.string_of_uint.
    destruct d; cbn; discriminate.
  - discriminate.
Qed.

Lemma find_idIs_In sid l :
  find (idIs (Some sid)) l <> None <-> In sid (map session_id l).
Proof.
  induction l as [|s l IH]; cbn [find map In]; [easy|].
  cbn [idIs]. destruct (String.eqb_spec (session_id s) sid) as [->|Hne].
  - split; [now left|discriminate].
  - rewrite IH. split; [now right|]. now intros [H|H].
Qed.

(** X21: on stored data of the shape [savedData], where [sessions] is
    absent, falsy or an array of session records with string ids, [init]
    on the initial state ends with a session list that is not empty and a
    current id that is not [null]: with no stored session a session
    "Normal 1" is created and made current, otherwise the stored sessions
    are kept.  The current id names a session unless the stored object
    holds sessions together with a non-empty id that is none of theirs.
    Stored data outside that shape is not covered. *)
Theorem init_sessions
    (data : option savedData) (now created : Z) (scramble : string) :
  exists st',
    init data now created scramble initialState = Some st' /\
    sessions st' <> [] /\
    currentSessionId st' <> None /\
    currentScramble st' = scramble /\
    (storedSessions data = [] ->
     sessions st' = [newSession now created "normal" 0] /\
     getCurrentSession st' = Some (newSession now created "normal" 0)) /\
    (storedSessions data <> [] -> sessions st' = storedSessions data) /\
    (getCurrentSession st' = None <->
     storedSessions data <> [] /\
     exists id, storedId data = Some id /\ id <> EmptyString /\
                ~ In id (map session_id (storedSessions data))).
Proof.
  unfold init.
  assert (Hsess : sessions (loadState data initialState) = storedSessions data).
  { destruct data as [d|]; [|reflexivity]. reflexivity. }
  assert (Hid : currentSessionId (loadState data initialState) = storedId data).
  { destruct data as [d|]; reflexivity. }
  revert Hsess Hid. generalize (loadState data initialState).
  intros st1 Hsess Hid.
  destruct (storedSessions data) as [|s l] eqn:El.
  - (* nothing stored: a session is created *)
    rewrite Hsess. cbn [List.length Nat.eqb].
    unfold createSession. rewrite Hsess.
    cbn [sessions currentSessionId setSessions app List.length idSet session_id].
    assert (Hne : negb (String.eqb (toString now) EmptyString) = true).
    { apply negb_true_iff, String.eqb_neq, toString_nonempty. }
    rewrite Hne. cbn [negb option_map]. eexists. split; [reflexivity|].
    cbn [sessions currentSessionId setCurrentScramble setSessions currentScramble
         idSet]. split; [discriminate|]. split; [discriminate|].
    split; [reflexivity|].
    assert (Hcur : getCurrentSession
                     (setCurrentScramble scramble
                        (setSessions st1
                           [newSession now created "normal" 0]
                           (Some (toString now))))
                   = Some (newSession now created "normal" 0)).
    { unfold getCurrentSession.
      cbn [sessions currentSessionId setCurrentScramble setSessions find idIs
           session_id newSession]. now rewrite String.eqb_refl. }
    split; [intros _; split; [reflexivity|exact Hcur]|].
    split; [intros H; now contradiction H|].
    change (Z.of_nat 0 + 1) with 1.
    split; [intros H|intros [H _]; now contradiction H].
    unfold newSession in Hcur. cbn [typeLabels] in *.
    exfalso. revert H. unfold getCurrentSession.
    cbn [sessions currentSessionId setCurrentScramble setSessions find idIs
         session_id]. now rewrite String.eqb_refl.
  - rewrite Hsess. cbn [List.length Nat.eqb]. rewrite Hid, Hsess.
    destruct (idSet (storedId data)) eqn:Eid; cbn [negb option_map].
    + exists (setCurrentScramble scramble st1). split; [reflexivity|].
      cbn [sessions currentSessionId setCurrentScramble currentScramble].
      rewrite Hsess, Hid. split; [discriminate|].
      split; [now destruct (storedId data)|].
      split; [reflexivity|]. split; [discriminate|]. split; [reflexivity|].
      unfold getCurrentSession.
      cbn [sessions currentSessionId setCurrentScramble]. rewrite Hsess, Hid.
      destruct (storedId data) as [id|]; [|discriminate].
      cbn [idSet] in Eid. apply negb_true_iff, String.eqb_neq in Eid.
      split.
      * intros Hnone. split; [discriminate|]. exists id.
        split; [reflexivity|]. split; [exact Eid|].
        intros Hin. apply find_idIs_In in Hin. now apply Hin.
      * intros (_ & id' & [= <-] & _ & Hnot).
        destruct (find (idIs (Some id)) (s :: l)) eqn:Ef; [|reflexivity].
        exfalso. apply Hnot, find_idIs_In. now rewrite Ef.
    + exists (setCurrentScramble scramble
                (setSessions st1 (s :: l) (Some (session_id s)))).
      split; [reflexivity|].
      cbn [sessions currentSessionId setCurrentScramble setSessions
           currentScramble idSet].
      assert (Hfirst : getCurrentSession
                (setCurrentScramble scramble
                   (setSessions st1 (s :: l) (Some (session_id s)))) = Some s).
      { unfold getCurrentSession.
        cbn [sessions currentSessionId setCurrentScramble setSessions find idIs].
        now rewrite String.eqb_refl. }
      split; [discriminate|].
      split; [discriminate|].
      split; [reflexivity|]. split; [discriminate|]. split; [reflexivity|].
      rewrite Hfirst. split; [discriminate|].
      intros (_ & id & Hsid & Hne & _). rewrite Hsid in Eid. cbn [idSet] in Eid.
      apply negb_false_iff, String.eqb_eq in Eid. exfalso. now apply Hne.
Qed.

(** ** Import of an empty session list *)

(** X22: a document whose [sessions] is the empty array empties the
    session list and leaves the current id as it was, so that no session is
    current: storing a timed solve and adding an accepted typed time both
    throw, until [createSession] supplies a session. *)
Theorem importData_empty_sessions
    (d : document) (st : State) (now stamp : Z) (sc1 sc2 input : string) :
  doc_sessions d = Some (Given []) ->
  let st' := importData (Some d) st in
  sessions st' = [] /\
  currentSessionId st' = currentSessionId st /\
  getCurrentSession st' = None /\
  skipPath now sc1 sc2 st' = None /\
  (forall r, parseTimeInput input = Some r ->
             addTypedTime input now stamp sc1 st' = None) /\
  getCurrentSession (createSession now stamp "normal" st')
  = Some (newSession now stamp "normal" 0).
Proof.
  intros Hd st'.
  assert (Hs : sessions st' = []).
  { subst st'. unfold importData. now rewrite Hd. }
  assert (Hc : currentSessionId st' = currentSessionId st).
  { subst st'. unfold importData. now rewrite Hd. }
  clearbody st'.
  split; [exact Hs|]. split; [exact Hc|].
  split; [unfold getCurrentSession; now rewrite Hs|].
  split.
  { unfold skipPath, skipMeshMetrics, stopTimer, completeSolve.
    destruct (truthy _); cbn [currentSolve currentSessionId sessions];
      now rewrite Hs. }
  split.
  { intros r Hr. unfold addTypedTime. rewrite Hr.
    destruct (parseTimeInput_finite input r Hr) as (t & ->).
    now rewrite Hs. }
  unfold getCurrentSession, createSession. rewrite Hs.
  cbn [sessions currentSessionId setSessions app find idIs session_id].
  now rewrite String.eqb_refl.
Qed.

Lemma importData_empty_sessions_witness :
  let st' :=
    importData
      (Some {| doc_sessions := Some (Given []); doc_settings := None;
               doc_meshSplits := None |}) twoSessions in
  currentSessionId st' = Some "2"%string /\
  getCurrentSession st' = None /\
  addTypedTime "12.34" 5 5 "L D" st' = None.
Proof.
  intros st'.
  destruct (importData_empty_sessions
              {| doc_sessions := Some (Given []); doc_settings := None;
                 doc_meshSplits := None |} twoSessions 5 5 "L D" "L D" "12.34"
              eq_refl) as (_ & H2 & H3 & _ & H5 & _).
  split; [exact H2|]. split; [exact H3|].
  apply (H5 {| parsed_time := Fin 12340; parsed_penalty := None |}).
  reflexivity.
Defined.

(** ** Goal table *)

Lemma goalRowOf_agrees stat (t : Q) : (0 <= t)%Q -> rowAgrees (goalRowOf stat (Fin t)).
Proof.
  intros Ht. unfold rowAgrees, goalRowOf. cbn [row_class row_shown row_status].
  destruct stat as [q| | |]; cbn [ngt nlt nle].
  - destruct (Qle_bool q 0) eqn:E0; destruct (Qle_bool q t) eqn:Et; cbn [negb];
      try apply Qle_bool_true in E0; try apply Qle_bool_false in E0;
      try apply Qle_bool_true in Et; try apply Qle_bool_false in Et;
      try lra; repeat split; try discriminate; try reflexivity; intros; try easy.
  - repeat split; try discriminate; reflexivity.
  - repeat split; try discriminate; reflexivity.
  - repeat split; try discriminate; reflexivity.
Qed.

Lemma goalRowOf_tick_mono stat (t t' : Q) :
  (t <= t')%Q ->
  row_status (goalRowOf stat (Fin t)) = "&#10003;"%string ->
  row_status (goalRowOf stat (Fin t')) = "&#10003;"%string.
Proof.
  intros Htt. unfold goalRowOf. cbn [row_status].
  destruct stat as [q| | |]; cbn [ngt nlt nle]; try discriminate.
  destruct (negb (Qle_bool q 0)); [|discriminate].
  destruct (Qle_bool q t) eqn:Et; [|discriminate]. intros _.
  apply Qle_bool_true in Et.
  replace (Qle_bool q t') with true; [reflexivity|].
  symmetry. apply Qle_bool_true. lra.
Qed.

Lemma targetsBelow_refl g : targetsBelow g g.
Proof. repeat split; apply Qle_refl. Qed.

Lemma goalList_descending :
  StronglySorted (fun a b => targetsBelow (snd a) (snd b)) goalList.
Proof.
  unfold goalList.
  repeat (apply SSorted_cons;
          [|repeat (apply List.Forall_cons;
                    [repeat split; cbn; unfold Qle; cbn; lia|]);
            apply List.Forall_nil]).
  apply SSorted_nil.
Qed.

Lemma sorted_lookup {A : Type} (R : A -> A -> Prop) (l : list A) :
  StronglySorted R l -> (forall x, R x x) ->
  forall (i j : nat) x y, (i <= j)%nat -> l !! i = Some x -> l !! j = Some y -> R x y.
Proof.
  intros Hs Hrefl. induction Hs as [|a l Hs IH Ha]; intros i j x y Hij Hi Hj.
  - discriminate.
  - destruct i as [|i], j as [|j]; cbn in Hi, Hj; try lia.
    + injection Hi as <-. injection Hj as <-. apply Hrefl.
    + injection Hi as <-. eapply List.Forall_forall; [exact Ha|].
      eapply list_elem_of_In, list_elem_of_lookup_2, Hj.
    + apply (IH i j); [lia|assumption|assumption].
Qed.

Lemma GOALS_lookup key g :
  GOALS !! key = Some g <-> In (key, g) goalList.
Proof.
  unfold GOALS. rewrite <- list_elem_of_In.
  split.
  - apply elem_of_list_to_map_2.
  - apply elem_of_list_to_map_1.
    apply (bool_decide_unpack _). vm_compute. exact I.
Qed.

Lemma goalList_positive key g :
  In (key, g) goalList ->
  (0 <= goal_cross g)%Q /\ (0 <= goal_f2l g)%Q /\ (0 <= goal_ll g)%Q.
Proof.
  unfold goalList. cbn [In]. intros H.
  repeat (destruct H as [[= <- <-]|H];
          [repeat split; cbn; unfold Qle; cbn; lia|]).
  contradiction.
Qed.

(** X23: for every key of [GOALS] the goal table has its three phase rows,
    and in each row the class and the status agree: a cross exactly when the
    cell is coloured over, a tick only on a shown average coloured under,
    a dash exactly when no average is shown.  A phase that is ticked for
    one goal is ticked for every goal that stands before it in [GOALS].
    (Averages in exact arithmetic.) *)
Theorem updateGoalTable_rows (key : string) (g : goal) (st : State) :
  GOALS !! key = Some g ->
  exists rows,
    updateGoalTable key st = Some (Some rows) /\
    List.length rows = 3%nat /\
    List.Forall rowAgrees rows /\
    forall key' rows',
      notHarder key' key -> updateGoalTable key' st = Some (Some rows') ->
      Forall2 (fun r r' => row_status r = "&#10003;"%string ->
                           row_status r' = "&#10003;"%string) rows rows'.
Proof.
  intros Hg. pose proof (proj1 (GOALS_lookup key g) Hg) as Hin.
  destruct (goalList_positive key g Hin) as (Pc & Pf & Pl).
  assert (Hkey : String.eqb key EmptyString = false).
  { apply String.eqb_neq. intros ->. revert Hin. unfold goalList. cbn [In].
    intros H. repeat (destruct H as [[=]|H]). contradiction. }
  unfold updateGoalTable at 1. rewrite Hkey, Hg.
  destruct (userStats (getCurrentSession st)) as [[c f] l] eqn:Estats.
  eexists. split; [reflexivity|]. split; [reflexivity|]. split.
  { unfold lit.
    apply List.Forall_cons;
      [|apply List.Forall_cons; [|apply List.Forall_cons; [|apply List.Forall_nil]]];
      apply goalRowOf_agrees; rewrite Qred_correct; assumption. }
  intros key' rows' (i & j & g1 & g2 & Hij & Hi & Hj).
  assert (Hg2 : g2 = g).
  { apply list_elem_of_lookup_2, list_elem_of_In, GOALS_lookup in Hj. congruence. }
  subst g2.
  pose proof (sorted_lookup _ _ goalList_descending
                (fun x => targetsBelow_refl (snd x)) i j _ _ Hij Hi Hj)
    as (Tc & Tf & Tl). cbn [snd] in Tc, Tf, Tl.
  assert (Hg1 : GOALS !! key' = Some g1).
  { apply GOALS_lookup, list_elem_of_In. eapply list_elem_of_lookup_2, Hi. }
  unfold updateGoalTable. rewrite Hg1, Estats.
  destruct (String.eqb key' EmptyString); [discriminate|].
  intros [= <-]. unfold lit.
  apply List.Forall2_cons;
    [|apply List.Forall2_cons; [|apply List.Forall2_cons; [|apply List.Forall2_nil]]];
    apply goalRowOf_tick_mono; rewrite !Qred_correct; assumption.
Qed.

Lemma updateGoalTable_rows_witness :
  exists rows,
    updateGoalTable "sub20" twoSessions = Some (Some rows) /\
    List.Forall rowAgrees rows.
Proof.
  destruct (updateGoalTable_rows "sub20"
              {| goal_cross := 1.8; goal_f2l := 13; goal_ll := 5.2;
                 goal_rotations := 3 |} twoSessions eq_refl)
    as (rows & H1 & _ & H3 & _).
  now exists rows.
Defined.

(** ** A run while a solve is pending *)

Lemma stopTimer_meshBar now sc st :
  truthy (settings st !! "meshBar"%string) = true ->
  stopTimer now sc st = Some (Timer.pending now st).
Proof. intros H. unfold stopTimer. now rewrite H. Qed.

(** A run by touch with the mesh bar enabled leaves its solve pending. *)
Lemma touch_run_pending rt r0 r1 r2 ticks :
  timerInv rt -> timerState (appState rt) = "idle"%string ->
  typingMode rt = false -> inspectionToggle rt = false ->
  truthy (settings (appState rt) !! "meshBar"%string) = true ->
  let final := run (touchRun (lastInterval rt + 1) r0 r1 r2 ticks) rt in
  timerState (appState final) = "idle"%string /\
  typingMode final = false /\ inspectionToggle final = false /\
  settings (appState final) = settings (appState rt) /\
  sessions (appState final) = sessions (appState rt) /\
  currentSessionId (appState final) = currentSessionId (appState rt) /\
  currentScramble (appState final) = currentScramble (appState rt) /\
  lastInterval final = lastInterval rt + 1 /\
  currentSolve (appState final)
  = Some (runSolve r1 r2 ticks (currentScramble (appState rt))).
Proof.
  intros Hinv Hs Hty Htog Hbar final.
  destruct (timerInv_idle rt Hinv Hs) as (Hl & Hi & Hn & Hm).
  subst final. unfold touchRun. rewrite !run_app. cbn [run fold_left dispatch].
  assert (H0 : Timer.touchstart false rt = withSpacePressed true rt).
  { unfold Timer.touchstart, timerStateIs. now rewrite Hty, Hs, Htog. }
  rewrite H0.
  assert (H1 : Timer.touchend r1 false (withSpacePressed true rt)
               = Timer.startTimer r1 (withSpacePressed false rt)).
  { unfold Timer.touchend, timerStateIs.
    change (typingMode (withSpacePressed true rt)) with (typingMode rt).
    rewrite Hty. cbn [appState withSpacePressed spacePressed]. now rewrite Hs. }
  rewrite H1. set (started := Timer.startTimer r1 _).
  destruct (startTimer_fields r1 (withSpacePressed false rt))
    as (S1 & S2 & S3 & S4 & S5 & S6 & S7 & S8 & S9 & S10 & S11).
  fold started in S1, S2, S3, S4, S5, S6, S7, S8, S9, S10, S11.
  cbn [withSpacePressed lastInterval intervals appState] in S4, S5, S7, S8, S9, S10, S11.
  rewrite Hm, insert_empty in S5.
  fold (run (firings (lastInterval rt + 1) ticks) started).
  rewrite timer_firings by (rewrite S5; apply lookup_singleton_eq).
  set (ticked := match last ticks with Some r => Timer.timerTick r started
                                     | None => started end).
  assert (T : timerState (appState ticked) = "running"%string /\
              typingMode ticked = false /\
              inspectionToggle ticked = false /\
              lastInterval ticked = lastInterval rt + 1 /\
              intervalId (appState ticked) = Some (lastInterval rt + 1) /\
              settings (appState ticked) = settings (appState rt) /\
              sessions (appState ticked) = sessions (appState rt) /\
              currentSessionId (appState ticked) = currentSessionId (appState rt) /\
              currentScramble (appState ticked) = currentScramble (appState rt) /\
              timerValue (appState ticked)
              = match last ticks with
                | Some r => Qred (performanceNow r - performanceNow r1)
                | None => 0%Q
                end).
  { subst ticked. unfold typingMode.
    destruct (last ticks); cbn [Timer.timerTick appState withApp setTimerValue
      timerState intervalId intervals settings sessions currentSessionId
      currentScramble timerValue inspectionToggle lastInterval];
      rewrite ?S1, ?S2, ?S3, ?S4, ?S5, ?S7, ?S9, ?S10, ?S11;
      repeat split; try reflexivity; try exact Hty; try exact Htog. }
  destruct T as (T1 & T2 & T3 & T4 & T5 & T6 & T7 & T8 & T9 & T10).
  assert (H2 : Timer.touchend r2 false ticked = Timer.stopTimer r2 ticked).
  { unfold Timer.touchend, timerStateIs. now rewrite T2, T1. }
  rewrite H2. unfold Timer.stopTimer.
  rewrite stopTimer_meshBar by (rewrite T6; exact Hbar).
  unfold typingMode. rewrite T5.
  cbn [appState withApp clearInterval Timer.pending timerState settings
       sessions currentSessionId currentScramble currentSolve inspectionToggle
       lastInterval].
  rewrite T3, T4, T6, T7, T8, T9. unfold timedSolve, runSolve.
  rewrite T9, T10. now repeat split.
Qed.

(** X24: with the mesh bar enabled, a second run by touch that is stopped
    while the solve of the first is still pending replaces it: the first
    solve is never stored, and Skip then stores the second run alone. *)
Theorem pending_solve_replaced
    (rt : Runtime) (sess : session) (r0 r1 r2 r3 r4 r5 : reading)
    (ticks1 ticks2 : list reading) (sc : string) :
  timerInv rt -> timerState (appState rt) = "idle"%string ->
  typingMode rt = false -> inspectionToggle rt = false ->
  truthy (settings (appState rt) !! "meshBar"%string) = true ->
  getCurrentSession (appState rt) = Some sess ->
  let id := lastInterval rt + 1 in
  let first := runSolve r1 r2 ticks1 (currentScramble (appState rt)) in
  let second := runSolve r4 r5 ticks2 (currentScramble (appState rt)) in
  let after1 := run (touchRun id r0 r1 r2 ticks1) rt in
  let after2 := run (touchRun (id + 1) r3 r4 r5 ticks2) after1 in
  currentSolve (appState after1) = Some first /\
  currentSolve (appState after2) = Some second /\
  sessions (appState after2) = sessions (appState rt) /\
  exists st',
    skipMeshMetrics sc (appState after2) = Some st' /\
    currentSolves st' = Some (solves sess ++ [second]) /\
    currentSolve st' = None.
Proof.
  intros Hinv Hs Hty Htog Hbar Hcur id first second after1 after2.
  destruct (touch_run_pending rt r0 r1 r2 ticks1 Hinv Hs Hty Htog Hbar)
    as (A1 & A2 & A3 & A4 & A5 & A6 & A7 & A8 & A9).
  fold id in A1, A2, A3, A4, A5, A6, A7, A8, A9.
  fold after1 in A1, A2, A3, A4, A5, A6, A7, A8, A9.
  assert (Hinv1 : timerInv after1) by now apply run_keeps_timerInv.
  assert (Hbar1 : truthy (settings (appState after1) !! "meshBar"%string) = true)
    by now rewrite A4.
  destruct (touch_run_pending after1 r3 r4 r5 ticks2 Hinv1 A1 A2 A3 Hbar1)
    as (B1 & B2 & B3 & B4 & B5 & B6 & B7 & B8 & B9).
  rewrite A8 in B1, B2, B3, B4, B5, B6, B7, B8, B9.
  fold id in B1, B2, B3, B4, B5, B6, B7, B8, B9.
  fold after2 in B1, B2, B3, B4, B5, B6, B7, B8, B9.
  rewrite A7 in B9. fold second in B9. fold first in A9.
  split; [exact A9|]. split; [exact B9|].
  split; [now rewrite B5, A5|].
  unfold skipMeshMetrics, completeSolve. rewrite B9, B5, B6, A5, A6.
  destruct (pushToCurrent_found (currentSessionId (appState rt)) second _ _ Hcur)
    as (l' & Hpush & Hfind).
  rewrite Hpush. eexists. split; [reflexivity|].
  unfold currentSolves, getCurrentSession.
  cbn [sessions currentSessionId currentSolve]. rewrite Hfind. now split.
Qed.

Lemma pending_solve_replaced_witness :
  let r t := {| dateNow := 1700000000000 + t; performanceNow := inject_Z t;
               scrambleDrawn := "L D B" |} in
  let after :=
    run (touchRun 1 (r 0) (r 500) (r 9000) [r 8990]
         ++ touchRun 2 (r 9500) (r 9600) (r 9900) [r 9890])
      (loaded twoSessions false) in
  exists st',
    skipMeshMetrics "B2" (appState after) = Some st' /\
    option_map (map time) (currentSolves st') = Some [10000; 11000; 290]%Q.
Proof.
  intros r after.
  destruct (pending_solve_replaced (loaded twoSessions false)
              {| session_id := "2"; type := "cross"; name := "Cross 2";
                 solves := [sampleSolve 10000 None;
                            sampleSolve 11000 (Some "+2"%string)];
                 createdAt := 2 |}
              (r 0) (r 500) (r 9000) (r 9500) (r 9600) (r 9900)
              [r 8990] [r 9890] "B2")
    as (_ & _ & _ & st' & H1 & H2 & _).
  - now apply timerInv_loaded.
  - reflexivity.
  - reflexivity.
  - reflexivity.
  - reflexivity.
  - reflexivity.
  - exists st'. subst after. rewrite run_app. split; [exact H1|].
    now rewrite H2.
Defined.
